(** * Fantasy-football statistics pipeline: scoring, normalisation, persistence

    A shallow embedding of [fantasy-football-api/api_lambda.py] and
    [fantasy-football-api/sportsdata_scraper.py].

    - Python numbers are modelled exactly: [int] is [Z], [float] is IEEE-754
      binary64 (the primitive [float] with its specification [spec_float]).
    - A Python [str] is the string of its UTF-8 bytes, as psycopg2 sends it;
      a value that is a [str] or [None] is an [option string].
    - Python dicts are finite maps; [d.get(k, default)] is lookup with a
      default, which a member that is there with the value [None] does not
      take.
    - Exceptions are values of type [exn]; fallible code returns [result].
    - The PostgreSQL database behind psycopg2 is an explicit state with its
      transaction status; HTTP and secret-store replies are inputs. *)

From Stdlib Require Import ZArith Bool List Ascii String Floats Lia.
From stdpp Require Import gmap strings list pretty.

Open Scope string_scope.
Open Scope Z_scope.

(** ** Exceptions and fallible computations *)

Inductive exn : Type :=
| OverflowError            (* int too large for a float *)
| ZeroDivisionError
| TypeError                (* arithmetic on None *)
| KeyError (key : string)  (* d[key] on a missing key *)
| RequestException         (* requests: transport failure or non-2xx status *)
| ClientError              (* boto3: the secret cannot be read *)
| OperationalError         (* psycopg2: no connection *)
| ProgrammingError         (* psycopg2: no result row to fetch *)
| ValueError               (* psycopg2: a string parameter with a NUL character *)
| DataError                (* psycopg2: value rejected by a column type *)
| IntegrityError           (* psycopg2: NOT NULL or foreign key violated *)
| InFailedSqlTransaction.  (* psycopg2: statement sent in an aborted transaction *)

Inductive result (A : Type) : Type :=
| Ok (a : A)
| Raise (e : exn).
Arguments Ok {A} a.
Arguments Raise {A} e.

Definition bind {A B : Type} (r : result A) (k : A -> result B) : result B :=
  match r with
  | Ok a => k a
  | Raise e => Raise e
  end.

Notation "'let*' x ':=' r 'in' k" := (bind r (fun x => k))
  (at level 10, x name, r at level 100, k at level 200).

(** ** Python numbers and provider records *)

(** A JSON number or [null], as [json] reads it: an [int], a [float] or
    [None]. *)
Inductive num : Type :=
| PyInt (n : Z)
| PyFloat (f : float)
| PyNone.

(** One record of the provider's per-player weekly statistics: a JSON object
    whose members are strings or [null] (Name, Team, Position, ...) or
    numbers or [null] (the statistics), kept by sort.  A string member that
    is [null] is [None]. *)
Record provider_record : Type := {
  str_members : gmap string (option string);
  num_members : gmap string num;
}.

(** [stat.get(k, default)] on a string member and on a number member: the
    default stands for a member that is missing, not for one that is
    [None]. *)
Definition get_str (stat : provider_record) (k : string) (default : string)
    : option string :=
  match str_members stat !! k with
  | Some v => v
  | None => Some default
  end.

Definition get_num (stat : provider_record) (k : string) (default : num) : num :=
  match num_members stat !! k with
  | Some v => v
  | None => default
  end.

(** [d[k]] *)
Definition getitem (d : gmap string string) (k : string) : result string :=
  match d !! k with
  | Some v => Ok v
  | None => Raise (KeyError k)
  end.

(** ** Arithmetic of [int] and [float] *)

Module PyNum.

(** The integer [n] as an exact (unrounded) binary number. *)
Definition Z2SF (n : Z) : spec_float :=
  match n with
  | Z0 => S754_zero false
  | Zpos p => S754_finite false p 0
  | Zneg p => S754_finite true p 0
  end.

(** Half-way between the largest finite binary64 number and [2^1024]:
    a number of at least this magnitude rounds (to nearest, ties to even)
    out of the range of [float]. *)
Definition float_overflow_threshold : Z := 2 ^ 1024 - 2 ^ 970.

(** [float(n)] for an int [n], as [float + int] and [float * int] use it:
    correctly rounded, [OverflowError] when out of range. *)
Definition int_to_float (n : Z) : result float :=
  if Z.abs n <? float_overflow_threshold
  then Ok (SF2Prim (binary_normalize prec emax n 0 false))
  else Raise OverflowError.

(** [a / b] for ints: the correctly rounded quotient. *)
Definition int_truediv (a b : Z) : result float :=
  if b =? 0 then Raise ZeroDivisionError
  else if Z.abs a <? float_overflow_threshold * Z.abs b
  then Ok (SF2Prim (SFdiv prec emax (Z2SF a) (Z2SF b)))
  else Raise OverflowError.

Definition to_float (v : num) : result float :=
  match v with
  | PyInt n => int_to_float n
  | PyFloat f => Ok f
  | PyNone => Raise TypeError
  end.

(** [a + b], [a - b], [a * b]: an operand that is [None] is a [TypeError];
    two ints give an int; otherwise the operands are taken as floats. *)
Definition add (a b : num) : result num :=
  match a, b with
  | PyNone, _ | _, PyNone => Raise TypeError
  | PyInt x, PyInt y => Ok (PyInt (x + y))
  | _, _ =>
      let* x := to_float a in
      let* y := to_float b in
      Ok (PyFloat (x + y)%float)
  end.

Definition sub (a b : num) : result num :=
  match a, b with
  | PyNone, _ | _, PyNone => Raise TypeError
  | PyInt x, PyInt y => Ok (PyInt (x - y))
  | _, _ =>
      let* x := to_float a in
      let* y := to_float b in
      Ok (PyFloat (x - y)%float)
  end.

Definition mul (a b : num) : result num :=
  match a, b with
  | PyNone, _ | _, PyNone => Raise TypeError
  | PyInt x, PyInt y => Ok (PyInt (x * y))
  | _, _ =>
      let* x := to_float a in
      let* y := to_float b in
      Ok (PyFloat (x * y)%float)
  end.

(** [a / b]: true division, never integer division. *)
Definition truediv (a b : num) : result num :=
  match a, b with
  | PyNone, _ | _, PyNone => Raise TypeError
  | PyInt x, PyInt y =>
      let* q := int_truediv x y in
      Ok (PyFloat q)
  | _, _ =>
      let* x := to_float a in
      let* y := to_float b in
      if is_zero y then Raise ZeroDivisionError
      else Ok (PyFloat (x / y)%float)
  end.

(** The integer nearest to [10 * m * 2^e], ties to the even one. *)
Definition tenths (m : positive) (e : Z) : Z :=
  let v := 10 * Zpos m in
  match e with
  | Zneg p =>
      let d := Z.pow_pos 2 p in
      let q := v / d in
      let r := v mod d in
      match 2 * r ?= d with
      | Lt => q
      | Gt => q + 1
      | Eq => if Z.even q then q else q + 1
      end
  | _ => v * 2 ^ e
  end.

(** [round(x, 1)] for a float [x]: the exact value of [x] is rounded to one
    decimal digit (ties to even) and the decimal is read back as the nearest
    float; the sign is kept; infinities and NaN round to themselves. *)
Definition round1 (x : float) : float :=
  match Prim2SF x with
  | S754_finite s m e =>
      match tenths m e with
      | Zpos n => SF2Prim (SFdiv prec emax (S754_finite s n 0) (S754_finite false 10 0))
      | _ => SF2Prim (S754_zero s)
      end
  | _ => x
  end.

(** [round(v, 1)]: an int rounds to itself, [None] is a [TypeError]. *)
Definition round_1 (v : num) : result num :=
  match v with
  | PyInt n => Ok (PyInt n)
  | PyFloat x => Ok (PyFloat (round1 x))
  | PyNone => Raise TypeError
  end.

(** [not v] *)
Definition falsy (v : Z) : bool := v =? 0.

End PyNum.

(** ** The PostgreSQL database behind psycopg2

    The three tables of the schema that [lambda_handler] creates, the four
    SQL statements it sends, and the transaction block of a psycopg2
    connection (autocommit off): a statement that fails aborts the block,
    every later statement of an aborted block is refused, and committing an
    aborted block rolls it back. *)

Module Pg.

(** [CURRENT_DATE] and [CURRENT_TIMESTAMP] of a transaction *)
Record clock : Type := {
  current_date : Z;
  current_timestamp : Z;
}.

(** players (id, name NOT NULL, team, position, created_at),
    UNIQUE(name, team); [None] is NULL *)
Record player_row : Type := {
  player_id : Z;
  player_name : string;
  player_team : option string;
  player_position : option string;
  player_created_at : Z;
}.

(** games (id, week, year, game_date, created_at), UNIQUE(week, year) *)
Record game_row : Type := {
  game_id : Z;
  game_week : Z;
  game_year : Z;
  game_date : Z;
  game_created_at : Z;
}.

(** player_stats (id, player_id, game_id, fantasy_points, updated_at),
    UNIQUE(player_id, game_id).  [stat_fantasy_points] is the number assigned
    to the DECIMAL(5,2) column, which keeps it to two decimals; [PyNone] is
    NULL. *)
Record stat_row : Type := {
  stat_id : Z;
  stat_player_id : Z;
  stat_game_id : Z;
  stat_fantasy_points : num;
  stat_updated_at : Z;
}.

(** A table is the list of its rows in insertion order; a table that does
    not exist yet is the empty one, so CREATE TABLE IF NOT EXISTS leaves
    every table as it is. *)
Record tables : Type := {
  players : list player_row;
  games : list game_row;
  player_stats : list stat_row;
}.

(** The sequences behind the SERIAL columns: the last value handed out.
    Sequences are not transactional. *)
Record sequences : Type := {
  players_id_seq : Z;
  games_id_seq : Z;
  player_stats_id_seq : Z;
}.

Record database : Type := {
  tables_of : tables;
  sequences_of : sequences;
}.

Definition empty_tables : tables :=
  {| players := []; games := []; player_stats := [] |}.

Definition empty_database : database :=
  {| tables_of := empty_tables;
     sequences_of := {| players_id_seq := 0; games_id_seq := 0; player_stats_id_seq := 0 |} |}.

(** *** Column types *)

Fixpoint all_spaces (s : string) : bool :=
  match s with
  | EmptyString => true
  | String c s' => Ascii.eqb c " "%char && all_spaces s'
  end.

(** A byte of a UTF-8 string that continues a character: [10xxxxxx]. *)
Definition continuation (c : ascii) : bool :=
  (128 <=? nat_of_ascii c)%nat && (nat_of_ascii c <? 192)%nat.

(** The number of characters of a UTF-8 string: the bytes that start one. *)
Fixpoint char_length (s : string) : nat :=
  match s with
  | EmptyString => O
  | String c s' => if continuation c then char_length s' else S (char_length s')
  end.

(** The first [n] characters of a string, and what follows them. *)
Fixpoint take_chars (n : nat) (s : string) : string :=
  match s with
  | EmptyString => EmptyString
  | String c s' =>
      if continuation c then String c (take_chars n s')
      else match n with
           | O => EmptyString
           | S n' => String c (take_chars n' s')
           end
  end.

Fixpoint drop_chars (n : nat) (s : string) : string :=
  match s with
  | EmptyString => EmptyString
  | String c s' =>
      if continuation c then drop_chars n s'
      else match n with
           | O => s
           | S n' => drop_chars n' s'
           end
  end.

(** VARCHAR(n) counts characters: a longer string is an error, unless the
    excess characters are all spaces, which are cut off. *)
Definition varchar (n : nat) (s : string) : result string :=
  if (char_length s <=? n)%nat then Ok s
  else if all_spaces (drop_chars n s)
  then Ok (take_chars n s)
  else Raise DataError.

(** INTEGER *)
Definition integer (v : Z) : result Z :=
  if (- 2 ^ 31 <=? v) && (v <? 2 ^ 31) then Ok v else Raise DataError.

(** A column that takes NULL. *)
Definition nullable {A B : Type} (column : A -> result B) (v : option A)
    : result (option B) :=
  match v with
  | Some a => let* b := column a in Ok (Some b)
  | None => Ok None
  end.

(** The string has a NUL character. *)
Fixpoint has_nul (s : string) : bool :=
  match s with
  | EmptyString => false
  | String c s' => Ascii.eqb c "000"%char || has_nul s'
  end.

(** The float nearest to 999.995: from there on, the decimal that psycopg2
    sends for a float rounds to 1000.00 or more. *)
Definition decimal_5_2_limit : float :=
  SF2Prim (SFdiv prec emax (PyNum.Z2SF 999995) (PyNum.Z2SF 1000)).

(** DECIMAL(5,2): at most three digits before the decimal point; NaN is a
    value of the type, the infinities are not; NULL is taken. *)
Definition decimal_5_2 (v : num) : result num :=
  match v with
  | PyInt n => if Z.abs n <? 1000 then Ok v else Raise DataError
  | PyFloat x =>
      if is_nan x then Ok v
      else if (abs x <? decimal_5_2_limit)%float then Ok v
      else Raise DataError
  | PyNone => Ok v
  end.

(** *** INSERT ... ON CONFLICT ... DO UPDATE

    [upsert conflict update new rows]: the row in conflict with the new one
    is updated in place, otherwise the new row is added; the second component
    is the row the statement returns. *)
Fixpoint upsert {R : Type} (conflict : R -> bool) (update : R -> R) (new : R)
    (rows : list R) : list R * R :=
  match rows with
  | [] => ([new], new)
  | r :: rows' =>
      if conflict r then (update r :: rows', update r)
      else let '(rows'', x) := upsert conflict update new rows' in (r :: rows'', x)
  end.

(** The statements with their parameters; a parameter that is [None] is sent
    as NULL. *)
Inductive statement : Type :=
| CreateTables
| UpsertGame (week : Z) (year : option Z)
| UpsertPlayer (name team position : option string)
| UpsertPlayerStats (player_id game_id : Z) (fantasy_points : num).

(** A string parameter of the statement has a NUL character. *)
Definition nul_parameter (s : statement) : bool :=
  match s with
  | UpsertPlayer name team position =>
      from_option has_nul false name || from_option has_nul false team
      || from_option has_nul false position
  | _ => false
  end.

Definition same_game (week year : Z) (r : game_row) : bool :=
  bool_decide (game_week r = week) && bool_decide (game_year r = year).

(** ON CONFLICT (name, team): a row conflicts with the new one when both
    columns are equal; NULL is equal to nothing, so that a new row without a
    team conflicts with no row. *)
Definition same_player (name : string) (team : option string) (r : player_row) : bool :=
  match team with
  | Some _ => bool_decide (player_name r = name) && bool_decide (player_team r = team)
  | None => false
  end.

Definition same_stat (pid gid : Z) (r : stat_row) : bool :=
  bool_decide (stat_player_id r = pid) && bool_decide (stat_game_id r = gid).

Definition set_game_date (d : Z) (r : game_row) : game_row :=
  {| game_id := game_id r; game_week := game_week r; game_year := game_year r;
     game_date := d; game_created_at := game_created_at r |}.

Definition set_position (p : option string) (r : player_row) : player_row :=
  {| player_id := player_id r; player_name := player_name r;
     player_team := player_team r; player_position := p;
     player_created_at := player_created_at r |}.

Definition set_points (v : num) (ts : Z) (r : stat_row) : stat_row :=
  {| stat_id := stat_id r; stat_player_id := stat_player_id r;
     stat_game_id := stat_game_id r; stat_fantasy_points := v;
     stat_updated_at := ts |}.

(** One statement against the tables [t] and the sequences [q]: the value
    of RETURNING id (if any) and the new tables, or the error, and the new
    sequences.  The values are coerced to their column types when the
    statement is planned, before [nextval] is called; [nextval] is called
    before NOT NULL and the foreign keys are checked and before the conflict
    is detected, and a value that a sequence has handed out is not given
    back when the statement fails.  (The sequences are taken not to run out
    of the INTEGER range, and not to lag behind the ids of their tables, so
    that a new id never violates PRIMARY KEY.) *)
Definition run_statement (now : clock) (s : statement) (t : tables) (q : sequences)
    : result (option Z * tables) * sequences :=
  match s with
  | CreateTables => (Ok (None, t), q)
  | UpsertGame week year =>
      (* INSERT INTO games (week, year, game_date) VALUES (%s, %s, CURRENT_DATE)
         ON CONFLICT (week, year) DO UPDATE SET game_date = EXCLUDED.game_date
         RETURNING id *)
      let planned :=
        let* week := integer week in
        let* year := nullable integer year in
        Ok (week, year) in
      match planned with
      | Raise e => (Raise e, q)
      | Ok (week, year) =>
          let id := games_id_seq q + 1 in
          let q' := {| players_id_seq := players_id_seq q; games_id_seq := id;
                       player_stats_id_seq := player_stats_id_seq q |} in
          match year with
          | None =>
              (* year INTEGER NOT NULL *)
              (Raise IntegrityError, q')
          | Some year =>
              let new := {| game_id := id; game_week := week; game_year := year;
                            game_date := current_date now;
                            game_created_at := current_timestamp now |} in
              let '(rows, r) := upsert (same_game week year)
                                  (set_game_date (current_date now)) new (games t) in
              (Ok (Some (game_id r),
                   {| players := players t; games := rows;
                      player_stats := player_stats t |}),
               q')
          end
      end
  | UpsertPlayer name team position =>
      (* INSERT INTO players (name, team, position) VALUES (%s, %s, %s)
         ON CONFLICT (name, team) DO UPDATE SET position = EXCLUDED.position
         RETURNING id *)
      let planned :=
        let* name := nullable (varchar 100) name in
        let* team := nullable (varchar 3) team in
        let* position := nullable (varchar 5) position in
        Ok (name, team, position) in
      match planned with
      | Raise e => (Raise e, q)
      | Ok (name, team, position) =>
          let id := players_id_seq q + 1 in
          let q' := {| players_id_seq := id; games_id_seq := games_id_seq q;
                       player_stats_id_seq := player_stats_id_seq q |} in
          match name with
          | None =>
              (* name VARCHAR(100) NOT NULL *)
              (Raise IntegrityError, q')
          | Some name =>
              let new := {| player_id := id; player_name := name; player_team := team;
                            player_position := position;
                            player_created_at := current_timestamp now |} in
              let '(rows, r) := upsert (same_player name team) (set_position position)
                                  new (players t) in
              (Ok (Some (player_id r),
                   {| players := rows; games := games t;
                      player_stats := player_stats t |}),
               q')
          end
      end
  | UpsertPlayerStats pid gid fantasy_points =>
      (* INSERT INTO player_stats (player_id, game_id, fantasy_points)
         VALUES (%s, %s, %s) ON CONFLICT (player_id, game_id) DO UPDATE
         SET fantasy_points = EXCLUDED.fantasy_points,
             updated_at = CURRENT_TIMESTAMP *)
      match decimal_5_2 fantasy_points with
      | Raise e => (Raise e, q)
      | Ok fantasy_points =>
          let id := player_stats_id_seq q + 1 in
          let q' := {| players_id_seq := players_id_seq q;
                       games_id_seq := games_id_seq q;
                       player_stats_id_seq := id |} in
          let new := {| stat_id := id; stat_player_id := pid; stat_game_id := gid;
                        stat_fantasy_points := fantasy_points;
                        stat_updated_at := current_timestamp now |} in
          let '(rows, _) := upsert (same_stat pid gid)
                              (set_points fantasy_points (current_timestamp now))
                              new (player_stats t) in
          (* player_id REFERENCES players(id), game_id REFERENCES games(id) *)
          if existsb (fun r => player_id r =? pid) (players t)
             && existsb (fun r => game_id r =? gid) (games t)
          then (Ok (None,
                    {| players := players t; games := games t; player_stats := rows |}),
                q')
          else (Raise IntegrityError, q')
      end
  end.

(** *** Connections *)

Inductive txn_status : Type :=
| Idle            (* no transaction block open *)
| InTransaction   (* a block is open; [working] holds its uncommitted tables *)
| Aborted.        (* the block has failed *)

Record connection : Type := {
  status : txn_status;
  working : tables;
}.

End Pg.

(** ** The world around one invocation

    What the handler reads from outside (environment variables, the replies
    of the provider, the secret store, the database server) and what it does
    to the outside (the effects, in order, and the database). *)

Inductive endpoint : Type :=
| CurrentWeek                              (* /scores/json/CurrentWeek *)
| PlayerGameStatsByWeek (year : option Z) (week : Z).
    (* /stats/json/PlayerGameStatsByWeek/{year}/{week}; [None] is written "None" *)

Inductive effect : Type :=
| HttpGet (e : endpoint)
| GetSecretValue (secret_id : string)
| Connect (host database user password port : string)
| Execute (s : Pg.statement)
| Commit
| Close.

Record world : Type := {
  (** os.environ *)
  environ : gmap string string;
  (** the JSON object the provider answers to the current-week query, or the
      exception of [requests.get] / [raise_for_status] *)
  current_week_reply : result (gmap string Z);
  (** the same for the statistics of a year and week *)
  stats_reply : option Z -> Z -> result (list provider_record);
  (** the secret store: secret id to the JSON object of its SecretString *)
  secrets : gmap string (gmap string string);
  (** whether the database server accepts host, database, user, password, port *)
  login_ok : string -> string -> string -> string -> string -> bool;
  (** the date and time of the transaction that writes the data *)
  now : Pg.clock;
}.

Record state : Type := {
  effects : list effect;        (* calls made so far, oldest first *)
  db : Pg.database;             (* the server: committed tables, sequences *)
  conn : option Pg.connection;  (* the open connection, if any *)
}.

(** Computations that may raise and that act on the state; the state reached
    when an exception is raised is kept. *)
Definition M (A : Type) : Type := state -> result A * state.

Definition ret {A : Type} (a : A) : M A := fun st => (Ok a, st).

Definition raise {A : Type} (e : exn) : M A := fun st => (Raise e, st).

Definition lift {A : Type} (r : result A) : M A := fun st => (r, st).

Definition bindM {A B : Type} (m : M A) (k : A -> M B) : M B :=
  fun st =>
    match m st with
    | (Ok a, st') => k a st'
    | (Raise e, st') => (Raise e, st')
    end.

Notation "'let!' x ':=' m 'in' k" := (bindM m (fun x => k))
  (at level 10, x name, m at level 100, k at level 200).

(** [try: m  except Exception as e: handler e] *)
Definition try_except {A : Type} (m : M A) (handler : exn -> M A) : M A :=
  fun st =>
    match m st with
    | (Ok a, st') => (Ok a, st')
    | (Raise e, st') => handler e st'
    end.

Definition perform (e : effect) : M unit :=
  fun st => (Ok tt, {| effects := effects st ++ [e]; db := db st; conn := conn st |}).

(** [requests.get(url, headers=headers)], [raise_for_status()], [.json()] *)
Definition requests_get_current_week (w : world) : M (gmap string Z) :=
  let! _ := perform (HttpGet CurrentWeek) in
  lift (current_week_reply w).

Definition requests_get_stats (w : world) (year : option Z) (week : Z)
    : M (list provider_record) :=
  let! _ := perform (HttpGet (PlayerGameStatsByWeek year week)) in
  lift (stats_reply w year week).

(** [secrets_client.get_secret_value(SecretId=...)] and [json.loads] of its
    SecretString *)
Definition get_secret_value (w : world) (secret_id : string) : M (gmap string string) :=
  let! _ := perform (GetSecretValue secret_id) in
  match secrets w !! secret_id with
  | Some creds => ret creds
  | None => raise ClientError
  end.

(** [psycopg2.connect(host=..., database=..., user=..., password=..., port=...)] *)
Definition connect (w : world) (host database user password port : string) : M unit :=
  let! _ := perform (Connect host database user password port) in
  fun st =>
    if login_ok w host database user password port
    then (Ok tt, {| effects := effects st; db := db st;
                    conn := Some {| Pg.status := Pg.Idle;
                                    Pg.working := Pg.tables_of (db st) |} |})
    else (Raise OperationalError, st).

(** [cursor.execute(sql, params)].  psycopg2 first writes the parameters
    into the statement, and refuses a string with a NUL character: nothing
    is sent then, and the transaction block is as it was.  The first
    statement that is sent after a commit opens a transaction block on the
    committed tables. *)
Definition execute (now : Pg.clock) (s : Pg.statement) : M (option Z) :=
  let! _ := perform (Execute s) in
  fun st =>
    match conn st with
    | None => (Raise OperationalError, st)
    | Some c =>
        if Pg.nul_parameter s then (Raise ValueError, st)
        else
          match Pg.status c with
          | Pg.Aborted => (Raise InFailedSqlTransaction, st)
          | status =>
              let t := match status with
                       | Pg.Idle => Pg.tables_of (db st)
                       | _ => Pg.working c
                       end in
              match Pg.run_statement now s t (Pg.sequences_of (db st)) with
              | (Ok (r, t'), q') =>
                  (Ok r,
                   {| effects := effects st;
                      db := {| Pg.tables_of := Pg.tables_of (db st);
                               Pg.sequences_of := q' |};
                      conn := Some {| Pg.status := Pg.InTransaction; Pg.working := t' |} |})
              | (Raise e, q') =>
                  (Raise e,
                   {| effects := effects st;
                      db := {| Pg.tables_of := Pg.tables_of (db st);
                               Pg.sequences_of := q' |};
                      conn := Some {| Pg.status := Pg.Aborted; Pg.working := t |} |})
              end
          end
    end.

(** [cursor.fetchone()[0]] *)
Definition fetchone_0 (r : option Z) : M Z :=
  match r with
  | Some id => ret id
  | None => raise ProgrammingError
  end.

(** [conn.commit()]: COMMIT of an aborted block is a ROLLBACK. *)
Definition commit : M unit :=
  let! _ := perform Commit in
  fun st =>
    match conn st with
    | None => (Raise OperationalError, st)
    | Some c =>
        match Pg.status c with
        | Pg.Idle => (Ok tt, st)
        | Pg.InTransaction =>
            (Ok tt,
             {| effects := effects st;
                db := {| Pg.tables_of := Pg.working c;
                         Pg.sequences_of := Pg.sequences_of (db st) |};
                conn := Some {| Pg.status := Pg.Idle; Pg.working := Pg.working c |} |})
        | Pg.Aborted =>
            (Ok tt,
             {| effects := effects st; db := db st;
                conn := Some {| Pg.status := Pg.Idle;
                                Pg.working := Pg.tables_of (db st) |} |})
        end
    end.

(** [conn.close()]: an open block is rolled back. *)
Definition close : M unit :=
  let! _ := perform Close in
  fun st => (Ok tt, {| effects := effects st; db := db st; conn := None |}).

(** ** [api_lambda.py] *)

Module api_lambda.

(** The invocation event, a JSON object whose members week and year are
    integers or null when they are there.  [week] is [event.get('week')],
    which is [None] for a member that is missing or null; [year] is the
    member itself, [Some None] when it is there and null. *)
Record event : Type := {
  week : option Z;
  year : option (option Z);
}.

(** The canonical player record built by the handler:
    {'name': ..., 'team': ..., 'position': ..., 'stats': {...}};
    name, team and position are strings or [None]. *)
Record player : Type := {
  name : option string;
  team : option string;
  position : option string;
  stats : gmap string num;
}.

(** The body of a response: [json.dumps] of a fixed text, of
    [f'Error: {str(e)}'], or of the summary object. *)
Inductive body : Type :=
| BodyText (text : string)
| BodyError (e : exn)
| BodySummary (message : string) (week : Z) (year : option Z) (total_players_found : nat)
              (data_source : string).

Record response : Type := {
  statusCode : Z;
  response_body : body;
}.

(** [calculate_fantasy_points(stat)], statement by statement. *)
Definition calculate_fantasy_points (stat : provider_record) : result num :=
  let points := PyInt 0 in
  (* points += (stat.get('PassingYards', 0) / 25) * 1 *)
  let* q := PyNum.truediv (get_num stat "PassingYards" (PyInt 0)) (PyInt 25) in
  let* t := PyNum.mul q (PyInt 1) in
  let* points := PyNum.add points t in
  (* points += stat.get('PassingTouchdowns', 0) * 4 *)
  let* t := PyNum.mul (get_num stat "PassingTouchdowns" (PyInt 0)) (PyInt 4) in
  let* points := PyNum.add points t in
  (* points -= stat.get('Interceptions', 0) * 2 *)
  let* t := PyNum.mul (get_num stat "Interceptions" (PyInt 0)) (PyInt 2) in
  let* points := PyNum.sub points t in
  (* points += (stat.get('RushingYards', 0) / 10) * 1 *)
  let* q := PyNum.truediv (get_num stat "RushingYards" (PyInt 0)) (PyInt 10) in
  let* t := PyNum.mul q (PyInt 1) in
  let* points := PyNum.add points t in
  (* points += stat.get('RushingTouchdowns', 0) * 6 *)
  let* t := PyNum.mul (get_num stat "RushingTouchdowns" (PyInt 0)) (PyInt 6) in
  let* points := PyNum.add points t in
  (* points += (stat.get('ReceivingYards', 0) / 10) * 1 *)
  let* q := PyNum.truediv (get_num stat "ReceivingYards" (PyInt 0)) (PyInt 10) in
  let* t := PyNum.mul q (PyInt 1) in
  let* points := PyNum.add points t in
  (* points += stat.get('ReceivingTouchdowns', 0) * 6 *)
  let* t := PyNum.mul (get_num stat "ReceivingTouchdowns" (PyInt 0)) (PyInt 6) in
  let* points := PyNum.add points t in
  (* points += stat.get('Receptions', 0) * 1 *)
  let* t := PyNum.mul (get_num stat "Receptions" (PyInt 0)) (PyInt 1) in
  let* points := PyNum.add points t in
  (* points -= stat.get('Fumbles', 0) * 2 *)
  let* t := PyNum.mul (get_num stat "Fumbles" (PyInt 0)) (PyInt 2) in
  let* points := PyNum.sub points t in
  (* return round(points, 1) *)
  PyNum.round_1 points.

(** "Format data for database": the loop
    [for stat in stats_data: ...; all_players.append(player)],
    run on the records still to visit and the list built so far. *)
Fixpoint format_loop (todo : list provider_record) (all_players : list player)
    : result (list player) :=
  match todo with
  | [] => Ok all_players
  | stat :: todo' =>
      let* fantasy_points := calculate_fantasy_points stat in
      let player :=
        {| name := get_str stat "Name" "";
           team := get_str stat "Team" "";
           position := get_str stat "Position" "";
           stats := {[ "fantasy_points" := fantasy_points ]} |} in
      format_loop todo' (all_players ++ [player])
  end.

(** "Process players": the loop [for player in all_players: try: ... except
    Exception: ... continue], run on the players still to visit and the
    count so far. *)
Fixpoint process_players (now : Pg.clock) (game_id : Z) (todo : list player)
    (success_count : nat) : M nat :=
  match todo with
  | [] => ret success_count
  | player :: todo' =>
      let! success_count :=
        try_except
          (let! r := execute now (Pg.UpsertPlayer (name player) (team player)
                                    (position player)) in
           let! player_id := fetchone_0 r in
           let stats := stats player in
           let fantasy_points := default (PyInt 0) (stats !! "fantasy_points") in
           let! _ := execute now (Pg.UpsertPlayerStats player_id game_id fantasy_points) in
           ret (S success_count))
          (fun e => ret success_count) in
      process_players now game_id todo' success_count
  end.

(** The persistence step: "Insert game record", "Process players" and the
    commit that follows. *)
Definition persistence_step (now : Pg.clock) (current_week : Z) (current_year : option Z)
    (all_players : list player) : M nat :=
  let! r := execute now (Pg.UpsertGame current_week current_year) in
  let! game_id := fetchone_0 r in
  let! success_count := process_players now game_id all_players 0 in
  let! _ := commit in
  ret success_count.

(** [not api_key] *)
Definition no_key (api_key : option string) : bool :=
  match api_key with
  | None => true
  | Some k => bool_decide (k = "")
  end.

(** [not event.get('week')] *)
Definition no_week (week : option Z) : bool :=
  match week with
  | None => true
  | Some v => PyNum.falsy v
  end.

Definition lambda_handler (w : world) (event : event) : M response :=
  (* secret_arn = os.environ['DB_SECRET_ARN'] *)
  let! secret_arn := lift (getitem (environ w) "DB_SECRET_ARN") in
  (* api_key = os.environ.get('SPORTSDATA_API_KEY') *)
  let api_key := environ w !! "SPORTSDATA_API_KEY" in
  let current_week := default 1 (week event) in
  (* current_year = event.get('year', 2024) *)
  let current_year := default (Some 2024) (year event) in
  if no_key api_key then
    ret {| statusCode := 400;
           response_body := BodyText "SPORTSDATA_API_KEY environment variable required" |}
  else
    try_except
      ((* Get current week if not specified *)
       let! current_week :=
         if no_week (week event) then
           let! week_response := requests_get_current_week w in
           ret (default 1 (week_response !! "Week"))
         else ret current_week in
       (* Get player stats for the week *)
       let! stats_data := requests_get_stats w current_year current_week in
       (* Format data for database *)
       let! all_players := lift (format_loop stats_data []) in
       if bool_decide (all_players = []) then
         ret {| statusCode := 200;
                response_body := BodyText "No players found from API" |}
       else
         (* Save to database *)
         let! db_creds := get_secret_value w secret_arn in
         let! host := lift (getitem db_creds "host") in
         let! database := lift (getitem db_creds "database") in
         let! user := lift (getitem db_creds "username") in
         let! password := lift (getitem db_creds "password") in
         let! port := lift (getitem db_creds "port") in
         let! _ := connect w host database user password port in
         (* Create tables *)
         let! _ := execute (now w) Pg.CreateTables in
         let! _ := commit in
         (* Insert game record, process players, commit *)
         let! success_count := persistence_step (now w) current_week current_year all_players in
         let! _ := close in
         ret {| statusCode := 200;
                response_body :=
                  BodySummary
                    ("Successfully processed " ++ pretty success_count
                       ++ " players from SportsData.io API")
                    current_week current_year (length all_players) "sportsdata.io" |})
      (fun e => ret {| statusCode := 500; response_body := BodyError e |}).

End api_lambda.

(** ** [sportsdata_scraper.py] *)

Module sportsdata_scraper.

(** The attributes of a [SportsDataScraper] object. *)
Record SportsDataScraper : Type := {
  api_key : string;
  base_url : string;
}.

(** A player record as [format_player_data] builds it. *)
Record player : Type := {
  name : option string;
  team : option string;
  position : option string;
  week : num;
  year : Z;
  stats : gmap string num;
  source_url : string;
}.

(** [SportsDataScraper.calculate_fantasy_points(self, stat)] *)
Definition calculate_fantasy_points (self : SportsDataScraper) (stat : provider_record)
    : result num :=
  let points := PyInt 0 in
  (* points += (stat.get('PassingYards', 0) / 25) * 1 *)
  let* q := PyNum.truediv (get_num stat "PassingYards" (PyInt 0)) (PyInt 25) in
  let* t := PyNum.mul q (PyInt 1) in
  let* points := PyNum.add points t in
  (* points += stat.get('PassingTouchdowns', 0) * 4 *)
  let* t := PyNum.mul (get_num stat "PassingTouchdowns" (PyInt 0)) (PyInt 4) in
  let* points := PyNum.add points t in
  (* points -= stat.get('Interceptions', 0) * 2 *)
  let* t := PyNum.mul (get_num stat "Interceptions" (PyInt 0)) (PyInt 2) in
  let* points := PyNum.sub points t in
  (* points += (stat.get('RushingYards', 0) / 10) * 1 *)
  let* q := PyNum.truediv (get_num stat "RushingYards" (PyInt 0)) (PyInt 10) in
  let* t := PyNum.mul q (PyInt 1) in
  let* points := PyNum.add points t in
  (* points += stat.get('RushingTouchdowns', 0) * 6 *)
  let* t := PyNum.mul (get_num stat "RushingTouchdowns" (PyInt 0)) (PyInt 6) in
  let* points := PyNum.add points t in
  (* points += (stat.get('ReceivingYards', 0) / 10) * 1 *)
  let* q := PyNum.truediv (get_num stat "ReceivingYards" (PyInt 0)) (PyInt 10) in
  let* t := PyNum.mul q (PyInt 1) in
  let* points := PyNum.add points t in
  (* points += stat.get('ReceivingTouchdowns', 0) * 6 *)
  let* t := PyNum.mul (get_num stat "ReceivingTouchdowns" (PyInt 0)) (PyInt 6) in
  let* points := PyNum.add points t in
  (* points += stat.get('Receptions', 0) * 1 *)
  let* t := PyNum.mul (get_num stat "Receptions" (PyInt 0)) (PyInt 1) in
  let* points := PyNum.add points t in
  (* points -= stat.get('Fumbles', 0) * 2 *)
  let* t := PyNum.mul (get_num stat "Fumbles" (PyInt 0)) (PyInt 2) in
  let* points := PyNum.sub points t in
  (* return round(points, 1) *)
  PyNum.round_1 points.

(** [week or stat.get('Week', 1)] *)
Definition week_or (week : option Z) (stat : provider_record) : num :=
  match week with
  | Some v => if PyNum.falsy v then get_num stat "Week" (PyInt 1) else PyInt v
  | None => get_num stat "Week" (PyInt 1)
  end.

(** The loop of [format_player_data], run on the records still to visit and
    the list built so far. *)
Fixpoint format_loop (self : SportsDataScraper) (week : option Z) (year : Z)
    (todo : list provider_record) (players : list player) : result (list player) :=
  match todo with
  | [] => Ok players
  | stat :: todo' =>
      let* fantasy_points := calculate_fantasy_points self stat in
      let player :=
        {| name := get_str stat "Name" "";
           team := get_str stat "Team" "";
           position := get_str stat "Position" "";
           week := week_or week stat;
           year := year;
           stats :=
             {[ "passing_yards" := get_num stat "PassingYards" (PyInt 0);
                "passing_tds" := get_num stat "PassingTouchdowns" (PyInt 0);
                "interceptions" := get_num stat "Interceptions" (PyInt 0);
                "rushing_yards" := get_num stat "RushingYards" (PyInt 0);
                "rushing_tds" := get_num stat "RushingTouchdowns" (PyInt 0);
                "receiving_yards" := get_num stat "ReceivingYards" (PyInt 0);
                "receiving_tds" := get_num stat "ReceivingTouchdowns" (PyInt 0);
                "receptions" := get_num stat "Receptions" (PyInt 0);
                "fumbles" := get_num stat "Fumbles" (PyInt 0);
                "fantasy_points" := fantasy_points ]};
           source_url := "sportsdata.io" |} in
      format_loop self week year todo' (players ++ [player])
  end.

(** [format_player_data(self, stats_data, week=None, year=2024)] *)
Definition format_player_data (self : SportsDataScraper) (stats_data : list provider_record)
    (week : option Z) (year : Z) : result (list player) :=
  format_loop self week year stats_data [].

End sportsdata_scraper.

(** ** The scoring formula of the specification *)

Module ScoringSpec.

(** A statistic of a record, "any missing field treated as zero". *)
Definition field (stat : provider_record) (k : string) : num :=
  match num_members stat !! k with
  | Some v => v
  | None => PyInt 0
  end.

(** The formula as the specification writes it,
    [passing_yards / 25 + passing_touchdowns * 4 - interceptions * 2
     + rushing_yards / 10 + rushing_touchdowns * 6 + receiving_yards / 10
     + receiving_touchdowns * 6 + receptions * 1 - fumbles * 2],
    evaluated from left to right with floating-point division. *)
Definition formula (stat : provider_record) : result num :=
  let* a := PyNum.truediv (field stat "PassingYards") (PyInt 25) in
  let* b := PyNum.mul (field stat "PassingTouchdowns") (PyInt 4) in
  let* s := PyNum.add a b in
  let* c := PyNum.mul (field stat "Interceptions") (PyInt 2) in
  let* s := PyNum.sub s c in
  let* d := PyNum.truediv (field stat "RushingYards") (PyInt 10) in
  let* s := PyNum.add s d in
  let* e := PyNum.mul (field stat "RushingTouchdowns") (PyInt 6) in
  let* s := PyNum.add s e in
  let* f := PyNum.truediv (field stat "ReceivingYards") (PyInt 10) in
  let* s := PyNum.add s f in
  let* g := PyNum.mul (field stat "ReceivingTouchdowns") (PyInt 6) in
  let* s := PyNum.add s g in
  let* h := PyNum.mul (field stat "Receptions") (PyInt 1) in
  let* s := PyNum.add s h in
  let* i := PyNum.mul (field stat "Fumbles") (PyInt 2) in
  PyNum.sub s i.

(** "Rounded to one decimal place", in exact arithmetic.  [n] is the integer
    nearest to ten times the binary number [m * 2^e]: at most one half away
    from it, and the even one when two integers are. *)
Definition nearest_tenths (m : positive) (e : Z) (n : Z) : Prop :=
  match e with
  | Zneg p =>
      let distance := Z.abs (10 * Zpos m - n * Z.pow_pos 2 p) in
      2 * distance <= Z.pow_pos 2 p
      /\ (2 * distance = Z.pow_pos 2 p -> Z.even n = true)
  | _ => n = 10 * Zpos m * 2 ^ e
  end.

(** The decimal number [n / 10] with the sign [s], as a float: the quotient
    of IEEE division, which is the nearest float. *)
Definition tenths_to_float (s : bool) (n : Z) : float :=
  match n with
  | Zpos p => SF2Prim (SFdiv prec emax (S754_finite s p 0) (S754_finite false 10 0))
  | _ => SF2Prim (S754_zero s)
  end.

(** [y] is the float [x] rounded to one decimal place: the float of the
    nearest number of tenths; an infinity or NaN is left as it is. *)
Definition one_decimal (x y : float) : Prop :=
  match Prim2SF x with
  | S754_finite s m e => exists n, nearest_tenths m e n /\ y = tenths_to_float s n
  | _ => y = x
  end.

(** The same for a number: an int is its own rounding. *)
Definition rounded (v r : num) : Prop :=
  match v, r with
  | PyInt n, PyInt n' => n' = n
  | PyFloat x, PyFloat y => one_decimal x y
  | _, _ => False
  end.

(** The formula followed by Python's [round(points, 1)]. *)
Definition score (stat : provider_record) : result num :=
  let* points := formula stat in
  PyNum.round_1 points.

(** The statistics that the formula reads. *)
Definition fields : list string :=
  ["PassingYards"; "PassingTouchdowns"; "Interceptions"; "RushingYards";
   "RushingTouchdowns"; "ReceivingYards"; "ReceivingTouchdowns"; "Receptions";
   "Fumbles"].

(** Two records with the same statistics (other members may differ). *)
Definition same_fields (stat stat' : provider_record) : Prop :=
  Forall (fun k => field stat k = field stat' k) fields.

(** The two floating-point zeros. *)
Definition zero (x : float) : Prop := x = 0%float \/ x = (-0)%float.

(** Equal as numbers: the same value, where [0.0] and [-0.0] are one number
    (as Python's [==] has it). *)
Definition same_number (a b : num) : Prop :=
  a = b \/ exists x y, a = PyFloat x /\ b = PyFloat y /\ zero x /\ zero y.

(** The same outcome: equal numbers, or the same exception. *)
Definition same_outcome (r r' : result num) : Prop :=
  match r, r' with
  | Ok a, Ok b => same_number a b
  | Raise e, Raise e' => e = e'
  | _, _ => False
  end.

(** A statistic that arithmetic can turn into a float: any float, and any
    int below [2^1020] in magnitude. *)
Definition in_float_range (v : num) : Prop :=
  match v with
  | PyInt n => Z.abs n < 2 ^ 1020
  | PyFloat _ => True
  | PyNone => False
  end.


End ScoringSpec.

(** ** Vocabulary of the claims about the normalizer and the persistence step *)

Module NormalizerSpec.

(** The canonical shape of one provider record: name, team and position are
    the record's members of that name (a string, or [None] for null), the
    empty string when missing, and the stats hold the record's score. *)
Definition canonical (stat : provider_record) (name team position : option string)
    (stats : gmap string num) : Prop :=
  name = default (Some "") (str_members stat !! "Name")
  /\ team = default (Some "") (str_members stat !! "Team")
  /\ position = default (Some "") (str_members stat !! "Position")
  /\ exists fantasy_points,
       api_lambda.calculate_fantasy_points stat = Ok fantasy_points
       /\ stats !! "fantasy_points" = Some fantasy_points.

Definition canonical_api (stat : provider_record) (p : api_lambda.player) : Prop :=
  canonical stat (api_lambda.name p) (api_lambda.team p) (api_lambda.position p)
    (api_lambda.stats p).

Definition canonical_scraper (stat : provider_record) (p : sportsdata_scraper.player)
    : Prop :=
  canonical stat (sportsdata_scraper.name p) (sportsdata_scraper.team p)
    (sportsdata_scraper.position p) (sportsdata_scraper.stats p).

End NormalizerSpec.

(** ** Sample inputs *)

(** A quarterback's line with an unrelated member, and the same line with
    the absent statistics written out as zeros and another name. *)
Definition sample_line : provider_record :=
  {| str_members := {[ "Name" := Some "A. Passer" ]};
     num_members := {[ "PassingYards" := PyInt 301;
                       "PassingTouchdowns" := PyFloat 2;
                       "RushingYards" := PyInt 33;
                       "Week" := PyInt 3 ]} |}.

Definition sample_line' : provider_record :=
  {| str_members := {[ "Name" := Some "B. Passer" ]};
     num_members := {[ "PassingYards" := PyInt 301;
                       "PassingTouchdowns" := PyFloat 2;
                       "Interceptions" := PyInt 0;
                       "RushingYards" := PyInt 33;
                       "Fumbles" := PyInt 0 ]} |}.

(** Two lines whose formula has a second decimal: 584 / 25 is 23.36, and a
    quarter of a reception is half-way between 0.2 and 0.3. *)
Definition line_up : provider_record :=
  {| str_members := ∅; num_members := {[ "PassingYards" := PyInt 584 ]} |}.

Definition line_tie : provider_record :=
  {| str_members := ∅; num_members := {[ "Receptions" := PyFloat 0.25 ]} |}.



(** ** Vocabulary of the claims about the handler *)

Module HandlerSpec.

(** The week that an invocation works on: the week of the event when the
    event supplies one (a week is a non-zero integer; Python reads 0 as
    "not specified"), otherwise the Week member of the provider's reply to
    the current-week query (1 when the reply has no such member). *)
Inductive resolves_week (w : world) (event : api_lambda.event) : Z -> Prop :=
| week_supplied (wk : Z) :
    api_lambda.week event = Some wk -> wk <> 0 ->
    resolves_week w event wk
| week_current (week_response : gmap string Z) :
    api_lambda.no_week (api_lambda.week event) = true ->
    current_week_reply w = Ok week_response ->
    resolves_week w event (default 1 (week_response !! "Week")).

(** The requests that resolving the week and fetching the statistics make. *)
Definition fetch_calls (event : api_lambda.event) (year : option Z) (week : Z)
    : list effect :=
  (if api_lambda.no_week (api_lambda.week event) then [HttpGet CurrentWeek] else [])
  ++ [HttpGet (PlayerGameStatsByWeek year week)].

(** An effect on the database or on the secret store. *)
Definition database_effect (e : effect) : bool :=
  match e with
  | HttpGet _ => false
  | _ => true
  end.

End HandlerSpec.

(** A world with both credentials, a provider that knows week 7 and has the
    two sample lines for every week, and a database server that lets the
    stored credentials in. *)
Definition sample_world (stats_data : list provider_record) : world :=
  {| environ := {[ "DB_SECRET_ARN" := "arn:secret"; "SPORTSDATA_API_KEY" := "key" ]};
     current_week_reply := Ok {[ "Week" := 7 ]};
     stats_reply := fun _ _ => Ok stats_data;
     secrets := {[ "arn:secret" := {[ "host" := "db.internal"; "database" := "fantasy";
                                      "username" := "app"; "password" := "pw";
                                      "port" := "5432" ]} ]};
     login_ok := fun _ _ _ _ _ => true;
     now := {| Pg.current_date := 19970; Pg.current_timestamp := 1725400000 |} |}.

(** The same world without the reference to the database secret. *)
Definition world_without_secret_reference : world :=
  {| environ := {[ "SPORTSDATA_API_KEY" := "key" ]};
     current_week_reply := current_week_reply (sample_world []);
     stats_reply := stats_reply (sample_world [sample_line]);
     secrets := secrets (sample_world []);
     login_ok := login_ok (sample_world []);
     now := now (sample_world []) |}.

(** A fresh invocation against an empty database. *)
Definition initial_state : state :=
  {| effects := []; db := Pg.empty_database; conn := None |}.

(** ** Tables under INSERT ... ON CONFLICT ... DO UPDATE

    Rows are identified by a key (the columns of the UNIQUE constraint); a
    row with NULL in one of these columns has no key ([None]) and is in
    conflict with no row.  An operation is the key of the row it writes, the
    update it makes on conflict and the row it inserts otherwise. *)

Module Upsert.

Section Ops.

Context {R K : Type} `{EqDecision K} (key : R -> option K).

Record op : Type := {
  op_key : option K;
  op_update : R -> R;
  op_new : R;
}.

Record op_ok (o : op) : Prop := {
  new_key : key (op_new o) = op_key o;
  update_key : forall r, key (op_update o r) = key r;
  update_new : op_update o (op_new o) = op_new o;
}.


Definition hits (o : op) (r : R) : bool :=
  match op_key o with
  | Some k => bool_decide (key r = Some k)
  | None => false
  end.

Definition apply (o : op) (rows : list R) : list R * R :=
  Pg.upsert (hits o) (op_update o) (op_new o) rows.

Definition apply_all (ops : list op) (rows : list R) : list R :=
  fold_left (fun rows o => fst (apply o rows)) ops rows.



(** The keys of a table. *)
Definition keys (rows : list R) : list K := omap key rows.

(** The operation writes to a row that is there. *)
Definition present (o : op) (rows : list R) : bool :=
  match op_key o with
  | Some k => bool_decide (k ∈ keys rows)
  | None => false
  end.

(** The row with a key, if any. *)
Definition find_key (k : K) (rows : list R) : option R :=
  List.find (fun r => bool_decide (key r = Some k)) rows.

End Ops.

Arguments op : clear implicits.
Arguments Build_op {R K} _ _ _.

End Upsert.

(** ** Vocabulary of the claims about the persistence step *)

Module PersistenceSpec.

Import Upsert.

(** A state with an open connection. *)
Definition session (E : list effect) (T : Pg.tables) (q : Pg.sequences)
    (s : Pg.txn_status) (t : Pg.tables) : state :=
  {| effects := E;
     db := {| Pg.tables_of := T; Pg.sequences_of := q |};
     conn := Some {| Pg.status := s; Pg.working := t |} |}.

(** One run of the persistence step for a week, a year and a batch of player
    records, on a new connection to the database [d]: what the step returns
    or raises, and the database afterwards. *)
Definition persist (d : Pg.database) (now : Pg.clock) (week year : Z)
    (all_players : list api_lambda.player) : result nat * Pg.database :=
  let '(r, st) :=
    api_lambda.persistence_step now week (Some year) all_players
      (session [] (Pg.tables_of d) (Pg.sequences_of d) Pg.Idle (Pg.tables_of d)) in
  (r, db st).

(** The tables after a run. *)
Definition tables_after (d : Pg.database) (now : Pg.clock) (week year : Z)
    (all_players : list api_lambda.player) : Pg.tables :=
  Pg.tables_of (snd (persist d now week year all_players)).

(** [stats.get('fantasy_points', 0)] of a player record *)
Definition points_of (p : api_lambda.player) : num :=
  default (PyInt 0) (api_lambda.stats p !! "fantasy_points").

(** psycopg2 sends the statements of the record: none of name, team and
    position has a NUL character. *)
Definition sendable (p : api_lambda.player) : bool :=
  negb (Pg.nul_parameter
          (Pg.UpsertPlayer (api_lambda.name p) (api_lambda.team p)
             (api_lambda.position p))).

(** The records of a batch whose statements are sent. *)
Definition sent (batch : list api_lambda.player) : list api_lambda.player :=
  filter (fun p => sendable p = true) batch.

(** The values of a player record as the columns take them: the name is
    not NULL. *)
Record entry : Type := {
  e_name : string;
  e_team : option string;
  e_position : option string;
  e_points : num;
}.

(** NOT NULL *)
Definition not_null {A : Type} (v : option A) : result A :=
  match v with
  | Some a => Ok a
  | None => Raise IntegrityError
  end.

Definition coerce (p : api_lambda.player) : result entry :=
  let* name := Pg.nullable (Pg.varchar 100) (api_lambda.name p) in
  let* team := Pg.nullable (Pg.varchar 3) (api_lambda.team p) in
  let* position := Pg.nullable (Pg.varchar 5) (api_lambda.position p) in
  let* name := not_null name in
  let* points := Pg.decimal_5_2 (points_of p) in
  Ok {| e_name := name; e_team := team; e_position := position; e_points := points |}.


(** The record satisfies the column types: both of its statements succeed
    when they are sent. *)
Definition accepted (p : api_lambda.player) : bool :=
  match coerce p with
  | Ok _ => true
  | Raise _ => false
  end.


(** The week and the year are INTEGER values. *)
Definition game_accepted (week year : Z) : bool :=
  match Pg.integer week, Pg.integer year with
  | Ok _, Ok _ => true
  | _, _ => false
  end.

(** The columns of the UNIQUE constraints; a player without a team has no
    key. *)
Definition player_key (r : Pg.player_row) : option (string * string) :=
  pair (Pg.player_name r) <$> Pg.player_team r.

Definition game_key (r : Pg.game_row) : option (Z * Z) :=
  Some (Pg.game_week r, Pg.game_year r).

Definition stat_key (r : Pg.stat_row) : option (Z * Z) :=
  Some (Pg.stat_player_id r, Pg.stat_game_id r).

Definition entry_key (e : entry) : option (string * string) :=
  pair (e_name e) <$> e_team e.

(** The tables satisfy their UNIQUE constraints. *)
Definition unique (t : Pg.tables) : Prop :=
  NoDup (keys player_key (Pg.players t))
  /\ NoDup (keys game_key (Pg.games t))
  /\ NoDup (keys stat_key (Pg.player_stats t)).


(** Rows that differ at most in the date or time of their last write. *)
Definition same_game (r r' : Pg.game_row) : Prop :=
  Pg.game_id r = Pg.game_id r' /\ Pg.game_week r = Pg.game_week r'
  /\ Pg.game_year r = Pg.game_year r'
  /\ Pg.game_created_at r = Pg.game_created_at r'.

Definition same_stat (r r' : Pg.stat_row) : Prop :=
  Pg.stat_id r = Pg.stat_id r' /\ Pg.stat_player_id r = Pg.stat_player_id r'
  /\ Pg.stat_game_id r = Pg.stat_game_id r'
  /\ Pg.stat_fantasy_points r = Pg.stat_fantasy_points r'.



(** The fantasy points stored for a player (name, team) and a game
    (week, year). *)
Definition stored_points (t : Pg.tables) (name team : string) (week year : Z)
    : option num :=
  match find_key player_key (name, team) (Pg.players t),
        find_key game_key (week, year) (Pg.games t) with
  | Some p, Some g =>
      match find_key stat_key (Pg.player_id p, Pg.game_id g) (Pg.player_stats t) with
      | Some s => Some (Pg.stat_fantasy_points s)
      | None => None
      end
  | _, _ => None
  end.


(** The last record of a batch for a player (name, team). *)
Definition latest (name team : string) (batch : list api_lambda.player)
    : option api_lambda.player :=
  last (filter (fun p => (api_lambda.name p, api_lambda.team p)
                        = (Some name, Some team)) batch).

(** *** The statements as operations on the tables *)

Definition game_op (now : Pg.clock) (id week year : Z) : op Pg.game_row (Z * Z) :=
  {| op_key := Some (week, year);
     op_update := Pg.set_game_date (Pg.current_date now);
     op_new := {| Pg.game_id := id; Pg.game_week := week; Pg.game_year := year;
                  Pg.game_date := Pg.current_date now;
                  Pg.game_created_at := Pg.current_timestamp now |} |}.

Definition player_op (now : Pg.clock) (id : Z) (e : entry)
    : op Pg.player_row (string * string) :=
  {| op_key := entry_key e;
     op_update := Pg.set_position (e_position e);
     op_new := {| Pg.player_id := id; Pg.player_name := e_name e;
                  Pg.player_team := e_team e; Pg.player_position := e_position e;
                  Pg.player_created_at := Pg.current_timestamp now |} |}.

Definition stat_op (now : Pg.clock) (id pid gid : Z) (v : num)
    : op Pg.stat_row (Z * Z) :=
  {| op_key := Some (pid, gid);
     op_update := Pg.set_points v (Pg.current_timestamp now);
     op_new := {| Pg.stat_id := id; Pg.stat_player_id := pid; Pg.stat_game_id := gid;
                  Pg.stat_fantasy_points := v;
                  Pg.stat_updated_at := Pg.current_timestamp now |} |}.

(** The operations of a batch, with the ids that the sequences hand out. *)
Fixpoint player_ops (now : Pg.clock) (seq : Z) (es : list entry)
    : list (op Pg.player_row (string * string)) :=
  match es with
  | [] => []
  | e :: es' => player_op now (seq + 1) e :: player_ops now (seq + 1) es'
  end.

Fixpoint stat_ops (now : Pg.clock) (seq gid : Z) (pvs : list (Z * num))
    : list (op Pg.stat_row (Z * Z)) :=
  match pvs with
  | [] => []
  | (pid, v) :: pvs' => stat_op now (seq + 1) pid gid v :: stat_ops now (seq + 1) gid pvs'
  end.


(** The ids that the player statements of a batch return. *)
Fixpoint returned_ids (now : Pg.clock) (seq : Z) (es : list entry)
    (rows : list Pg.player_row) : list Z :=
  match es with
  | [] => []
  | e :: es' =>
      let '(rows', r) := apply player_key (player_op now (seq + 1) e) rows in
      Pg.player_id r :: returned_ids now (seq + 1) es' rows'
  end.

(** The two statements of an accepted record. *)
Definition store_entry (now : Pg.clock) (gid : Z) (tq : Pg.tables * Pg.sequences)
    (e : entry) : Pg.tables * Pg.sequences :=
  let '(t, q) := tq in
  let '(rows, r) := apply player_key (player_op now (Pg.players_id_seq q + 1) e)
                      (Pg.players t) in
  let '(srows, _) := apply stat_key
                       (stat_op now (Pg.player_stats_id_seq q + 1) (Pg.player_id r) gid
                          (e_points e))
                       (Pg.player_stats t) in
  ({| Pg.players := rows; Pg.games := Pg.games t; Pg.player_stats := srows |},
   {| Pg.players_id_seq := Pg.players_id_seq q + 1;
      Pg.games_id_seq := Pg.games_id_seq q;
      Pg.player_stats_id_seq := Pg.player_stats_id_seq q + 1 |}).

(** The game statement. *)
Definition store_game (now : Pg.clock) (week year : Z) (tq : Pg.tables * Pg.sequences)
    : Z * (Pg.tables * Pg.sequences) :=
  let '(t, q) := tq in
  let '(rows, r) := apply game_key (game_op now (Pg.games_id_seq q + 1) week year)
                      (Pg.games t) in
  (Pg.game_id r,
   ({| Pg.players := Pg.players t; Pg.games := rows;
       Pg.player_stats := Pg.player_stats t |},
    {| Pg.players_id_seq := Pg.players_id_seq q;
       Pg.games_id_seq := Pg.games_id_seq q + 1;
       Pg.player_stats_id_seq := Pg.player_stats_id_seq q |})).

End PersistenceSpec.

Module PersistenceCount.

(** One turn of the loop, as a computation. *)
Definition turn (now : Pg.clock) (game_id : Z) (player : api_lambda.player)
    (success_count : nat) : M nat :=
  try_except
    (let! r := execute now (Pg.UpsertPlayer (api_lambda.name player)
                              (api_lambda.team player) (api_lambda.position player)) in
     let! player_id := fetchone_0 r in
     let stats := api_lambda.stats player in
     let fantasy_points := default (PyInt 0) (stats !! "fantasy_points") in
     let! _ := execute now (Pg.UpsertPlayerStats player_id game_id fantasy_points) in
     ret (S success_count))
    (fun e => ret success_count).

(** The number of records of a batch before its first record that the
    columns do not accept. *)
Fixpoint leading_accepted (batch : list api_lambda.player) : nat :=
  match batch with
  | [] => O
  | p :: batch' =>
      if PersistenceSpec.accepted p then S (leading_accepted batch') else O
  end.

End PersistenceCount.

(** The sample world without the provider's access key. *)
Definition world_without_api_key : world :=
  {| environ := {[ "DB_SECRET_ARN" := "arn:secret" ]};
     current_week_reply := current_week_reply (sample_world []);
     stats_reply := stats_reply (sample_world [sample_line]);
     secrets := secrets (sample_world []);
     login_ok := login_ok (sample_world []);
     now := now (sample_world []) |}.

(** Three player records: two that the columns accept and one whose team
    does not fit VARCHAR(3). *)
Definition valid_a : api_lambda.player :=
  {| api_lambda.name := Some "Patrick Mahomes"; api_lambda.team := Some "KC";
     api_lambda.position := Some "QB";
     api_lambda.stats := {[ "fantasy_points" := PyFloat 18 ]} |}.

Definition malformed : api_lambda.player :=
  {| api_lambda.name := Some "Travis Kelce"; api_lambda.team := Some "KANSAS";
     api_lambda.position := Some "TE";
     api_lambda.stats := {[ "fantasy_points" := PyFloat 12.5 ]} |}.

Definition valid_b : api_lambda.player :=
  {| api_lambda.name := Some "Josh Allen"; api_lambda.team := Some "BUF";
     api_lambda.position := Some "QB";
     api_lambda.stats := {[ "fantasy_points" := PyFloat 24.5 ]} |}.

Definition sample_clock : Pg.clock :=
  {| Pg.current_date := 19970; Pg.current_timestamp := 1725400000 |}.


Definition valid_a_moved : api_lambda.player :=
  {| api_lambda.name := Some "Patrick Mahomes"; api_lambda.team := Some "KC";
     api_lambda.position := Some "WR";
     api_lambda.stats := {[ "fantasy_points" := PyFloat 7.5 ]} |}.


Definition free_agent : api_lambda.player :=
  {| api_lambda.name := Some "Tom Brady"; api_lambda.team := None;
     api_lambda.position := Some "QB";
     api_lambda.stats := {[ "fantasy_points" := PyFloat 21 ]} |}.

Definition later_clock : Pg.clock :=
  {| Pg.current_date := 19977; Pg.current_timestamp := 1726004800 |}.

(** ** The stages of [lambda_handler]

    The handler read in pieces: what is left of the [try] block once the
    week is resolved, and its "Save to database" part. *)

Module HandlerStages.

(** [except Exception as e: return {'statusCode': 500, ...}] *)
Definition internal_error (e : exn) : M api_lambda.response :=
  ret {| api_lambda.statusCode := 500; api_lambda.response_body := api_lambda.BodyError e |}.

(** The response that ends a run. *)
Definition summary (success_count : nat) (current_week : Z) (current_year : option Z)
    (total_players_found : nat) : api_lambda.response :=
  {| api_lambda.statusCode := 200;
     api_lambda.response_body :=
       api_lambda.BodySummary
         ("Successfully processed " ++ pretty success_count
            ++ " players from SportsData.io API")
         current_week current_year total_players_found "sportsdata.io" |}.

Definition no_players_found : api_lambda.response :=
  {| api_lambda.statusCode := 200;
     api_lambda.response_body := api_lambda.BodyText "No players found from API" |}.

(** "Save to database", for the secret reference, the week and the year
    that the handler has resolved and the records that it has formatted. *)
Definition save_to_database (w : world) (secret_arn : string)
    (current_week : Z) (current_year : option Z) (all_players : list api_lambda.player)
    : M api_lambda.response :=
  let! db_creds := get_secret_value w secret_arn in
  let! host := lift (getitem db_creds "host") in
  let! database := lift (getitem db_creds "database") in
  let! user := lift (getitem db_creds "username") in
  let! password := lift (getitem db_creds "password") in
  let! port := lift (getitem db_creds "port") in
  let! _ := connect w host database user password port in
  let! _ := execute (now w) Pg.CreateTables in
  let! _ := commit in
  let! success_count :=
    api_lambda.persistence_step (now w) current_week current_year all_players in
  let! _ := close in
  ret (summary success_count current_week current_year (length all_players)).

(** "Get player stats for the week", "Format data for database" and what
    follows, for the week resolved. *)
Definition fetch_and_save (w : world) (secret_arn : string)
    (current_week : Z) (current_year : option Z) : M api_lambda.response :=
  let! stats_data := lift (stats_reply w current_year current_week) in
  let! all_players := lift (api_lambda.format_loop stats_data []) in
  if bool_decide (all_players = []) then ret no_players_found
  else save_to_database w secret_arn current_week current_year all_players.

(** The members of the secret that the handler reads, in the order in which
    it reads them. *)
Definition credential_members : list string :=
  ["host"; "database"; "username"; "password"; "port"].

(** The first member that a secret lacks. *)
Definition first_missing (db_creds : gmap string string) : option string :=
  List.find (fun k => bool_decide (db_creds !! k = None)) credential_members.


End HandlerStages.

(** ** Computations and the trace *)

(** The state with a longer past. *)
Definition with_effects (E : list effect) (st : state) : state :=
  {| effects := E ++ effects st; db := db st; conn := conn st |}.

(** A computation that only appends to the trace: what it does and returns
    does not depend on the calls made before. *)
Definition appends {A : Type} (m : M A) : Prop :=
  forall E st, m (with_effects E st) = let '(r, st') := m st in (r, with_effects E st').

(** ** More sample worlds *)

(** The sample world with a provider whose statistics request fails. *)
Definition world_provider_down : world :=
  {| environ := environ (sample_world []);
     current_week_reply := Ok {[ "Week" := 7 ]};
     stats_reply := fun _ _ => Raise RequestException;
     secrets := secrets (sample_world []);
     login_ok := login_ok (sample_world []);
     now := now (sample_world []) |}.

(** The sample world with a provider that does not answer the current-week
    query. *)
Definition world_no_current_week : world :=
  {| environ := environ (sample_world []);
     current_week_reply := Raise RequestException;
     stats_reply := stats_reply (sample_world [sample_line]);
     secrets := secrets (sample_world []);
     login_ok := login_ok (sample_world []);
     now := now (sample_world []) |}.


(** The sample world with an empty secret store, with a secret that lacks
    the password, and with a database server that refuses the login. *)
Definition world_without_secret (stats_data : list provider_record) : world :=
  {| environ := environ (sample_world []);
     current_week_reply := current_week_reply (sample_world []);
     stats_reply := fun _ _ => Ok stats_data;
     secrets := ∅;
     login_ok := login_ok (sample_world []);
     now := now (sample_world []) |}.

Definition world_incomplete_secret (stats_data : list provider_record) : world :=
  {| environ := environ (sample_world []);
     current_week_reply := current_week_reply (sample_world []);
     stats_reply := fun _ _ => Ok stats_data;
     secrets := {[ "arn:secret" := {[ "host" := "db.internal"; "database" := "fantasy";
                                      "username" := "app"; "port" := "5432" ]} ]};
     login_ok := login_ok (sample_world []);
     now := now (sample_world []) |}.

(** The sample world between two seasons: the provider's current week is 0. *)
Definition world_off_season (stats_data : list provider_record) : world :=
  {| environ := environ (sample_world []);
     current_week_reply := Ok {[ "Week" := 0 ]};
     stats_reply := fun _ _ => Ok stats_data;
     secrets := secrets (sample_world []);
     login_ok := login_ok (sample_world []);
     now := now (sample_world []) |}.

Definition world_login_refused (stats_data : list provider_record) : world :=
  {| environ := environ (sample_world []);
     current_week_reply := current_week_reply (sample_world []);
     stats_reply := fun _ _ => Ok stats_data;
     secrets := secrets (sample_world []);
     login_ok := fun _ _ _ _ _ => false;
     now := now (sample_world []) |}.

(** ** The constraints of the schema

    What the CREATE TABLE statements of the handler declare besides the
    UNIQUE constraints: primary keys, foreign keys and column types. *)

Module Schema.

(** PRIMARY KEY (id) of the three tables *)
Definition primary_keys (t : Pg.tables) : Prop :=
  NoDup (map Pg.player_id (Pg.players t))
  /\ NoDup (map Pg.game_id (Pg.games t))
  /\ NoDup (map Pg.stat_id (Pg.player_stats t)).

(** player_id REFERENCES players(id), game_id REFERENCES games(id) *)
Definition referential (t : Pg.tables) : Prop :=
  Forall (fun s => Pg.stat_player_id s ∈ map Pg.player_id (Pg.players t)
                   /\ Pg.stat_game_id s ∈ map Pg.game_id (Pg.games t))
    (Pg.player_stats t).

(** VARCHAR(100), VARCHAR(3), VARCHAR(5); INTEGER; DECIMAL(5,2) *)
Definition typed (t : Pg.tables) : Prop :=
  Forall (fun r => (Pg.char_length (Pg.player_name r) <= 100)%nat
                   /\ (forall s, Pg.player_team r = Some s ->
                         (Pg.char_length s <= 3)%nat)
                   /\ (forall s, Pg.player_position r = Some s ->
                         (Pg.char_length s <= 5)%nat))
    (Pg.players t)
  /\ Forall (fun r => Pg.integer (Pg.game_week r) = Ok (Pg.game_week r)
                      /\ Pg.integer (Pg.game_year r) = Ok (Pg.game_year r))
       (Pg.games t)
  /\ Forall (fun r => Pg.decimal_5_2 (Pg.stat_fantasy_points r)
                      = Ok (Pg.stat_fantasy_points r))
       (Pg.player_stats t).

(** SERIAL: every id of a table was handed out by the sequence of the table. *)
Definition ids_handed_out (t : Pg.tables) (q : Pg.sequences) : Prop :=
  Forall (fun r => Pg.player_id r <= Pg.players_id_seq q) (Pg.players t)
  /\ Forall (fun r => Pg.game_id r <= Pg.games_id_seq q) (Pg.games t)
  /\ Forall (fun r => Pg.stat_id r <= Pg.player_stats_id_seq q) (Pg.player_stats t).

(** Tables that satisfy every constraint of the schema, with the sequences. *)
Definition well_formed (d : Pg.database) : Prop :=
  PersistenceSpec.unique (Pg.tables_of d)
  /\ primary_keys (Pg.tables_of d)
  /\ referential (Pg.tables_of d)
  /\ typed (Pg.tables_of d)
  /\ ids_handed_out (Pg.tables_of d) (Pg.sequences_of d).

(** A sequence only moves forward. *)
Definition seq_le (q q' : Pg.sequences) : Prop :=
  Pg.players_id_seq q <= Pg.players_id_seq q'
  /\ Pg.games_id_seq q <= Pg.games_id_seq q'
  /\ Pg.player_stats_id_seq q <= Pg.player_stats_id_seq q'.

(** The state of an invocation: the committed tables satisfy the schema, and
    so do the tables of the transaction of the open connection. *)
Definition sound (st : state) : Prop :=
  well_formed (db st)
  /\ match conn st with
     | Some c => well_formed {| Pg.tables_of := Pg.working c;
                                Pg.sequences_of := Pg.sequences_of (db st) |}
     | None => True
     end.

(** A computation that keeps a property of the state, whether it returns or
    raises. *)
Definition preserves {A : Type} (I : state -> Prop) (m : M A) : Prop :=
  forall st r st', I st -> m st = (r, st') -> I st'.

End Schema.

(** ** [sportsdata_scraper.py]: the constructor and the requests

    The methods of [SportsDataScraper] that talk to the provider.  The
    provider is the JSON document behind each URL, or the exception of
    [requests.get] / [raise_for_status]; the state is the list of the URLs
    requested so far. *)

Module scraper_client.

Import sportsdata_scraper.

(** [raise ValueError(message)] *)
Inductive init_error : Type :=
| ValueError (message : string).

(** [a or b] for two values that are [None] or a string *)
Definition or_else (a b : option string) : option string :=
  match a with
  | Some s => if bool_decide (s = "") then b else a
  | None => b
  end.

(** [SportsDataScraper(api_key)], in the environment [environ]. *)
Definition __init__ (environ : gmap string string) (api_key : option string)
    : SportsDataScraper + init_error :=
  (* self.api_key = api_key or os.environ.get('SPORTSDATA_API_KEY') *)
  let key := or_else api_key (environ !! "SPORTSDATA_API_KEY") in
  (* if not self.api_key: raise ValueError(...) *)
  match key with
  | Some k =>
      if bool_decide (k = "")
      then inr (ValueError "API key required. Set SPORTSDATA_API_KEY environment variable or pass api_key parameter")
      else inl {| api_key := k; base_url := "https://api.sportsdata.io/v3/nfl" |}
  | None =>
      inr (ValueError "API key required. Set SPORTSDATA_API_KEY environment variable or pass api_key parameter")
  end.

(** What the provider answers to a URL, read as an object with integer
    members or as a list of records. *)
Record provider : Type := {
  get_object : string -> result (gmap string Z);
  get_records : string -> result (list provider_record);
}.

(** Computations that make requests: the URLs requested so far are the
    state, which is kept when an exception is raised. *)
Definition R (A : Type) : Type := list string -> result A * list string.

Definition retR {A : Type} (a : A) : R A := fun log => (Ok a, log).

Definition bindR {A B : Type} (m : R A) (k : A -> R B) : R B :=
  fun log =>
    match m log with
    | (Ok a, log') => k a log'
    | (Raise e, log') => (Raise e, log')
    end.

Notation "'let$' x ':=' m 'in' k" := (bindR m (fun x => k))
  (at level 10, x name, m at level 100, k at level 200).

(** [requests.get(url, headers=self.headers)], [raise_for_status()],
    [.json()] *)
Definition requests_get {A : Type} (reply : string -> result A) (url : string) : R A :=
  fun log => (reply url, (log ++ [url])%list).

(** [get_players(self)] *)
Definition get_players (P : provider) (self : SportsDataScraper)
    : R (list provider_record) :=
  requests_get (get_records P) (base_url self ++ "/scores/json/Players").

(** [get_fantasy_stats(self, season=2024, week=None)] *)
Definition get_fantasy_stats (P : provider) (self : SportsDataScraper) (season : Z)
    (week : option Z) : R (list provider_record) :=
  let url :=
    match week with
    | Some w =>
        (* if week: *)
        if PyNum.falsy w
        then base_url self ++ "/stats/json/PlayerSeasonStats/" ++ pretty season
        else base_url self ++ "/stats/json/PlayerGameStatsByWeek/" ++ pretty season
               ++ "/" ++ pretty w
    | None => base_url self ++ "/stats/json/PlayerSeasonStats/" ++ pretty season
    end in
  requests_get (get_records P) url.

(** [get_current_week(self, season=2024)] *)
Definition get_current_week (P : provider) (self : SportsDataScraper) (season : Z)
    : R (gmap string Z) :=
  requests_get (get_object P) (base_url self ++ "/scores/json/CurrentWeek").

(** [get_fantasy_data(self, season=2024, week=None)] *)
Definition get_fantasy_data (P : provider) (self : SportsDataScraper) (season : Z)
    (week : option Z) : R (list player) :=
  (* if not week: week = self.get_current_week(season).get('Week', 1) *)
  let current_week :=
    let$ current_week_data := get_current_week P self season in
    retR (default 1 (current_week_data !! "Week")) in
  let$ week :=
    match week with
    | Some w => if PyNum.falsy w then current_week else retR w
    | None => current_week
    end in
  let$ stats_data := get_fantasy_stats P self season (Some week) in
  fun log => (format_player_data self stats_data (Some week) season, log).

(** The URLs of the current week, of the statistics of a season, and of the
    statistics of a week of a season. *)
Definition current_week_url (self : SportsDataScraper) : string :=
  base_url self ++ "/scores/json/CurrentWeek".

Definition season_stats_url (self : SportsDataScraper) (season : Z) : string :=
  base_url self ++ "/stats/json/PlayerSeasonStats/" ++ pretty season.

Definition week_stats_url (self : SportsDataScraper) (season week : Z) : string :=
  base_url self ++ "/stats/json/PlayerGameStatsByWeek/" ++ pretty season
    ++ "/" ++ pretty week.

(** The names of the nine statistics in the records that
    [format_player_data] builds, with their names in the provider's records. *)
Definition raw_statistics : list (string * string) :=
  [("passing_yards", "PassingYards"); ("passing_tds", "PassingTouchdowns");
   ("interceptions", "Interceptions"); ("rushing_yards", "RushingYards");
   ("rushing_tds", "RushingTouchdowns"); ("receiving_yards", "ReceivingYards");
   ("receiving_tds", "ReceivingTouchdowns"); ("receptions", "Receptions");
   ("fumbles", "Fumbles")].

(** A scraper with a key, and a provider that knows week 7 and has the two
    sample lines under every URL. *)
Definition sample_scraper : SportsDataScraper :=
  {| api_key := "key"; base_url := "https://api.sportsdata.io/v3/nfl" |}.

Definition sample_provider : provider :=
  {| get_object := fun _ => Ok {[ "Week" := 7 ]};
     get_records := fun _ => Ok [sample_line; sample_line'] |}.

(** A provider between two seasons: the current week is 0. *)
Definition provider_off_season : provider :=
  {| get_object := fun _ => Ok {[ "Week" := 0 ]};
     get_records := fun _ => Ok [sample_line; sample_line'] |}.

End scraper_client.

(** ** [test_data_generator.py]

    The generator draws its numbers from Python's [random] module, whose
    state is passed along explicitly: [randint a b] and [uniform a b] are any
    two functions of that state. *)

Module test_data_generator.

Record random_source (S : Type) : Type := {
  randint : Z -> Z -> S -> Z * S;
  uniform : float -> float -> S -> float * S;
}.
Arguments randint {S} _ _ _ _.
Arguments uniform {S} _ _ _ _.

(** The attributes of a [FantasyTestDataGenerator] object. *)
Record FantasyTestDataGenerator : Type := {
  teams : list string;
  qb_names : list string;
  rb_names : list string;
  wr_names : list string;
  te_names : list string;
}.

(** [FantasyTestDataGenerator()] *)
Definition __init__ : FantasyTestDataGenerator :=
  {| teams := ["BUF"; "MIA"; "NE"; "NYJ"; "BAL"; "CIN"; "CLE"; "PIT";
               "HOU"; "IND"; "JAX"; "TEN"; "DEN"; "KC"; "LV"; "LAC";
               "DAL"; "NYG"; "PHI"; "WAS"; "CHI"; "DET"; "GB"; "MIN";
               "ATL"; "CAR"; "NO"; "TB"; "ARI"; "LAR"; "SF"; "SEA"];
     qb_names := ["Josh Allen"; "Tua Tagovailoa"; "Mac Jones"; "Aaron Rodgers";
                  "Lamar Jackson"; "Joe Burrow"; "Deshaun Watson"; "Kenny Pickett";
                  "C.J. Stroud"; "Anthony Richardson"; "Trevor Lawrence"; "Ryan Tannehill"];
     rb_names := ["Josh Jacobs"; "Saquon Barkley"; "Christian McCaffrey"; "Derrick Henry";
                  "Austin Ekeler"; "Nick Chubb"; "Dalvin Cook"; "Aaron Jones";
                  "Alvin Kamara"; "Jonathan Taylor"; "Travis Etienne"; "Tony Pollard"];
     wr_names := ["Tyreek Hill"; "Stefon Diggs"; "DeAndre Hopkins"; "Davante Adams";
                  "Cooper Kupp"; "Mike Evans"; "Chris Godwin"; "DK Metcalf";
                  "A.J. Brown"; "Ja'Marr Chase"; "Justin Jefferson"; "CeeDee Lamb"];
     te_names := ["Travis Kelce"; "Mark Andrews"; "George Kittle"; "Darren Waller";
                  "T.J. Hockenson"; "Kyle Pitts"; "Dallas Goedert"; "Pat Freiermuth"] |}.

Section Generator.

Context {S : Type} (random : random_source S).

(** Computations that draw random numbers. *)
Definition G (A : Type) : Type := S -> A * S.

Definition retG {A : Type} (a : A) : G A := fun s => (a, s).

Definition bindG {A B : Type} (m : G A) (k : A -> G B) : G B :=
  fun s => k (fst (m s)) (snd (m s)).

Notation "'let%' x ':=' m 'in' k" := (bindG m (fun x => k))
  (at level 10, x name, m at level 100, k at level 200).

(** [round(random.uniform(a, b), 1)] *)
Definition rounded_uniform (a b : float) : G num :=
  let% x := uniform random a b in
  retG (PyFloat (PyNum.round1 x)).

(** [generate_qb_stats(self)]; the members are drawn in the order in which
    the dict is written. *)
Definition generate_qb_stats : G (gmap string num) :=
  let% passing_yards := randint random 180 420 in
  let% passing_tds := randint random 0 4 in
  let% interceptions := randint random 0 2 in
  let% rushing_yards := randint random 0 60 in
  let% rushing_tds := randint random 0 1 in
  (* round(random.uniform(8.5, 35.2), 1) *)
  let% fantasy_points := rounded_uniform 8.5 0x1.199999999999ap+5 in
  retG {[ "passing_yards" := PyInt passing_yards;
          "passing_tds" := PyInt passing_tds;
          "interceptions" := PyInt interceptions;
          "rushing_yards" := PyInt rushing_yards;
          "rushing_tds" := PyInt rushing_tds;
          "fantasy_points" := fantasy_points ]}.

(** [generate_rb_stats(self)] *)
Definition generate_rb_stats : G (gmap string num) :=
  let% rushing_yards := randint random 30 180 in
  let% rushing_tds := randint random 0 3 in
  let% receiving_yards := randint random 10 80 in
  let% receptions := randint random 2 8 in
  let% receiving_tds := randint random 0 1 in
  let% fumbles := randint random 0 1 in
  (* round(random.uniform(4.2, 28.7), 1) *)
  let% fantasy_points := rounded_uniform 0x1.0cccccccccccdp+2 0x1.cb33333333333p+4 in
  retG {[ "rushing_yards" := PyInt rushing_yards;
          "rushing_tds" := PyInt rushing_tds;
          "receiving_yards" := PyInt receiving_yards;
          "receptions" := PyInt receptions;
          "receiving_tds" := PyInt receiving_tds;
          "fumbles" := PyInt fumbles;
          "fantasy_points" := fantasy_points ]}.

(** [generate_wr_stats(self)] *)
Definition generate_wr_stats : G (gmap string num) :=
  let% receiving_yards := randint random 20 150 in
  let% receptions := randint random 3 12 in
  let% receiving_tds := randint random 0 2 in
  let% rushing_yards := randint random 0 20 in
  let% rushing_tds := randint random 0 1 in
  let% fumbles := randint random 0 1 in
  (* round(random.uniform(3.8, 32.1), 1) *)
  let% fantasy_points := rounded_uniform 0x1.e666666666666p+1 0x1.00ccccccccccdp+5 in
  retG {[ "receiving_yards" := PyInt receiving_yards;
          "receptions" := PyInt receptions;
          "receiving_tds" := PyInt receiving_tds;
          "rushing_yards" := PyInt rushing_yards;
          "rushing_tds" := PyInt rushing_tds;
          "fumbles" := PyInt fumbles;
          "fantasy_points" := fantasy_points ]}.

(** [generate_te_stats(self)] *)
Definition generate_te_stats : G (gmap string num) :=
  let% receiving_yards := randint random 15 120 in
  let% receptions := randint random 2 10 in
  let% receiving_tds := randint random 0 2 in
  let% fumbles := randint random 0 1 in
  (* round(random.uniform(2.5, 24.3), 1) *)
  let% fantasy_points := rounded_uniform 2.5 0x1.84ccccccccccdp+4 in
  retG {[ "receiving_yards" := PyInt receiving_yards;
          "receptions" := PyInt receptions;
          "receiving_tds" := PyInt receiving_tds;
          "fumbles" := PyInt fumbles;
          "fantasy_points" := fantasy_points ]}.

(** One of the four loops of [generate_test_data],
    [for i, name in enumerate(names): ... players.append(player)], where the
    team is [self.teams[(i + offset) % len(self.teams)]]: run from index [i]
    on the names still to visit and the list built so far.  [None] is the
    exception of an index out of range (or of a remainder by zero). *)
Fixpoint position_loop (self : FantasyTestDataGenerator) (offset : nat)
    (position : string) (generate_stats : G (gmap string num)) (week year : Z)
    (i : nat) (names : list string) (players : list sportsdata_scraper.player) (s : S)
    : option (list sportsdata_scraper.player * S) :=
  match names with
  | [] => Some (players, s)
  | name :: names' =>
      match length (teams self) with
      | O => None
      | _ =>
          match teams self !! ((i + offset) mod length (teams self))%nat with
          | None => None
          | Some team =>
              let player :=
                {| sportsdata_scraper.name := Some name;
                   sportsdata_scraper.team := Some team;
                   sportsdata_scraper.position := Some position;
                   sportsdata_scraper.week := PyInt week;
                   sportsdata_scraper.year := year;
                   sportsdata_scraper.stats := fst (generate_stats s);
                   sportsdata_scraper.source_url := "test_data_generator" |} in
              position_loop self offset position generate_stats week year (Datatypes.S i)
                names' (players ++ [player])%list (snd (generate_stats s))
          end
      end
  end.

(** [generate_test_data(self, week=1, year=2024)] *)
Definition generate_test_data (self : FantasyTestDataGenerator) (week year : Z) (s : S)
    : option (list sportsdata_scraper.player * S) :=
  (* Generate QBs *)
  match position_loop self 0 "QB" generate_qb_stats week year 0 (qb_names self) [] s with
  | None => None
  | Some (players, s) =>
      (* Generate RBs *)
      match position_loop self 12 "RB" generate_rb_stats week year 0 (rb_names self)
              players s with
      | None => None
      | Some (players, s) =>
          (* Generate WRs *)
          match position_loop self 24 "WR" generate_wr_stats week year 0 (wr_names self)
                  players s with
          | None => None
          | Some (players, s) =>
              (* Generate TEs *)
              position_loop self 0 "TE" generate_te_stats week year 0 (te_names self)
                players s
          end
      end
  end.

End Generator.

(** A source that always draws the lower bound. *)
Definition lowest : random_source unit :=
  {| randint := fun a _ s => (a, s); uniform := fun a _ s => (a, s) |}.

End test_data_generator.

(** * Properties *)

Open Scope list_scope.

(** ** Floating-point facts *)

Section FloatFacts.

Lemma Prim2SF_zero_inv (x : float) (s : bool) :
  Prim2SF x = S754_zero s -> ScoringSpec.zero x.
Proof.
  intros H. rewrite <- (SF2Prim_Prim2SF x), H.
  destruct s; [right | left]; reflexivity.
Qed.

Lemma zero_Prim2SF (x : float) :
  ScoringSpec.zero x -> exists s, Prim2SF x = S754_zero s.
Proof. intros [-> | ->]; eexists; reflexivity. Qed.

Lemma pos_mul_2p52 (m : positive) :
  (m * 4503599627370496)%positive = Pos.iter xO m 52%positive.
Proof. rewrite Pos.mul_comm. reflexivity. Qed.

Lemma digits2_pos_iter_xO (m k : positive) :
  Zpos (digits2_pos (Pos.iter xO m k)) = Zpos (digits2_pos m) + Zpos k.
Proof.
  revert m. induction k as [|k IH] using Pos.peano_ind; intros m.
  - simpl. lia.
  - rewrite Pos.iter_succ. simpl digits2_pos. rewrite Pos2Z.inj_succ, IH. lia.
Qed.

(** Multiplying a binary64 number by [1.0] rounds to the number itself. *)
Lemma SFmul_one_r (x : spec_float) :
  valid_binary x = true ->
  SFmul prec emax x (S754_finite false 4503599627370496 (-52)) = x.
Proof.
  destruct x as [s|s| |s m e]; simpl; intros Hv; try reflexivity.
  - destruct s; reflexivity.
  - destruct s; reflexivity.
  - unfold SpecFloat.bounded, canonical_mantissa in Hv.
    apply andb_prop in Hv as [Hc Hb]. apply Z.eqb_eq in Hc.
    unfold binary_round_aux, shr_fexp.
    rewrite pos_mul_2p52. unfold Zdigits2.
    rewrite digits2_pos_iter_xO.
    replace (Z.pos (digits2_pos m) + 52 + (e + -52)) with (Z.pos (digits2_pos m) + e) by lia.
    rewrite Hc. replace (e - (e + -52)) with 52 by lia.
    cbn -[fexp Z.leb Z.sub Z.add].
    replace (e + -52 + 52) with e by lia.
    rewrite Hc, Z.sub_diag. cbn -[Z.leb Z.sub]. rewrite Hb.
    destruct s; reflexivity.
Qed.

Lemma float_mul_one_r (x : float) : (x * 1)%float = x.
Proof.
  apply Prim2SF_inj. rewrite mul_spec.
  change (Prim2SF 1) with (S754_finite false 4503599627370496 (-52)).
  apply SFmul_one_r, Prim2SF_valid.
Qed.

(** [0.0 + x] is [x], except that [0.0 + -0.0] is [0.0]. *)
Lemma float_zero_add (x : float) :
  (0 + x)%float = x \/ (ScoringSpec.zero (0 + x)%float /\ ScoringSpec.zero x).
Proof.
  destruct (Prim2SF x) as [s|s| |s m e] eqn:Hx.
  - right. split; [|eapply Prim2SF_zero_inv; eassumption].
    apply (Prim2SF_zero_inv _ false). rewrite add_spec, Hx.
    destruct s; reflexivity.
  - left. apply Prim2SF_inj. rewrite add_spec, Hx. reflexivity.
  - left. apply Prim2SF_inj. rewrite add_spec, Hx. reflexivity.
  - left. apply Prim2SF_inj. rewrite add_spec, Hx. reflexivity.
Qed.

(** Adding to, or subtracting from, either zero gives equal numbers. *)
Lemma float_add_zeros (x y t : float) :
  ScoringSpec.zero x -> ScoringSpec.zero y ->
  (x + t)%float = (y + t)%float
  \/ (ScoringSpec.zero (x + t)%float /\ ScoringSpec.zero (y + t)%float).
Proof.
  intros [sx Hx]%zero_Prim2SF [sy Hy]%zero_Prim2SF.
  destruct (Prim2SF t) as [s|s| |s m e] eqn:Ht.
  - right. split.
    + apply (Prim2SF_zero_inv _ (sx && s)). rewrite add_spec, Hx, Ht.
      destruct sx, s; reflexivity.
    + apply (Prim2SF_zero_inv _ (sy && s)). rewrite add_spec, Hy, Ht.
      destruct sy, s; reflexivity.
  - left. apply Prim2SF_inj. rewrite !add_spec, Hx, Hy, Ht. reflexivity.
  - left. apply Prim2SF_inj. rewrite !add_spec, Hx, Hy, Ht. reflexivity.
  - left. apply Prim2SF_inj. rewrite !add_spec, Hx, Hy, Ht. reflexivity.
Qed.

Lemma float_sub_zeros (x y t : float) :
  ScoringSpec.zero x -> ScoringSpec.zero y ->
  (x - t)%float = (y - t)%float
  \/ (ScoringSpec.zero (x - t)%float /\ ScoringSpec.zero (y - t)%float).
Proof.
  intros [sx Hx]%zero_Prim2SF [sy Hy]%zero_Prim2SF.
  destruct (Prim2SF t) as [s|s| |s m e] eqn:Ht.
  - right. split.
    + apply (Prim2SF_zero_inv _ (sx && negb s)). rewrite sub_spec, Hx, Ht.
      destruct sx, s; reflexivity.
    + apply (Prim2SF_zero_inv _ (sy && negb s)). rewrite sub_spec, Hy, Ht.
      destruct sy, s; reflexivity.
  - left. apply Prim2SF_inj. rewrite !sub_spec, Hx, Hy, Ht. reflexivity.
  - left. apply Prim2SF_inj. rewrite !sub_spec, Hx, Hy, Ht. reflexivity.
  - left. apply Prim2SF_inj. rewrite !sub_spec, Hx, Hy, Ht. reflexivity.
Qed.

(** Rounding keeps a zero as it is. *)
Lemma round1_zero (x : float) : ScoringSpec.zero x -> PyNum.round1 x = x.
Proof. intros [-> | ->]; reflexivity. Qed.

End FloatFacts.

(** ** The scoring function *)

Section Scoring.

Import ScoringSpec.

Lemma same_number_refl (a : num) : same_number a a.
Proof. left; reflexivity. Qed.

Lemma same_outcome_refl (r : result num) : same_outcome r r.
Proof. destruct r; simpl; [apply same_number_refl | reflexivity]. Qed.

Lemma same_outcome_bind (r r' : result num) (k k' : num -> result num) :
  same_outcome r r' ->
  (forall a b, same_number a b -> same_outcome (k a) (k' b)) ->
  same_outcome (bind r k) (bind r' k').
Proof. destruct r, r'; simpl; intros H Hk; try contradiction; auto. Qed.

(** The same first computation on both sides, the right-hand side being
    nested in a further [bind]. *)
Lemma same_bind_nested {A : Type} (r : result A) (k : A -> result num)
    (k1 : A -> result num) (k2 : num -> result num) :
  (forall a, r = Ok a -> same_outcome (k a) (bind (k1 a) k2)) ->
  same_outcome (bind r k) (bind (bind r k1) k2).
Proof. destruct r; simpl; auto. Qed.

(** Related first computations, the right-hand side being nested. *)
Lemma same_outcome_bind_nested (r r' : result num) (k : num -> result num)
    (k1 : num -> result num) (k2 : num -> result num) :
  same_outcome r r' ->
  (forall a b, same_number a b -> same_outcome (k a) (bind (k1 b) k2)) ->
  same_outcome (bind r k) (bind (bind r' k1) k2).
Proof. destruct r, r'; simpl; intros H Hk; try contradiction; auto. Qed.

Lemma to_float_one : PyNum.to_float (PyInt 1) = Ok 1%float.
Proof. reflexivity. Qed.

Lemma to_float_zero : PyNum.to_float (PyInt 0) = Ok 0%float.
Proof. reflexivity. Qed.

Lemma mul_float_one (x : float) : PyNum.mul (PyFloat x) (PyInt 1) = Ok (PyFloat x).
Proof.
  unfold PyNum.mul. rewrite to_float_one.
  cbn [PyNum.to_float bind]. rewrite float_mul_one_r. reflexivity.
Qed.

Lemma add_zero_float (x : float) :
  PyNum.add (PyInt 0) (PyFloat x) = Ok (PyFloat (0 + x)%float).
Proof. unfold PyNum.add. rewrite to_float_zero. reflexivity. Qed.

(** True division gives a float. *)
Lemma truediv_is_float (a b v : num) :
  PyNum.truediv a b = Ok v -> exists x, v = PyFloat x.
Proof.
  unfold PyNum.truediv.
  destruct a as [n|x|], b as [m|y|]; cbn [PyNum.to_float bind]; try discriminate.
  - destruct (PyNum.int_truediv n m); cbn [bind]; intros [= <-]; eauto.
  - destruct (PyNum.int_to_float n); cbn [bind]; [|discriminate].
    destruct (is_zero y); intros [= <-]; eauto.
  - destruct (PyNum.int_to_float m) as [y|]; cbn [bind]; [|discriminate].
    destruct (is_zero y); intros [= <-]; eauto.
  - destruct (is_zero y); intros [= <-]; eauto.
Qed.

Lemma add_same (p p' t : num) :
  same_number p p' -> same_outcome (PyNum.add p t) (PyNum.add p' t).
Proof.
  intros [-> | (x & y & -> & -> & Hx & Hy)]; [apply same_outcome_refl|].
  assert (forall f, same_number (PyFloat (x + f)%float) (PyFloat (y + f)%float)) as Hs.
  { intros f. destruct (float_add_zeros x y f Hx Hy) as [-> | [H1 H2]].
    - apply same_number_refl.
    - right. eauto 10. }
  destruct t as [n|f|]; unfold PyNum.add; cbn [PyNum.to_float bind].
  - destruct (PyNum.int_to_float n) as [f|e]; cbn [bind]; [apply Hs | reflexivity].
  - apply Hs.
  - reflexivity.
Qed.

Lemma sub_same (p p' t : num) :
  same_number p p' -> same_outcome (PyNum.sub p t) (PyNum.sub p' t).
Proof.
  intros [-> | (x & y & -> & -> & Hx & Hy)]; [apply same_outcome_refl|].
  assert (forall f, same_number (PyFloat (x - f)%float) (PyFloat (y - f)%float)) as Hs.
  { intros f. destruct (float_sub_zeros x y f Hx Hy) as [-> | [H1 H2]].
    - apply same_number_refl.
    - right. eauto 10. }
  destruct t as [n|f|]; unfold PyNum.sub; cbn [PyNum.to_float bind].
  - destruct (PyNum.int_to_float n) as [f|e]; cbn [bind]; [apply Hs | reflexivity].
  - apply Hs.
  - reflexivity.
Qed.

Lemma round_same (p p' : num) :
  same_number p p' -> same_outcome (PyNum.round_1 p) (PyNum.round_1 p').
Proof.
  intros [-> | (x & y & -> & -> & Hx & Hy)]; [apply same_outcome_refl|].
  right. exists x, y. simpl. rewrite !round1_zero by assumption. auto.
Qed.

(** The accumulation of the code and the formula of the specification stay
    equal as numbers, statement after statement. *)
Lemma calculate_same_outcome (stat : provider_record) :
  same_outcome (api_lambda.calculate_fantasy_points stat) (score stat).
Proof.
  unfold api_lambda.calculate_fantasy_points, score, formula.
  change (get_num stat) with (fun k d => match num_members stat !! k with
                                         | Some v => v | None => d end).
  change (field stat) with (fun k => match num_members stat !! k with
                                     | Some v => v | None => PyInt 0 end).
  cbv beta.
  (* passing yards *)
  apply same_bind_nested; intros q [x ->]%truediv_is_float.
  rewrite mul_float_one. cbn [bind]. rewrite add_zero_float. cbn [bind].
  assert (same_number (PyFloat (0 + x)%float) (PyFloat x)) as Hs.
  { destruct (float_zero_add x) as [-> | [H1 H2]];
      [apply same_number_refl | right; eauto 10]. }
  revert Hs. generalize (PyFloat (0 + x)%float) (PyFloat x). clear x.
  intros p p' Hs.
  (* passing touchdowns, interceptions *)
  apply same_bind_nested; intros t _.
  apply same_outcome_bind_nested; [apply add_same, Hs|]. clear p p' Hs; intros p p' Hs.
  apply same_bind_nested; intros t' _.
  apply same_outcome_bind_nested; [apply sub_same, Hs|]. clear p p' Hs; intros p p' Hs.
  (* rushing yards and touchdowns *)
  apply same_bind_nested; intros q [x ->]%truediv_is_float.
  rewrite mul_float_one. cbn [bind].
  apply same_outcome_bind_nested; [apply add_same, Hs|]. clear p p' Hs; intros p p' Hs.
  apply same_bind_nested; intros t'' _.
  apply same_outcome_bind_nested; [apply add_same, Hs|]. clear p p' Hs; intros p p' Hs.
  (* receiving yards and touchdowns, receptions *)
  apply same_bind_nested; intros q [y ->]%truediv_is_float.
  rewrite mul_float_one. cbn [bind].
  apply same_outcome_bind_nested; [apply add_same, Hs|]. clear p p' Hs; intros p p' Hs.
  apply same_bind_nested; intros t3 _.
  apply same_outcome_bind_nested; [apply add_same, Hs|]. clear p p' Hs; intros p p' Hs.
  apply same_bind_nested; intros t4 _.
  apply same_outcome_bind_nested; [apply add_same, Hs|]. clear p p' Hs; intros p p' Hs.
  (* fumbles, rounding *)
  apply same_bind_nested; intros t5 _.
  apply same_outcome_bind; [apply sub_same, Hs|].
  intros a b Hab. apply round_same, Hab.
Qed.

End Scoring.

(** ** The scoring function returns *)

Section ScoringReturns.

Import ScoringSpec.

Lemma range_bound_pos : 0 < 2 ^ 1020.
Proof. reflexivity. Qed.

Lemma range_below_threshold : 6 * 2 ^ 1020 < PyNum.float_overflow_threshold.
Proof. reflexivity. Qed.

Lemma int_to_float_small (n : Z) :
  Z.abs n < 6 * 2 ^ 1020 -> exists x, PyNum.int_to_float n = Ok x.
Proof.
  intros H. unfold PyNum.int_to_float.
  pose proof range_below_threshold as Ht.
  destruct (Z.ltb_spec (Z.abs n) PyNum.float_overflow_threshold); [eauto | lia].
Qed.

(** A product by one of the weights of the formula can be added to a float. *)
Lemma mul_weight_in_range (v : num) (c : Z) :
  in_float_range v -> 1 <= c <= 6 ->
  exists t x, PyNum.mul v (PyInt c) = Ok t /\ PyNum.to_float t = Ok x.
Proof.
  intros Hv Hc. destruct v as [n|x|]; simpl in Hv; [| |contradiction].
  - destruct (int_to_float_small (n * c)) as [y Hy].
    { pose proof range_bound_pos. nia. }
    exists (PyInt (n * c)), y. split; [reflexivity | exact Hy].
  - destruct (int_to_float_small c) as [y Hy].
    { pose proof range_bound_pos. lia. }
    exists (PyFloat (x * y)%float), (x * y)%float.
    unfold PyNum.mul. cbn [PyNum.to_float bind]. rewrite Hy. split; reflexivity.
Qed.

(** A quotient by one of the divisors of the formula is a float. *)
Lemma truediv_in_range (v : num) (c : Z) :
  in_float_range v -> c = 25 \/ c = 10 ->
  exists x, PyNum.truediv v (PyInt c) = Ok (PyFloat x).
Proof.
  intros Hv Hc. destruct v as [n|x|]; simpl in Hv; [| |contradiction].
  - unfold PyNum.truediv, PyNum.int_truediv.
    destruct (Z.eqb_spec c 0) as [->|_]; [lia|].
    pose proof range_below_threshold as Ht. pose proof range_bound_pos.
    destruct (Z.ltb_spec (Z.abs n) (PyNum.float_overflow_threshold * Z.abs c));
      [cbn [bind]; eauto | nia].
  - destruct Hc as [-> | ->]; eexists; reflexivity.
Qed.

Lemma add_float_returns (x : float) (t : num) (y : float) :
  PyNum.to_float t = Ok y ->
  PyNum.add (PyFloat x) t = Ok (PyFloat (x + y)%float).
Proof.
  intros H. unfold PyNum.add. destruct t as [n|f|]; cbn [PyNum.to_float bind] in *.
  - rewrite H. reflexivity.
  - injection H as ->. reflexivity.
  - discriminate.
Qed.

Lemma sub_float_returns (x : float) (t : num) (y : float) :
  PyNum.to_float t = Ok y ->
  PyNum.sub (PyFloat x) t = Ok (PyFloat (x - y)%float).
Proof.
  intros H. unfold PyNum.sub. destruct t as [n|f|]; cbn [PyNum.to_float bind] in *.
  - rewrite H. reflexivity.
  - injection H as ->. reflexivity.
  - discriminate.
Qed.

Lemma calculate_returns (stat : provider_record) :
  Forall (fun k => in_float_range (field stat k)) fields ->
  exists x, api_lambda.calculate_fantasy_points stat = Ok (PyFloat x).
Proof.
  intros H. unfold fields in H.
  repeat match goal with
         | H : Forall _ (_ :: _) |- _ => apply Forall_cons_1 in H as [? H]
         end.
  clear H. cbv beta in *.
  unfold api_lambda.calculate_fantasy_points.
  change (get_num stat) with (fun k (d : num) => match num_members stat !! k with
                                         | Some v => v | None => d end).
  cbv beta.
  repeat match goal with
         | H : in_float_range (field stat ?k) |- _ =>
             unfold field in H
         end.
  repeat
    (first
       [ match goal with
         | H : in_float_range ?v |- context [PyNum.truediv ?v (PyInt ?c)] =>
             let x := fresh "x" in let E := fresh "E" in
             destruct (truediv_in_range v c H) as [x E]; [auto|];
             rewrite E; clear E; cbn [bind]; rewrite mul_float_one; cbn [bind]
         | H : in_float_range ?v |- context [PyNum.mul ?v (PyInt ?c)] =>
             let t := fresh "t" in let x := fresh "x" in
             let E := fresh "E" in let F := fresh "F" in
             destruct (mul_weight_in_range v c H) as (t & x & E & F); [lia|];
             rewrite E; clear E; cbn [bind];
             first [ rewrite (add_float_returns _ _ _ F)
                   | rewrite (sub_float_returns _ _ _ F) ];
             clear F; cbn [bind]
         end
       | rewrite add_zero_float; cbn [bind]
       | rewrite (add_float_returns _ (PyFloat _) _ eq_refl); cbn [bind] ]).
  eexists. reflexivity.
Qed.

(** The result depends on the nine statistics only. *)
Lemma calculate_same_fields (stat stat' : provider_record) :
  same_fields stat stat' ->
  api_lambda.calculate_fantasy_points stat' = api_lambda.calculate_fantasy_points stat.
Proof.
  intros H. unfold same_fields, fields in H.
  repeat match goal with
         | H : Forall _ (_ :: _) |- _ => apply Forall_cons_1 in H as [? H]
         end.
  cbv beta in *.
  unfold api_lambda.calculate_fantasy_points.
  change (get_num stat') with (fun k (d : num) => match num_members stat' !! k with
                                         | Some v => v | None => d end).
  change (get_num stat) with (fun k (d : num) => match num_members stat !! k with
                                         | Some v => v | None => d end).
  cbv beta.
  repeat match goal with
         | H : field stat ?k = field stat' ?k |- _ =>
             unfold field in H; rewrite <- H; clear H
         end.
  reflexivity.
Qed.

End ScoringReturns.

(** ** Rounding to one decimal place *)

Section Rounding.

Import ScoringSpec.

(** The integer that [round] computes by division and comparison is the
    nearest number of tenths. *)
Lemma tenths_nearest (m : positive) (e : Z) : nearest_tenths m e (PyNum.tenths m e).
Proof.
  unfold nearest_tenths, PyNum.tenths. destruct e as [|p|p]; [reflexivity..|].
  cbv zeta.
  assert (0 < Z.pow_pos 2 p) as Hd by (rewrite Z.pow_pos_fold; apply Z.pow_pos_nonneg; lia).
  set (d := Z.pow_pos 2 p) in *. set (v := 10 * Z.pos m).
  pose proof (Z.div_mod v d ltac:(lia)) as Hv.
  pose proof (Z.mod_pos_bound v d Hd) as Hr.
  set (q := v / d) in *. set (r := v mod d) in *.
  assert (forall n, v - n * d = r + (q - n) * d) as Hdist by (intros n; lia).
  destruct (Z.compare_spec (2 * r) d) as [Heq|Hlt|Hgt].
  - destruct (Z.even q) eqn:Hq.
    + rewrite Hdist, Z.sub_diag. cbn [Z.mul]. rewrite Z.add_0_r.
      split; [lia|]. intros _. exact Hq.
    + rewrite Hdist. replace (q - (q + 1)) with (-1) by lia.
      split; [lia|]. intros _. rewrite Z.even_add, Hq. reflexivity.
  - rewrite Hdist, Z.sub_diag. cbn [Z.mul]. rewrite Z.add_0_r. split; lia.
  - rewrite Hdist. replace (q - (q + 1)) with (-1) by lia. split; lia.
Qed.

(** Python's [round(x, 1)] rounds to one decimal place. *)
Lemma round1_one_decimal (x : float) : one_decimal x (PyNum.round1 x).
Proof.
  unfold one_decimal, PyNum.round1.
  destruct (Prim2SF x) as [s|s| |s m e]; try reflexivity.
  exists (PyNum.tenths m e). split; [apply tenths_nearest|].
  unfold tenths_to_float. destruct (PyNum.tenths m e); reflexivity.
Qed.

(** The nearest number of tenths is unique: rounding to one decimal place is
    a function. *)
Lemma nearest_tenths_unique (m : positive) (e : Z) (n n' : Z) :
  nearest_tenths m e n -> nearest_tenths m e n' -> n = n'.
Proof.
  unfold nearest_tenths. destruct e as [|p|p]; [congruence..|].
  cbv zeta. assert (0 < Z.pow_pos 2 p) as Hd by (rewrite Z.pow_pos_fold; apply Z.pow_pos_nonneg; lia).
  set (d := Z.pow_pos 2 p) in *. set (v := 10 * Z.pos m).
  intros [H1 E1] [H2 E2].
  assert (Z.abs ((n - n') * d) <= d) as Hnn.
  { replace ((n - n') * d) with ((v - n' * d) - (v - n * d)) by lia. lia. }
  assert (-1 <= n - n' <= 1) as Hrange by nia.
  destruct (Z.eq_dec n n') as [|Hne]; [assumption|exfalso].
  assert (2 * Z.abs (v - n * d) = d /\ 2 * Z.abs (v - n' * d) = d) as [T1 T2] by nia.
  specialize (E1 T1). specialize (E2 T2).
  apply Z.even_spec in E1 as [a Ha], E2 as [b Hb]. lia.
Qed.

Lemma one_decimal_unique (x y y' : float) :
  one_decimal x y -> one_decimal x y' -> y = y'.
Proof.
  unfold one_decimal. destruct (Prim2SF x) as [s|s| |s m e]; try congruence.
  intros (n & Hn & ->) (n' & Hn' & ->).
  rewrite (nearest_tenths_unique m e n n' Hn Hn'). reflexivity.
Qed.

(** A difference is a number. *)
Lemma sub_is_number (a b v : num) : PyNum.sub a b = Ok v -> v <> PyNone.
Proof.
  unfold PyNum.sub. destruct a as [n|x|], b as [m|y|]; cbn [PyNum.to_float bind];
    try discriminate.
  - intros [= <-]. discriminate.
  - destruct (PyNum.int_to_float n); cbn [bind]; [|discriminate].
    intros [= <-]. discriminate.
  - destruct (PyNum.int_to_float m); cbn [bind]; [|discriminate].
    intros [= <-]. discriminate.
  - intros [= <-]. discriminate.
Qed.

(** The rounding of a number is its [round(v, 1)]. *)
Lemma round_1_rounded (v : num) :
  v <> PyNone -> exists r, PyNum.round_1 v = Ok r /\ rounded v r.
Proof.
  destruct v as [n|x|]; [| |contradiction]; intros _; eexists; (split; [reflexivity|]).
  - reflexivity.
  - apply round1_one_decimal.
Qed.

End Rounding.

(** ** Claims about the scoring engine *)

Section ScoringClaims.

Import ScoringSpec.

(** What the formula returns is a number. *)
Lemma formula_is_number (stat : provider_record) (v : num) :
  formula stat = Ok v -> v <> PyNone.
Proof.
  unfold formula. intros H.
  repeat match goal with
         | H : bind ?r _ = Ok _ |- _ =>
             destruct r eqn:?; cbn [bind] in H; [|discriminate]
         end.
  eapply sub_is_number. exact H.
Qed.

(** C1. For every record, [calculate_fantasy_points] returns the value of
    the specification's formula (floating-point division, a missing field
    read as zero) rounded to one decimal place, where rounding is stated in
    exact arithmetic: the float of the nearest number of tenths, the even
    one of two.  Where the formula raises (an int beyond the range of
    [float], a statistic that is [None]), the function raises the same
    exception.  It returns a float whenever the nine statistics are floats
    or ints below [2^1020], and its result is a function of the nine
    statistics alone. *)
Theorem calculate_fantasy_points_formula (stat : provider_record) :
  match formula stat with
  | Ok v =>
      exists w r,
        api_lambda.calculate_fantasy_points stat = Ok w
        /\ rounded v r /\ same_number w r
  | Raise e => api_lambda.calculate_fantasy_points stat = Raise e
  end
  /\ (Forall (fun k => in_float_range (field stat k)) fields ->
      exists x, api_lambda.calculate_fantasy_points stat = Ok (PyFloat x))
  /\ (forall stat', same_fields stat stat' ->
      api_lambda.calculate_fantasy_points stat'
      = api_lambda.calculate_fantasy_points stat).
Proof.
  split; [|split; [apply calculate_returns | intros stat'; apply calculate_same_fields]].
  pose proof (calculate_same_outcome stat) as H. unfold score in H.
  destruct (formula stat) as [v|e] eqn:Hf; cbn [bind] in H.
  - destruct (round_1_rounded v (formula_is_number stat v Hf)) as (r & Hr & Hvr).
    rewrite Hr in H.
    destruct (api_lambda.calculate_fantasy_points stat) as [w|]; [|contradiction].
    exists w, r. auto.
  - destruct (api_lambda.calculate_fantasy_points stat); [contradiction|].
    cbn in H. congruence.
Qed.

(** The sample line scores 23.34, which rounds down to 23.3; 23.36 rounds up
    to 23.4; the tie 0.25 rounds to the even 0.2. *)
Lemma calculate_fantasy_points_formula_witness :
  (exists x, api_lambda.calculate_fantasy_points sample_line = Ok (PyFloat x))
  /\ api_lambda.calculate_fantasy_points sample_line'
     = api_lambda.calculate_fantasy_points sample_line
  /\ formula sample_line = Ok (PyFloat 0x1.7570a3d70a3d7p+4)
  /\ api_lambda.calculate_fantasy_points sample_line = Ok (PyFloat 0x1.74ccccccccccdp+4)
  /\ api_lambda.calculate_fantasy_points line_up = Ok (PyFloat 0x1.7666666666666p+4)
  /\ api_lambda.calculate_fantasy_points line_tie = Ok (PyFloat 0x1.999999999999ap-3).
Proof.
  destruct (calculate_fantasy_points_formula sample_line) as (_ & H2 & H3).
  split; [apply H2; repeat constructor; cbn; lia|].
  split; [apply H3; repeat constructor|].
  repeat split; vm_compute; reflexivity.
Defined.

(** C5. The three worked examples: all statistics zero gives 0.0; 300
    passing yards, 2 passing touchdowns and 1 interception give 18.0;
    10 receptions, 120 receiving yards, 1 receiving touchdown and 1 fumble
    give 26.0. *)
Theorem calculate_fantasy_points_examples :
  api_lambda.calculate_fantasy_points
    {| str_members := ∅;
       num_members := {[ "PassingYards" := PyInt 0; "PassingTouchdowns" := PyInt 0;
                         "Interceptions" := PyInt 0; "RushingYards" := PyInt 0;
                         "RushingTouchdowns" := PyInt 0; "ReceivingYards" := PyInt 0;
                         "ReceivingTouchdowns" := PyInt 0; "Receptions" := PyInt 0;
                         "Fumbles" := PyInt 0 ]} |}
  = Ok (PyFloat 0)
  /\ api_lambda.calculate_fantasy_points
       {| str_members := ∅;
          num_members := {[ "PassingYards" := PyInt 300; "PassingTouchdowns" := PyInt 2;
                            "Interceptions" := PyInt 1; "RushingYards" := PyInt 0;
                            "RushingTouchdowns" := PyInt 0; "ReceivingYards" := PyInt 0;
                            "ReceivingTouchdowns" := PyInt 0; "Receptions" := PyInt 0;
                            "Fumbles" := PyInt 0 ]} |}
     = Ok (PyFloat 18)
  /\ api_lambda.calculate_fantasy_points
       {| str_members := ∅;
          num_members := {[ "PassingYards" := PyInt 0; "PassingTouchdowns" := PyInt 0;
                            "Interceptions" := PyInt 0; "RushingYards" := PyInt 0;
                            "RushingTouchdowns" := PyInt 0; "ReceivingYards" := PyInt 120;
                            "ReceivingTouchdowns" := PyInt 1; "Receptions" := PyInt 10;
                            "Fumbles" := PyInt 1 ]} |}
     = Ok (PyFloat 26).
Proof. repeat split; vm_compute; reflexivity. Qed.

(** C10. The method of [SportsDataScraper] and the function of
    [api_lambda.py] return the same value on every record. *)
Theorem calculate_fantasy_points_agree
    (self : sportsdata_scraper.SportsDataScraper) (stat : provider_record) :
  sportsdata_scraper.calculate_fantasy_points self stat
  = api_lambda.calculate_fantasy_points stat.
Proof. reflexivity. Qed.

End ScoringClaims.

(** ** The record normalizer *)

Section Normalizer.

Import NormalizerSpec.

Lemma api_format_loop_spec (todo : list provider_record) (acc : list api_lambda.player) :
  match api_lambda.format_loop todo acc with
  | Ok players => exists new, players = acc ++ new /\ Forall2 canonical_api todo new
  | Raise e => exists stat, stat ∈ todo /\ api_lambda.calculate_fantasy_points stat = Raise e
  end.
Proof.
  revert acc. induction todo as [|stat todo IH]; intros acc; simpl.
  - exists []. rewrite app_nil_r. split; [reflexivity | constructor].
  - destruct (api_lambda.calculate_fantasy_points stat) as [fp|e] eqn:Hfp; simpl.
    + match goal with |- context [api_lambda.format_loop todo (acc ++ [?p])] =>
        specialize (IH (acc ++ [p])); set (pl := p) in * end.
      destruct (api_lambda.format_loop todo (acc ++ [pl])) as [players|e].
      * destruct IH as (new & -> & Hnew). exists (pl :: new).
        split; [rewrite <- app_assoc; reflexivity|].
        constructor; [|exact Hnew].
        repeat split; simpl. exists fp. split; [exact Hfp|]. apply lookup_singleton_eq.
      * destruct IH as (s & Hs & He). exists s. split; [right; exact Hs | exact He].
    + exists stat. split; [left | exact Hfp].
Qed.

Lemma scraper_format_loop_spec (self : sportsdata_scraper.SportsDataScraper)
    (week : option Z) (year : Z) (todo : list provider_record)
    (acc : list sportsdata_scraper.player) :
  match sportsdata_scraper.format_loop self week year todo acc with
  | Ok players => exists new, players = acc ++ new /\ Forall2 canonical_scraper todo new
  | Raise e => exists stat, stat ∈ todo /\ api_lambda.calculate_fantasy_points stat = Raise e
  end.
Proof.
  revert acc. induction todo as [|stat todo IH]; intros acc; simpl.
  - exists []. rewrite app_nil_r. split; [reflexivity | constructor].
  - change (sportsdata_scraper.calculate_fantasy_points self stat)
      with (api_lambda.calculate_fantasy_points stat).
    destruct (api_lambda.calculate_fantasy_points stat) as [fp|e] eqn:Hfp; simpl.
    + match goal with |- context [sportsdata_scraper.format_loop _ _ _ todo (acc ++ [?p])] =>
        specialize (IH (acc ++ [p])); set (pl := p) in * end.
      destruct (sportsdata_scraper.format_loop self week year todo (acc ++ [pl]))
        as [players|e].
      * destruct IH as (new & -> & Hnew). exists (pl :: new).
        split; [rewrite <- app_assoc; reflexivity|].
        constructor; [|exact Hnew].
        repeat split; simpl. exists fp. split; [exact Hfp|].
        repeat (rewrite lookup_insert_ne by discriminate).
        apply lookup_singleton_eq.
      * destruct IH as (s & Hs & He). exists s. split; [right; exact Hs | exact He].
    + exists stat. split; [left | exact Hfp].
Qed.

(** C9. Both normalizers, [format_player_data] and the loop of
    [lambda_handler], are projections of their input list, which they only
    read: when they return, the output has one record per input record, in
    the same order, each in the canonical shape with its name, team and
    position taken from the input record (the empty string when missing) and
    its score in the stats; they raise only the exception that the scoring of
    some input record raises, and they return whenever every record can be
    scored. *)
Theorem normalizer_is_projection (self : sportsdata_scraper.SportsDataScraper)
    (stats_data : list provider_record) (week : option Z) (year : Z) :
  match sportsdata_scraper.format_player_data self stats_data week year with
  | Ok players =>
      length players = length stats_data
      /\ Forall2 canonical_scraper stats_data players
  | Raise e =>
      exists stat, stat ∈ stats_data
                   /\ api_lambda.calculate_fantasy_points stat = Raise e
  end
  /\ match api_lambda.format_loop stats_data [] with
     | Ok all_players =>
         length all_players = length stats_data
         /\ Forall2 canonical_api stats_data all_players
     | Raise e =>
         exists stat, stat ∈ stats_data
                      /\ api_lambda.calculate_fantasy_points stat = Raise e
     end
  /\ (Forall (fun stat => exists v, api_lambda.calculate_fantasy_points stat = Ok v)
        stats_data ->
      exists players all_players,
        sportsdata_scraper.format_player_data self stats_data week year = Ok players
        /\ api_lambda.format_loop stats_data [] = Ok all_players).
Proof.
  pose proof (scraper_format_loop_spec self week year stats_data []) as Hs.
  pose proof (api_format_loop_spec stats_data []) as Ha.
  unfold sportsdata_scraper.format_player_data.
  destruct (sportsdata_scraper.format_loop self week year stats_data []) as [ps|e1];
    destruct (api_lambda.format_loop stats_data []) as [pa|e2].
  - destruct Hs as (n1 & -> & H1), Ha as (n2 & -> & H2). simpl.
    repeat split; eauto using eq_sym, Forall2_length.
  - destruct Hs as (n1 & -> & H1), Ha as (stat & Hin & He). simpl.
    repeat split; eauto using eq_sym, Forall2_length.
    intros Hall. rewrite Forall_forall in Hall.
    destruct (Hall stat Hin) as [v Hv]. congruence.
  - destruct Hs as (stat & Hin & He), Ha as (n2 & -> & H2). simpl.
    repeat split; eauto using eq_sym, Forall2_length.
    intros Hall. rewrite Forall_forall in Hall.
    destruct (Hall stat Hin) as [v Hv]. congruence.
  - destruct Hs as (stat & Hin & He), Ha as (stat' & Hin' & He').
    repeat split; eauto.
    intros Hall. rewrite Forall_forall in Hall.
    destruct (Hall stat Hin) as [v Hv]. congruence.
Qed.

Lemma normalizer_is_projection_witness :
  exists players all_players,
    sportsdata_scraper.format_player_data
      {| sportsdata_scraper.api_key := "key";
         sportsdata_scraper.base_url := "https://api.sportsdata.io/v3/nfl" |}
      [sample_line; sample_line'] None 2024 = Ok players
    /\ api_lambda.format_loop [sample_line; sample_line'] [] = Ok all_players.
Proof.
  apply (normalizer_is_projection _ [sample_line; sample_line'] None 2024).
  repeat constructor; eexists; vm_compute; reflexivity.
Defined.

End Normalizer.

(** ** Tables under upserts *)

Section UpsertFacts.

Import Upsert.

Context {R K : Type} `{EqDecision K} (key : R -> option K).

Abbreviation op := (Upsert.op R K).

Lemma hits_true (o : op) (r : R) :
  hits key o r = true <-> exists k, op_key o = Some k /\ key r = Some k.
Proof.
  unfold hits. destruct (op_key o) as [k|]; split.
  - intros Hh. apply bool_decide_eq_true_1 in Hh. eauto.
  - intros (k' & [= <-] & Hr). apply bool_decide_eq_true_2, Hr.
  - discriminate.
  - intros (k' & Hk & _). discriminate.
Qed.

Lemma hits_false (o : op) (r : R) :
  hits key o r = false <-> forall k, op_key o = Some k -> key r <> Some k.
Proof.
  split.
  - intros Hh k Hk Hr.
    assert (hits key o r = true) by (apply hits_true; eauto). congruence.
  - intros Hk. destruct (hits key o r) eqn:Hh; [|reflexivity].
    apply hits_true in Hh as (k & Ho & Hr). exfalso. exact (Hk k Ho Hr).
Qed.

Lemma keys_cons (r : R) (rows : list R) :
  keys key (r :: rows) = from_option (fun k => [k]) [] (key r) ++ keys key rows.
Proof. unfold keys. cbn [omap list_omap]. destruct (key r); reflexivity. Qed.

Lemma keys_app (rows rows' : list R) :
  keys key (rows ++ rows') = keys key rows ++ keys key rows'.
Proof.
  induction rows as [|r rows IH]; [reflexivity|].
  cbn [app]. rewrite !keys_cons, IH, app_assoc. reflexivity.
Qed.

Lemma elem_of_keys (k : K) (rows : list R) :
  k ∈ keys key rows <-> exists r, r ∈ rows /\ key r = Some k.
Proof. apply list_elem_of_omap. Qed.

Lemma keys_cons_elem (k : K) (r : R) (rows : list R) :
  k ∈ keys key (r :: rows) <-> key r = Some k \/ k ∈ keys key rows.
Proof.
  rewrite !elem_of_keys. split.
  - intros (x & [->|Hx]%elem_of_cons & Hk); [left; exact Hk | right; eauto].
  - intros [Hk|(x & Hx & Hk)]; [exists r; split; [left | exact Hk]|].
    exists x. split; [right; exact Hx | exact Hk].
Qed.

Lemma NoDup_keys_cons (r : R) (rows : list R) :
  NoDup (keys key (r :: rows)) ->
  NoDup (keys key rows) /\ (forall k, key r = Some k -> k ∉ keys key rows).
Proof.
  rewrite keys_cons. destruct (key r) as [k|]; cbn [from_option app].
  - intros [Hk Hnd]%NoDup_cons. split; [exact Hnd|]. intros k' [= <-]. exact Hk.
  - intros Hnd. split; [exact Hnd | discriminate].
Qed.





(** The row that the statement returns is a row of the table. *)
Lemma apply_returns_elem (o : op) (rows : list R) :
  snd (apply key o rows) ∈ fst (apply key o rows).
Proof.
  unfold apply. induction rows as [|r rows IH]; simpl; [left|].
  destruct (hits key o r); simpl; [left|].
  destruct (Pg.upsert (hits key o) (op_update o) (op_new o) rows) as [rows' x].
  simpl in *. right. exact IH.
Qed.

(** The row that the statement returns is the row with the key. *)
Lemma apply_returns (o : op) (rows : list R) (k : K) :
  op_ok key o -> op_key o = Some k ->
  find_key key k (fst (apply key o rows)) = Some (snd (apply key o rows)).
Proof.
  intros Hok Ho. unfold apply, find_key.
  induction rows as [|r rows IH]; simpl.
  - rewrite bool_decide_eq_true_2; [reflexivity|].
    rewrite (new_key key o Hok). exact Ho.
  - destruct (hits key o r) eqn:Hh; simpl.
    + apply hits_true in Hh as (k' & Ho' & Hrk).
      rewrite bool_decide_eq_true_2; [reflexivity|].
      rewrite (update_key key o Hok). congruence.
    + destruct (Pg.upsert (hits key o) (op_update o) (op_new o) rows) as [rows' x].
      simpl in *. rewrite hits_false in Hh.
      rewrite bool_decide_eq_false_2 by (apply Hh, Ho). exact IH.
Qed.

(** Rows with another key are found as before. *)
Lemma apply_find_other (o : op) (rows : list R) (k : K) :
  op_ok key o -> op_key o <> Some k ->
  find_key key k (fst (apply key o rows)) = find_key key k rows.
Proof.
  intros Hok Hne. unfold apply, find_key.
  induction rows as [|r rows IH]; simpl.
  - rewrite bool_decide_eq_false_2; [reflexivity|].
    rewrite (new_key key o Hok). exact Hne.
  - destruct (hits key o r) eqn:Hh; simpl.
    + apply hits_true in Hh as (k' & Ho' & Hrk).
      rewrite (update_key key o Hok).
      rewrite !bool_decide_eq_false_2 by congruence. reflexivity.
    + destruct (Pg.upsert (hits key o) (op_update o) (op_new o) rows) as [rows' x].
      simpl in *. destruct (bool_decide (key r = Some k)); [reflexivity | exact IH].
Qed.

Lemma present_cons (o : op) (r : R) (rows : list R) :
  present key o (r :: rows) = hits key o r || present key o rows.
Proof.
  unfold present, hits. destruct (op_key o) as [k|]; [|reflexivity].
  apply eq_true_iff_eq.
  rewrite orb_true_iff, !bool_decide_eq_true, keys_cons_elem. reflexivity.
Qed.

(** A column that the update keeps, after an operation: the new row comes
    last. *)
Lemma apply_column {A : Type} (f : R -> A) (o : op) (rows : list R) :
  (forall r, f (op_update o r) = f r) ->
  map f (fst (apply key o rows))
  = if present key o rows then map f rows else map f rows ++ [f (op_new o)].
Proof.
  intros Hf. unfold apply. induction rows as [|r rows IH].
  - cbn [Pg.upsert map fst]. unfold present, keys. cbn [omap list_omap].
    destruct (op_key o); [|reflexivity].
    rewrite bool_decide_eq_false_2; [reflexivity|]. intros Hin. inversion Hin.
  - rewrite present_cons. cbn [Pg.upsert].
    destruct (hits key o r) eqn:Hh; cbn [map fst orb].
    + rewrite Hf. reflexivity.
    + destruct (Pg.upsert (hits key o) (op_update o) (op_new o) rows) as [rows' x].
      cbn [map fst] in *. rewrite IH.
      destruct (present key o rows); reflexivity.
Qed.

(** The keys of the table after an operation. *)
Lemma apply_keys (o : op) (rows : list R) :
  op_ok key o ->
  keys key (fst (apply key o rows))
  = if present key o rows then keys key rows
    else keys key rows ++ from_option (fun k => [k]) [] (op_key o).
Proof.
  intros Hok. unfold apply. induction rows as [|r rows IH].
  - cbn [Pg.upsert fst]. rewrite keys_cons, (new_key key o Hok).
    unfold present, keys. cbn [omap list_omap].
    destruct (op_key o); [|reflexivity].
    rewrite bool_decide_eq_false_2; [rewrite app_nil_r; reflexivity|].
    intros Hin. inversion Hin.
  - rewrite present_cons. cbn [Pg.upsert].
    destruct (hits key o r) eqn:Hh; cbn [fst orb].
    + rewrite !keys_cons, (update_key key o Hok). reflexivity.
    + destruct (Pg.upsert (hits key o) (op_update o) (op_new o) rows) as [rows' x].
      cbn [fst] in *. rewrite !keys_cons, IH.
      destruct (present key o rows); [reflexivity|]. rewrite app_assoc. reflexivity.
Qed.

Lemma present_true (o : op) (rows : list R) :
  present key o rows = true <-> exists k, op_key o = Some k /\ k ∈ keys key rows.
Proof.
  unfold present. destruct (op_key o) as [k|]; split.
  - intros Hh. apply bool_decide_eq_true_1 in Hh. eauto.
  - intros (k' & [= <-] & Hr). apply bool_decide_eq_true_2, Hr.
  - discriminate.
  - intros (k' & Hk & _). discriminate.
Qed.

Lemma apply_NoDup (o : op) (rows : list R) :
  op_ok key o -> NoDup (keys key rows) -> NoDup (keys key (fst (apply key o rows))).
Proof.
  intros Hok Hnd. rewrite apply_keys by assumption.
  destruct (present key o rows) eqn:Hin; [exact Hnd|].
  destruct (op_key o) as [k|] eqn:Ho; cbn [from_option];
    [|rewrite app_nil_r; exact Hnd].
  apply NoDup_app. repeat split; [exact Hnd | | apply NoDup_singleton].
  intros k' Hk' [= ->]%list_elem_of_singleton.
  assert (present key o rows = true) by (apply present_true; eauto). congruence.
Qed.



Lemma apply_length (o : op) (rows : list R) :
  length (fst (apply key o rows))
  = if present key o rows then length rows else S (length rows).
Proof.
  rewrite <- (length_map (fun _ => tt)), (apply_column (fun _ => tt)) by reflexivity.
  destruct (present key o rows).
  - apply length_map.
  - rewrite length_app, length_map. simpl. lia.
Qed.

Lemma apply_find_same (o : op) (rows : list R) :
  snd (apply key o rows)
  = match op_key o with
    | Some k =>
        match find_key key k rows with
        | Some r => op_update o r
        | None => op_new o
        end
    | None => op_new o
    end.
Proof.
  unfold apply, find_key, hits. destruct (op_key o) as [k|].
  - induction rows as [|r rows IH]; cbn [Pg.upsert find snd]; [reflexivity|].
    destruct (bool_decide (key r = Some k)); [reflexivity|].
    destruct (Pg.upsert _ (op_update o) (op_new o) rows) as [rows' x].
    exact IH.
  - induction rows as [|r rows IH]; cbn [Pg.upsert snd]; [reflexivity|].
    destruct (Pg.upsert _ (op_update o) (op_new o) rows) as [rows' x].
    exact IH.
Qed.

Lemma find_key_elem (k : K) (rows : list R) (r : R) :
  find_key key k rows = Some r -> r ∈ rows /\ key r = Some k.
Proof.
  unfold find_key. intros H. apply find_some in H as [H1 H2].
  split; [apply list_elem_of_In, H1 | apply bool_decide_eq_true_1 in H2; exact H2].
Qed.

Lemma find_key_present (k : K) (rows : list R) :
  k ∈ keys key rows -> exists r, find_key key k rows = Some r.
Proof.
  unfold find_key. intros (r & Hr & Hk)%elem_of_keys.
  destruct (find (fun r0 : R => bool_decide (key r0 = Some k)) rows) as [x|] eqn:Hf;
    [eauto|].
  apply list_elem_of_In in Hr.
  pose proof (find_none _ _ Hf r Hr) as Hn. simpl in Hn.
  rewrite bool_decide_eq_true_2 in Hn by exact Hk. discriminate.
Qed.

Lemma find_key_absent (k : K) (rows : list R) :
  k ∉ keys key rows -> find_key key k rows = None.
Proof.
  intros Hk. destruct (find_key key k rows) as [r|] eqn:Hf; [|reflexivity].
  apply find_key_elem in Hf as [Hr Hrk]. exfalso. apply Hk.
  apply elem_of_keys. eauto.
Qed.

(** With unique keys, the row with a key is any row of the table that has
    the key. *)
Lemma find_key_unique (rows : list R) (r : R) (k : K) :
  NoDup (keys key rows) -> r ∈ rows -> key r = Some k -> find_key key k rows = Some r.
Proof.
  unfold find_key. induction rows as [|x rows IH]; cbn [find]; intros Hnd Hr Hk.
  - inversion Hr.
  - apply NoDup_keys_cons in Hnd as [Hnd Hx].
    apply elem_of_cons in Hr as [->|Hr].
    + rewrite bool_decide_eq_true_2 by exact Hk. reflexivity.
    + rewrite bool_decide_eq_false_2; [apply IH; assumption|].
      intros Heq. apply (Hx k Heq), elem_of_keys. eauto.
Qed.

(** *** Sequences of operations *)












(** What every update keeps is kept for the row with a key. *)
Lemma apply_all_find_kept {A : Type} (f : R -> A) (ops : list op) (rows : list R)
    (k : K) (r : R) :
  Forall (op_ok key) ops ->
  (forall o x, o ∈ ops -> f (op_update o x) = f x) ->
  find_key key k rows = Some r ->
  exists r', find_key key k (apply_all key ops rows) = Some r' /\ f r' = f r.
Proof.
  intros Hok. revert rows r.
  induction Hok as [|o ops Ho Hops IH]; intros rows r Hf Hfind; [eauto|].
  cbn [apply_all fold_left]. fold (apply_all key ops (fst (apply key o rows))).
  destruct (decide (op_key o = Some k)) as [Hk|Hne].
  - pose proof (apply_returns o rows k Ho Hk) as Hret.
    rewrite apply_find_same, Hk, Hfind in Hret.
    destruct (IH _ _ (fun b x Hb => Hf b x (list_elem_of_further _ _ _ Hb)) Hret)
      as (r' & Hr' & Hfr').
    exists r'. split; [exact Hr'|]. rewrite Hfr'. apply Hf. left.
  - rewrite <- (apply_find_other o rows k Ho Hne) in Hfind.
    apply (IH _ _ (fun b x Hb => Hf b x (list_elem_of_further _ _ _ Hb)) Hfind).
Qed.

(** Every row stays in the table, up to what the updates change. *)
Lemma apply_elem_kept (o : op) (rows : list R) (r : R) :
  r ∈ rows -> r ∈ fst (apply key o rows) \/ op_update o r ∈ fst (apply key o rows).
Proof.
  unfold apply. induction rows as [|x rows IH]; simpl; intros Hr; [inversion Hr|].
  destruct (hits key o x) eqn:Hh; simpl.
  - apply elem_of_cons in Hr as [->|Hr]; [right; left | left; right; exact Hr].
  - destruct (Pg.upsert (hits key o) (op_update o) (op_new o) rows) as [rows' y].
    simpl in *. apply elem_of_cons in Hr as [->|Hr]; [left; left|].
    destruct (IH Hr) as [H1|H1]; [left | right]; right; exact H1.
Qed.

Lemma apply_all_elem_kept (P : R -> Prop) (ops : list op) (rows : list R) (r : R) :
  (forall o x, o ∈ ops -> P x -> P (op_update o x)) ->
  r ∈ rows -> P r -> exists r', r' ∈ apply_all key ops rows /\ P r'.
Proof.
  revert rows r. induction ops as [|o ops IH]; intros rows r Hf Hr HP; [eauto|].
  cbn [apply_all fold_left]. fold (apply_all key ops (fst (apply key o rows))).
  destruct (apply_elem_kept o rows r Hr) as [H1|H1].
  - apply (IH _ r); [|exact H1|exact HP]. intros b x Hb. apply Hf. right. exact Hb.
  - apply (IH _ (op_update o r)); [|exact H1|apply Hf; [left|exact HP]].
    intros b x Hb. apply Hf. right. exact Hb.
Qed.

(** The row that a statement returns: the new row, or the update of a row
    in conflict. *)
Lemma apply_returns_cases (P : R -> Prop) (o : op) (rows : list R) :
  P (op_new o) -> (forall x, hits key o x = true -> P (op_update o x)) ->
  P (snd (apply key o rows)).
Proof.
  intros Hnew Hupd. unfold apply. induction rows as [|x rows IH]; simpl; [exact Hnew|].
  destruct (hits key o x) eqn:Hh; simpl; [apply Hupd, Hh|].
  destruct (Pg.upsert (hits key o) (op_update o) (op_new o) rows) as [rows' y].
  exact IH.
Qed.




Lemma last_filter_elem {A : Type} (P : A -> Prop) `{forall x, Decision (P x)}
    (l : list A) (y : A) :
  last (filter P l) = Some y -> y ∈ l /\ P y.
Proof.
  intros Hl. assert (y ∈ filter P l) as Hy.
  { destruct (filter P l) as [|a l'] using rev_ind; [discriminate|].
    rewrite last_snoc in Hl. injection Hl as ->. apply elem_of_app. right. left. }
  apply list_elem_of_filter in Hy. tauto.
Qed.

End UpsertFacts.

(** ** The statements of the persistence step *)

Section Statements.

Import Upsert PersistenceSpec.

Lemma upsert_ext {R : Type} (c c' : R -> bool) (u : R -> R) (n : R) (rows : list R) :
  (forall r, c r = c' r) -> Pg.upsert c u n rows = Pg.upsert c' u n rows.
Proof.
  intros H. induction rows as [|r rows IH]; simpl; [reflexivity|].
  rewrite H, IH. reflexivity.
Qed.

Lemma bool_decide_pair {A B : Type} `{EqDecision A} `{EqDecision B} (a a' : A) (b b' : B) :
  bool_decide (a = a') && bool_decide (b = b') = bool_decide (Some (a, b) = Some (a', b')).
Proof.
  repeat case_bool_decide; simpl; try reflexivity; congruence.
Qed.

Lemma same_player_hits (now : Pg.clock) (id : Z) (e : entry) (r : Pg.player_row) :
  Pg.same_player (e_name e) (e_team e) r = hits player_key (player_op now id e) r.
Proof.
  unfold hits. cbn [op_key player_op]. unfold Pg.same_player, player_key, entry_key.
  destruct (e_team e) as [t|]; cbn [fmap option_fmap option_map]; [|reflexivity].
  destruct (Pg.player_team r) as [t'|]; cbn [fmap option_fmap option_map];
    repeat case_bool_decide; simpl; try reflexivity; congruence.
Qed.

Lemma same_game_hits (now : Pg.clock) (id week year : Z) (r : Pg.game_row) :
  Pg.same_game week year r = hits game_key (game_op now id week year) r.
Proof. apply bool_decide_pair. Qed.

Lemma same_stat_hits (now : Pg.clock) (id pid gid : Z) (v : num) (r : Pg.stat_row) :
  Pg.same_stat pid gid r = hits stat_key (stat_op now id pid gid v) r.
Proof. apply bool_decide_pair. Qed.

Lemma game_op_ok (now : Pg.clock) (id week year : Z) :
  op_ok game_key (game_op now id week year).
Proof. split; reflexivity. Qed.

Lemma player_op_ok (now : Pg.clock) (id : Z) (e : entry) :
  op_ok player_key (player_op now id e).
Proof. split; reflexivity. Qed.

Lemma stat_op_ok (now : Pg.clock) (id pid gid : Z) (v : num) :
  op_ok stat_key (stat_op now id pid gid v).
Proof. split; reflexivity. Qed.

(** The keys of the games and of the statistics: every row has one. *)
Lemma game_keys (rows : list Pg.game_row) :
  keys game_key rows = map (fun r => (Pg.game_week r, Pg.game_year r)) rows.
Proof.
  unfold keys. induction rows as [|r rows IH]; [reflexivity|].
  cbn. rewrite IH. reflexivity.
Qed.

Lemma stat_keys (rows : list Pg.stat_row) :
  keys stat_key rows = map (fun r => (Pg.stat_player_id r, Pg.stat_game_id r)) rows.
Proof.
  unfold keys. induction rows as [|r rows IH]; [reflexivity|].
  cbn. rewrite IH. reflexivity.
Qed.

Lemma coerce_inv (p : api_lambda.player) (e : entry) :
  coerce p = Ok e ->
  Pg.nullable (Pg.varchar 100) (api_lambda.name p) = Ok (Some (e_name e))
  /\ Pg.nullable (Pg.varchar 3) (api_lambda.team p) = Ok (e_team e)
  /\ Pg.nullable (Pg.varchar 5) (api_lambda.position p) = Ok (e_position e)
  /\ Pg.decimal_5_2 (points_of p) = Ok (e_points e).
Proof.
  unfold coerce.
  destruct (Pg.nullable (Pg.varchar 100) (api_lambda.name p)) as [nm|]; [|discriminate].
  destruct (Pg.nullable (Pg.varchar 3) (api_lambda.team p)); [|discriminate].
  destruct (Pg.nullable (Pg.varchar 5) (api_lambda.position p)); [|discriminate].
  cbn [bind]. destruct nm as [nm|]; [|discriminate]. cbn [not_null bind].
  destruct (Pg.decimal_5_2 (points_of p)); [|discriminate].
  simpl. intros [= <-]. auto.
Qed.

(** A value that a column has accepted is accepted again unchanged. *)
Lemma decimal_5_2_Ok (v v' : num) : Pg.decimal_5_2 v = Ok v' -> v' = v.
Proof.
  unfold Pg.decimal_5_2. destruct v as [n|x|].
  - destruct (Z.abs n <? 1000); [intros [= <-]; reflexivity | discriminate].
  - destruct (is_nan x); [intros [= <-]; reflexivity|].
    destruct (abs x <? Pg.decimal_5_2_limit)%float; [intros [= <-]; reflexivity | discriminate].
  - intros [= <-]. reflexivity.
Qed.

(** The player statement of a record that the columns accept. *)
Lemma run_upsert_player (now : Pg.clock) (p : api_lambda.player) (e : entry)
    (t : Pg.tables) (q : Pg.sequences) :
  coerce p = Ok e ->
  Pg.run_statement now
    (Pg.UpsertPlayer (api_lambda.name p) (api_lambda.team p) (api_lambda.position p)) t q
  = let '(rows, r) := apply player_key (player_op now (Pg.players_id_seq q + 1) e)
                        (Pg.players t) in
    (Ok (Some (Pg.player_id r),
         {| Pg.players := rows; Pg.games := Pg.games t;
            Pg.player_stats := Pg.player_stats t |}),
     {| Pg.players_id_seq := Pg.players_id_seq q + 1;
        Pg.games_id_seq := Pg.games_id_seq q;
        Pg.player_stats_id_seq := Pg.player_stats_id_seq q |}).
Proof.
  intros (Hn & Ht & Hp & _)%coerce_inv. unfold Pg.run_statement.
  rewrite Hn, Ht, Hp. cbn [bind]. unfold apply.
  rewrite (upsert_ext _ _ _ _ _ (same_player_hits now (Pg.players_id_seq q + 1) e)).
  reflexivity.
Qed.

(** The statistics statement of a record that the columns accept, for a
    player and a game that exist. *)
Lemma run_upsert_stat (now : Pg.clock) (p : api_lambda.player) (e : entry) (pid gid : Z)
    (t : Pg.tables) (q : Pg.sequences) :
  coerce p = Ok e ->
  existsb (fun r => Pg.player_id r =? pid) (Pg.players t) = true ->
  existsb (fun r => Pg.game_id r =? gid) (Pg.games t) = true ->
  Pg.run_statement now (Pg.UpsertPlayerStats pid gid (points_of p)) t q
  = let '(rows, _) := apply stat_key
                        (stat_op now (Pg.player_stats_id_seq q + 1) pid gid (e_points e))
                        (Pg.player_stats t) in
    (Ok (None,
         {| Pg.players := Pg.players t; Pg.games := Pg.games t; Pg.player_stats := rows |}),
     {| Pg.players_id_seq := Pg.players_id_seq q;
        Pg.games_id_seq := Pg.games_id_seq q;
        Pg.player_stats_id_seq := Pg.player_stats_id_seq q + 1 |}).
Proof.
  intros (_ & _ & _ & Hv)%coerce_inv Hp Hg. unfold Pg.run_statement.
  rewrite Hv. unfold apply.
  rewrite (upsert_ext _ _ _ _ _
             (same_stat_hits now (Pg.player_stats_id_seq q + 1) pid gid (e_points e))).
  destruct (Pg.upsert _ _ _ (Pg.player_stats t)) as [rows x].
  rewrite Hp, Hg. reflexivity.
Qed.

(** The game statement for a week and a year in the INTEGER range. *)
Lemma run_upsert_game (now : Pg.clock) (week year : Z) (t : Pg.tables) (q : Pg.sequences) :
  game_accepted week year = true ->
  Pg.run_statement now (Pg.UpsertGame week (Some year)) t q
  = let '(gid, (t', q')) := store_game now week year (t, q) in (Ok (Some gid, t'), q').
Proof.
  unfold game_accepted, Pg.run_statement, store_game, Pg.nullable, Pg.integer.
  destruct ((- 2 ^ 31 <=? week) && (week <? 2 ^ 31)); [|discriminate].
  destruct ((- 2 ^ 31 <=? year) && (year <? 2 ^ 31)); [|discriminate].
  intros _. cbn [bind]. unfold apply.
  rewrite (upsert_ext _ _ _ _ _ (same_game_hits now (Pg.games_id_seq q + 1) week year)).
  destruct (Pg.upsert _ _ _ (Pg.games t)) as [rows r]. reflexivity.
Qed.

Lemma run_upsert_game_rejected (now : Pg.clock) (week year : Z) (t : Pg.tables)
    (q : Pg.sequences) :
  game_accepted week year = false ->
  Pg.run_statement now (Pg.UpsertGame week (Some year)) t q = (Raise DataError, q).
Proof.
  unfold game_accepted, Pg.run_statement, Pg.nullable, Pg.integer.
  destruct ((- 2 ^ 31 <=? week) && (week <? 2 ^ 31)); [|reflexivity].
  destruct ((- 2 ^ 31 <=? year) && (year <? 2 ^ 31)); [discriminate|reflexivity].
Qed.

(** The game statement without a year: the week is checked first, then the
    sequence hands out an id, then NOT NULL fails. *)
Lemma run_upsert_game_null (now : Pg.clock) (week : Z) (t : Pg.tables)
    (q : Pg.sequences) :
  Pg.run_statement now (Pg.UpsertGame week None) t q
  = match Pg.integer week with
    | Ok _ =>
        (Raise IntegrityError,
         {| Pg.players_id_seq := Pg.players_id_seq q;
            Pg.games_id_seq := Pg.games_id_seq q + 1;
            Pg.player_stats_id_seq := Pg.player_stats_id_seq q |})
    | Raise e => (Raise e, q)
    end.
Proof.
  unfold Pg.run_statement, Pg.nullable. destruct (Pg.integer week); reflexivity.
Qed.

Lemma existsb_id {R : Type} (f : R -> Z) (rows : list R) (r : R) :
  r ∈ rows -> existsb (fun x => f x =? f r) rows = true.
Proof.
  intros H. apply existsb_exists. exists r.
  split; [apply list_elem_of_In, H | apply Z.eqb_refl].
Qed.

(** A record whose strings have no NUL character: its statement is sent. *)
Lemma sendable_parameter (p : api_lambda.player) :
  Pg.nul_parameter
    (Pg.UpsertPlayer (api_lambda.name p) (api_lambda.team p) (api_lambda.position p))
  = negb (sendable p).
Proof. unfold sendable. rewrite negb_involutive. reflexivity. Qed.

End Statements.

(** ** The loop over the players *)

Section Loop.

Import Upsert PersistenceSpec PersistenceCount.

Lemma execute_in_transaction (now : Pg.clock) (s : Pg.statement) (E : list effect)
    (T : Pg.tables) (q : Pg.sequences) (t : Pg.tables) :
  Pg.nul_parameter s = false ->
  execute now s (session E T q Pg.InTransaction t)
  = match Pg.run_statement now s t q with
    | (Ok (r, t'), q') => (Ok r, session (E ++ [Execute s]) T q' Pg.InTransaction t')
    | (Raise e, q') => (Raise e, session (E ++ [Execute s]) T q' Pg.Aborted t)
    end.
Proof.
  intros Hnul. unfold execute, bindM, perform, session. simpl. rewrite Hnul.
  destruct (Pg.run_statement now s t q) as [[[r t']|e] q']; reflexivity.
Qed.

Lemma execute_idle (now : Pg.clock) (s : Pg.statement) (E : list effect)
    (T : Pg.tables) (q : Pg.sequences) (t : Pg.tables) :
  Pg.nul_parameter s = false ->
  execute now s (session E T q Pg.Idle t)
  = match Pg.run_statement now s T q with
    | (Ok (r, t'), q') => (Ok r, session (E ++ [Execute s]) T q' Pg.InTransaction t')
    | (Raise e, q') => (Raise e, session (E ++ [Execute s]) T q' Pg.Aborted T)
    end.
Proof.
  intros Hnul. unfold execute, bindM, perform, session. simpl. rewrite Hnul.
  destruct (Pg.run_statement now s T q) as [[[r t']|e] q']; reflexivity.
Qed.

Lemma execute_aborted (now : Pg.clock) (s : Pg.statement) (E : list effect)
    (T : Pg.tables) (q : Pg.sequences) (t : Pg.tables) :
  exists e, execute now s (session E T q Pg.Aborted t)
            = (Raise e, session (E ++ [Execute s]) T q Pg.Aborted t).
Proof.
  unfold execute, bindM, perform, session. simpl.
  destruct (Pg.nul_parameter s); eauto.
Qed.

(** A statement that psycopg2 does not send leaves the connection as it is. *)
Lemma execute_not_sent (now : Pg.clock) (s : Pg.statement) (E : list effect)
    (T : Pg.tables) (q : Pg.sequences) (status : Pg.txn_status) (t : Pg.tables) :
  Pg.nul_parameter s = true ->
  execute now s (session E T q status t)
  = (Raise ValueError, session (E ++ [Execute s]) T q status t).
Proof.
  intros Hnul. unfold execute, bindM, perform, session. simpl. rewrite Hnul. reflexivity.
Qed.

Lemma commit_in_transaction (E : list effect) (T : Pg.tables) (q : Pg.sequences)
    (t : Pg.tables) :
  commit (session E T q Pg.InTransaction t) = (Ok tt, session (E ++ [Commit]) t q Pg.Idle t).
Proof. reflexivity. Qed.

Lemma commit_aborted (E : list effect) (T : Pg.tables) (q : Pg.sequences)
    (t : Pg.tables) :
  commit (session E T q Pg.Aborted t) = (Ok tt, session (E ++ [Commit]) T q Pg.Idle T).
Proof. reflexivity. Qed.

Lemma process_players_cons (now : Pg.clock) (gid : Z) (p : api_lambda.player)
    (todo : list api_lambda.player) (n : nat) (st : state) :
  api_lambda.process_players now gid (p :: todo) n st
  = match turn now gid p n st with
    | (Ok n', st') => api_lambda.process_players now gid todo n' st'
    | (Raise e, st') => (Raise e, st')
    end.
Proof. reflexivity. Qed.

Lemma accepted_entries_exist (batch : list api_lambda.player) :
  forallb accepted batch = true ->
  exists es, Forall2 (fun p e => coerce p = Ok e) batch es.
Proof.
  induction batch as [|p batch IH]; cbn [forallb]; intros H.
  - exists []. constructor.
  - apply andb_prop in H as [Hp Hb]. destruct (IH Hb) as [es Hes].
    unfold accepted in Hp. destruct (coerce p) as [e|] eqn:Hc; [|discriminate].
    exists (e :: es). constructor; assumption.
Qed.

Lemma sent_cons (p : api_lambda.player) (batch : list api_lambda.player) :
  sent (p :: batch) = if sendable p then p :: sent batch else sent batch.
Proof.
  unfold sent. rewrite filter_cons. destruct (sendable p); case_decide;
    congruence || reflexivity.
Qed.

Lemma sent_elem (p : api_lambda.player) (batch : list api_lambda.player) :
  p ∈ sent batch <-> sendable p = true /\ p ∈ batch.
Proof. unfold sent. rewrite list_elem_of_filter. reflexivity. Qed.

Lemma sent_all (batch : list api_lambda.player) :
  forallb sendable batch = true -> sent batch = batch.
Proof.
  induction batch as [|p batch IH]; cbn [forallb]; [reflexivity|].
  intros [Hp Hb]%andb_prop. rewrite sent_cons, Hp, (IH Hb). reflexivity.
Qed.

(** A record with a NUL character: nothing is sent, nothing is counted, and
    the transaction is as it was. *)
Lemma turn_skipped (now : Pg.clock) (gid : Z) (p : api_lambda.player)
    (n : nat) (E : list effect) (T : Pg.tables) (q : Pg.sequences)
    (status : Pg.txn_status) (t : Pg.tables) :
  sendable p = false ->
  exists E', turn now gid p n (session E T q status t)
             = (Ok n, session (E ++ E') T q status t).
Proof.
  intros Hp. unfold turn, try_except, bindM.
  rewrite execute_not_sent by (rewrite sendable_parameter, Hp; reflexivity).
  eauto.
Qed.

(** A record that the columns accept: both statements run. *)
Lemma turn_accepted (now : Pg.clock) (gid : Z) (p : api_lambda.player) (e : entry)
    (n : nat) (E : list effect) (T : Pg.tables) (q : Pg.sequences) (t : Pg.tables) :
  sendable p = true ->
  coerce p = Ok e ->
  existsb (fun r => Pg.game_id r =? gid) (Pg.games t) = true ->
  exists E',
    turn now gid p n (session E T q Pg.InTransaction t)
    = (Ok (S n),
       session (E ++ E') T (snd (store_entry now gid (t, q) e)) Pg.InTransaction
         (fst (store_entry now gid (t, q) e))).
Proof.
  intros Hsend Hc Hg. unfold turn, try_except, bindM.
  rewrite execute_in_transaction by (rewrite sendable_parameter, Hsend; reflexivity).
  rewrite (run_upsert_player now p e t q Hc).
  unfold store_entry.
  pose proof (apply_returns_elem player_key
                (player_op now (Pg.players_id_seq q + 1) e) (Pg.players t)) as Hin.
  destruct (apply player_key (player_op now (Pg.players_id_seq q + 1) e) (Pg.players t))
    as [rows r]. cbn [fst snd] in Hin.
  cbn [fetchone_0 ret]. rewrite execute_in_transaction by reflexivity.
  change (default (PyInt 0) (api_lambda.stats p !! "fantasy_points")) with (points_of p).
  rewrite (run_upsert_stat now p e (Pg.player_id r) gid _ _ Hc);
    [| apply (existsb_id Pg.player_id), Hin | exact Hg].
  cbn [Pg.players Pg.games Pg.player_stats Pg.players_id_seq Pg.games_id_seq
       Pg.player_stats_id_seq].
  destruct (apply stat_key _ (Pg.player_stats t)) as [srows x].
  eexists. rewrite <- app_assoc. reflexivity.
Qed.

(** A record that the columns do not accept: the transaction is aborted and
    the count is not raised. *)
Lemma turn_rejected (now : Pg.clock) (gid : Z) (p : api_lambda.player)
    (n : nat) (E : list effect) (T : Pg.tables) (q : Pg.sequences) (t : Pg.tables) :
  sendable p = true ->
  accepted p = false ->
  exists E' q' t',
    turn now gid p n (session E T q Pg.InTransaction t)
    = (Ok n, session (E ++ E') T q' Pg.Aborted t').
Proof.
  intros Hsend. unfold accepted, coerce. intros Hc. unfold turn, try_except, bindM.
  rewrite execute_in_transaction by (rewrite sendable_parameter, Hsend; reflexivity).
  unfold Pg.run_statement at 1.
  destruct (Pg.nullable (Pg.varchar 100) (api_lambda.name p)) as [nm|]; cbn [bind] in *;
    [|eauto].
  destruct (Pg.nullable (Pg.varchar 3) (api_lambda.team p)) as [tm|]; cbn [bind] in *;
    [|eauto].
  destruct (Pg.nullable (Pg.varchar 5) (api_lambda.position p)) as [ps|];
    cbn [bind] in *; [|eauto].
  destruct nm as [nm|]; cbn [not_null bind] in *; [|eauto].
  destruct (Pg.upsert _ _ _ (Pg.players t)) as [rows r].
  cbn [fetchone_0 ret]. rewrite execute_in_transaction by reflexivity.
  change (default (PyInt 0) (api_lambda.stats p !! "fantasy_points")) with (points_of p).
  unfold Pg.run_statement.
  destruct (Pg.decimal_5_2 (points_of p)); cbn [bind] in *; [discriminate|].
  rewrite <- app_assoc. eauto.
Qed.

(** In an aborted transaction nothing is written and nothing is counted. *)
Lemma turn_aborted (now : Pg.clock) (gid : Z) (p : api_lambda.player)
    (n : nat) (E : list effect) (T : Pg.tables) (q : Pg.sequences) (t : Pg.tables) :
  exists E', turn now gid p n (session E T q Pg.Aborted t)
             = (Ok n, session (E ++ E') T q Pg.Aborted t).
Proof.
  unfold turn, try_except, bindM.
  destruct (execute_aborted now
              (Pg.UpsertPlayer (api_lambda.name p) (api_lambda.team p)
                 (api_lambda.position p)) E T q t) as [e ->].
  eauto.
Qed.

Lemma process_players_aborted (now : Pg.clock) (gid : Z) (todo : list api_lambda.player)
    (n : nat) (E : list effect) (T : Pg.tables) (q : Pg.sequences) (t : Pg.tables) :
  exists E', api_lambda.process_players now gid todo n (session E T q Pg.Aborted t)
             = (Ok n, session (E ++ E') T q Pg.Aborted t).
Proof.
  revert E. induction todo as [|p todo IH]; intros E.
  - exists []. rewrite app_nil_r. reflexivity.
  - rewrite process_players_cons.
    destruct (turn_aborted now gid p n E T q t) as [E1 ->].
    destruct (IH (E ++ E1)) as [E2 ->]. rewrite <- app_assoc. eauto.
Qed.

Lemma store_entry_games (now : Pg.clock) (gid : Z) (tq : Pg.tables * Pg.sequences)
    (e : entry) :
  Pg.games (fst (store_entry now gid tq e)) = Pg.games (fst tq).
Proof.
  destruct tq as [t q]. unfold store_entry.
  destruct (apply player_key _ (Pg.players t)) as [rows r].
  destruct (apply stat_key _ (Pg.player_stats t)) as [srows x]. reflexivity.
Qed.

(** A batch whose records are accepted when they are sent: every record
    that is sent is written and counted. *)
Lemma process_players_accepted (now : Pg.clock) (gid : Z) (todo : list api_lambda.player)
    (es : list entry) (n : nat) (E : list effect) (T : Pg.tables) (q : Pg.sequences)
    (t : Pg.tables) :
  Forall2 (fun p e => coerce p = Ok e) (sent todo) es ->
  existsb (fun r => Pg.game_id r =? gid) (Pg.games t) = true ->
  exists E',
    api_lambda.process_players now gid todo n (session E T q Pg.InTransaction t)
    = (Ok (n + length (sent todo))%nat,
       session (E ++ E') T (snd (fold_left (store_entry now gid) es (t, q))) Pg.InTransaction
         (fst (fold_left (store_entry now gid) es (t, q)))).
Proof.
  revert es n E q t.
  induction todo as [|p todo IH]; intros es n E q t H Hg.
  - inversion H; subst. exists []. simpl. rewrite Nat.add_0_r, app_nil_r. reflexivity.
  - rewrite process_players_cons. rewrite sent_cons in H |- *.
    destruct (sendable p) eqn:Hsend.
    + inversion H as [|p' e todo' es' Hpe Hrest]; subst.
      destruct (turn_accepted now gid p e n E T q t Hsend Hpe Hg) as [E1 ->].
      cbn [fold_left].
      destruct (store_entry now gid (t, q) e) as [t1 q1] eqn:Hs.
      cbn [fst snd].
      destruct (IH es' (S n) (E ++ E1) q1 t1 Hrest) as [E2 ->].
      * pose proof (store_entry_games now gid (t, q) e) as Hgames.
        rewrite Hs in Hgames. cbn [fst] in Hgames. rewrite Hgames. exact Hg.
      * exists (E1 ++ E2). cbn [length]. rewrite Nat.add_succ_r, app_assoc. reflexivity.
    + destruct (turn_skipped now gid p n E T q Pg.InTransaction t Hsend) as [E1 ->].
      destruct (IH es n (E ++ E1) q t H Hg) as [E2 ->].
      exists (E1 ++ E2). rewrite app_assoc. reflexivity.
Qed.

(** A batch with a record that is sent and that the columns do not accept:
    the transaction ends up aborted, and the count is the number of records
    sent before the first such record. *)
Lemma process_players_rejected (now : Pg.clock) (gid : Z) (todo : list api_lambda.player)
    (n : nat) (E : list effect) (T : Pg.tables) (q : Pg.sequences) (t : Pg.tables) :
  forallb accepted (sent todo) = false ->
  existsb (fun r => Pg.game_id r =? gid) (Pg.games t) = true ->
  exists E' q' t',
    api_lambda.process_players now gid todo n (session E T q Pg.InTransaction t)
    = (Ok (n + leading_accepted (sent todo))%nat, session (E ++ E') T q' Pg.Aborted t').
Proof.
  revert n E q t. induction todo as [|p todo IH]; intros n E q t Hrej Hg;
    [discriminate|].
  rewrite process_players_cons. rewrite sent_cons in Hrej |- *.
  destruct (sendable p) eqn:Hsend.
  - cbn [forallb leading_accepted] in *.
    destruct (accepted p) eqn:Hp.
    + unfold accepted in Hp. destruct (coerce p) as [e|] eqn:Hc; [|discriminate].
      destruct (turn_accepted now gid p e n E T q t Hsend Hc Hg) as [E1 ->].
      destruct (store_entry now gid (t, q) e) as [t1 q1] eqn:Hs. cbn [fst snd].
      destruct (IH (S n) (E ++ E1) q1 t1) as (E2 & q2 & t2 & ->); [exact Hrej| |].
      * pose proof (store_entry_games now gid (t, q) e) as Hgames.
        rewrite Hs in Hgames. cbn [fst] in Hgames. rewrite Hgames. exact Hg.
      * rewrite Nat.add_succ_r, <- app_assoc. eauto.
    + destruct (turn_rejected now gid p n E T q t Hsend Hp) as (E1 & q1 & t1 & ->).
      destruct (process_players_aborted now gid todo n (E ++ E1) T q1 t1) as [E2 ->].
      rewrite Nat.add_0_r, <- app_assoc. eauto.
  - destruct (turn_skipped now gid p n E T q Pg.InTransaction t Hsend) as [E1 ->].
    destruct (IH n (E ++ E1) q t Hrej Hg) as (E2 & q2 & t2 & ->).
    rewrite <- app_assoc. eauto.
Qed.

Lemma store_game_returns (now : Pg.clock) (week year : Z) (tq : Pg.tables * Pg.sequences) :
  existsb (fun r => Pg.game_id r =? fst (store_game now week year tq))
    (Pg.games (fst (snd (store_game now week year tq)))) = true.
Proof.
  destruct tq as [t q]. unfold store_game.
  pose proof (apply_returns_elem game_key
                (game_op now (Pg.games_id_seq q + 1) week year) (Pg.games t)) as Hin.
  destruct (apply game_key _ (Pg.games t)) as [rows r]. cbn [fst snd Pg.games] in *.
  apply (existsb_id Pg.game_id), Hin.
Qed.

(** The persistence step on an idle connection returns a count, whatever
    the records are, when the week and the year are INTEGER values. *)
Lemma persistence_step_returns (now : Pg.clock) (week year : Z)
    (batch : list api_lambda.player) (E : list effect) (T : Pg.tables)
    (q : Pg.sequences) (t : Pg.tables) :
  game_accepted week year = true ->
  exists n E' T' q' t',
    api_lambda.persistence_step now week (Some year) batch (session E T q Pg.Idle t)
    = (Ok n, session (E ++ Execute (Pg.UpsertGame week (Some year)) :: E') T' q' Pg.Idle t').
Proof.
  intros Hg. unfold api_lambda.persistence_step, bindM.
  rewrite execute_idle by reflexivity. rewrite (run_upsert_game now week year _ _ Hg).
  pose proof (store_game_returns now week year (T, q)) as Hfk.
  destruct (store_game now week year (T, q)) as [gid [t1 q1]].
  cbn [fst snd] in Hfk. cbn [fetchone_0 ret].
  destruct (forallb accepted (sent batch)) eqn:Hb.
  - destruct (accepted_entries_exist (sent batch) Hb) as [es Hes].
    destruct (process_players_accepted now gid batch es 0
                (E ++ [Execute (Pg.UpsertGame week (Some year))]) T q1 t1 Hes Hfk) as [E' ->].
    rewrite commit_in_transaction. cbn [ret].
    rewrite <- !app_assoc. cbn [app]. eauto 10.
  - destruct (process_players_rejected now gid batch 0
                (E ++ [Execute (Pg.UpsertGame week (Some year))]) T q1 t1 Hb Hfk)
      as (E' & q' & t' & ->).
    rewrite commit_aborted. cbn [ret].
    rewrite <- !app_assoc. cbn [app]. eauto 10.
Qed.

End Loop.

(** ** One run of the persistence step *)

Section Persist.

Import Upsert PersistenceSpec PersistenceCount.

(** A week or a year outside the INTEGER range: the step raises and the
    database is as before. *)
Lemma persist_game_rejected (d : Pg.database) (now : Pg.clock) (week year : Z)
    (batch : list api_lambda.player) :
  game_accepted week year = false ->
  persist d now week year batch = (Raise DataError, d).
Proof.
  intros H. unfold persist, api_lambda.persistence_step, bindM.
  rewrite execute_idle by reflexivity. rewrite (run_upsert_game_rejected now week year _ _ H).
  destruct d; reflexivity.
Qed.

(** Every record that is sent is accepted: the step commits what the
    statements wrote and counts every record that was sent. *)
Lemma persist_accepted (d : Pg.database) (now : Pg.clock) (week year : Z)
    (batch : list api_lambda.player) (es : list entry) :
  game_accepted week year = true ->
  Forall2 (fun p e => coerce p = Ok e) (sent batch) es ->
  persist d now week year batch
  = let '(gid, tq) := store_game now week year (Pg.tables_of d, Pg.sequences_of d) in
    let '(t, q) := fold_left (store_entry now gid) es tq in
    (Ok (length (sent batch)), {| Pg.tables_of := t; Pg.sequences_of := q |}).
Proof.
  intros Hg Hes. unfold persist, api_lambda.persistence_step, bindM.
  rewrite execute_idle by reflexivity. rewrite (run_upsert_game now week year _ _ Hg).
  pose proof (store_game_returns now week year (Pg.tables_of d, Pg.sequences_of d)) as Hfk.
  destruct (store_game now week year (Pg.tables_of d, Pg.sequences_of d))
    as [gid [t1 q1]]. cbn [fst snd] in Hfk. cbn [fetchone_0 ret].
  destruct (process_players_accepted now gid batch es 0
              ([] ++ [Execute (Pg.UpsertGame week (Some year))]) (Pg.tables_of d) q1 t1 Hes Hfk)
    as [E' ->].
  destruct (fold_left (store_entry now gid) es (t1, q1)) as [t q]. cbn [fst snd].
  rewrite commit_in_transaction. reflexivity.
Qed.

(** Some record that is sent is not accepted: the step rolls everything back;
    it counts the records sent before the first record that was not
    accepted. *)
Lemma persist_rejected (d : Pg.database) (now : Pg.clock) (week year : Z)
    (batch : list api_lambda.player) :
  game_accepted week year = true ->
  forallb accepted (sent batch) = false ->
  exists q, persist d now week year batch
            = (Ok (leading_accepted (sent batch)),
               {| Pg.tables_of := Pg.tables_of d; Pg.sequences_of := q |}).
Proof.
  intros Hg Hrej. unfold persist, api_lambda.persistence_step, bindM.
  rewrite execute_idle by reflexivity. rewrite (run_upsert_game now week year _ _ Hg).
  pose proof (store_game_returns now week year (Pg.tables_of d, Pg.sequences_of d)) as Hfk.
  destruct (store_game now week year (Pg.tables_of d, Pg.sequences_of d))
    as [gid [t1 q1]]. cbn [fst snd] in Hfk. cbn [fetchone_0 ret].
  destruct (process_players_rejected now gid batch 0
              ([] ++ [Execute (Pg.UpsertGame week (Some year))]) (Pg.tables_of d) q1 t1 Hrej Hfk)
    as (E' & q' & t' & ->).
  rewrite commit_aborted. exists q'. reflexivity.
Qed.

(** The tables after a run, in every case. *)
Lemma tables_after_spec (d : Pg.database) (now : Pg.clock) (week year : Z)
    (batch : list api_lambda.player) :
  (game_accepted week year && forallb accepted (sent batch) = false
   /\ tables_after d now week year batch = Pg.tables_of d)
  \/ (exists es,
        game_accepted week year = true
        /\ Forall2 (fun p e => coerce p = Ok e) (sent batch) es
        /\ tables_after d now week year batch
           = fst (fold_left
                    (store_entry now
                       (fst (store_game now week year (Pg.tables_of d, Pg.sequences_of d))))
                    es
                    (snd (store_game now week year (Pg.tables_of d, Pg.sequences_of d))))).
Proof.
  unfold tables_after.
  destruct (game_accepted week year) eqn:Hg.
  - destruct (forallb accepted (sent batch)) eqn:Hb.
    + right. destruct (accepted_entries_exist (sent batch) Hb) as [es Hes]. exists es.
      split; [reflexivity|]. split; [exact Hes|].
      rewrite (persist_accepted d now week year batch es Hg Hes).
      destruct (store_game now week year (Pg.tables_of d, Pg.sequences_of d))
        as [gid tq]. cbn [fst snd].
      destruct (fold_left (store_entry now gid) es tq) as [t q]. reflexivity.
    + left. split; [reflexivity|].
      destruct (persist_rejected d now week year batch Hg Hb) as [q ->]. reflexivity.
  - left. split; [reflexivity|].
    rewrite (persist_game_rejected d now week year batch Hg). reflexivity.
Qed.

End Persist.

(** ** The rows that a batch writes *)

Section Batch.

Import Upsert PersistenceSpec PersistenceCount.

Lemma player_ops_elem (now : Pg.clock) (q : Z) (es : list entry)
    (o : op Pg.player_row (string * string)) :
  o ∈ player_ops now q es -> exists id e, e ∈ es /\ o = player_op now id e.
Proof.
  revert q. induction es as [|e es IH]; intros q; cbn [player_ops].
  - intros H. inversion H.
  - intros [->|H]%elem_of_cons.
    + exists (q + 1), e. split; [left | reflexivity].
    + destruct (IH _ H) as (id & e' & He' & ->). exists id, e'. split; [right|]; auto.
Qed.


Lemma stat_ops_elem (now : Pg.clock) (q gid : Z) (pvs : list (Z * num))
    (o : op Pg.stat_row (Z * Z)) :
  o ∈ stat_ops now q gid pvs ->
  exists id pid v, (pid, v) ∈ pvs /\ o = stat_op now id pid gid v.
Proof.
  revert q. induction pvs as [|[pid v] pvs IH]; intros q; cbn [stat_ops].
  - intros H. inversion H.
  - intros [->|H]%elem_of_cons.
    + exists (q + 1), pid, v. split; [left | reflexivity].
    + destruct (IH _ H) as (id & pid' & v' & Hin & ->).
      exists id, pid', v'. split; [right|]; auto.
Qed.


Lemma player_ops_ok (now : Pg.clock) (q : Z) (es : list entry) :
  Forall (op_ok player_key) (player_ops now q es).
Proof.
  apply Forall_forall. intros o (id & e & _ & ->)%player_ops_elem.
  apply player_op_ok.
Qed.

Lemma stat_ops_ok (now : Pg.clock) (q gid : Z) (pvs : list (Z * num)) :
  Forall (op_ok stat_key) (stat_ops now q gid pvs).
Proof.
  apply Forall_forall. intros o (id & pid & v & _ & ->)%stat_ops_elem.
  apply stat_op_ok.
Qed.



Lemma player_ops_update_id (now : Pg.clock) (q : Z) (es : list entry)
    (o : op Pg.player_row (string * string)) (x : Pg.player_row) :
  o ∈ player_ops now q es -> Pg.player_id (op_update o x) = Pg.player_id x.
Proof. intros (id & e & _ & ->)%player_ops_elem. reflexivity. Qed.


(** The tables after the statements of a batch of accepted records: the
    players table under the player operations, and the statistics table
    under the operations on the ids that the player statements returned. *)
Lemma store_entries_spec (now : Pg.clock) (gid : Z) (es : list entry) (t : Pg.tables)
    (q : Pg.sequences) :
  let R := fst (fold_left (store_entry now gid) es (t, q)) in
  Pg.players R
  = apply_all player_key (player_ops now (Pg.players_id_seq q) es) (Pg.players t)
  /\ Pg.games R = Pg.games t
  /\ Pg.player_stats R
     = apply_all stat_key
         (stat_ops now (Pg.player_stats_id_seq q) gid
            (zip (returned_ids now (Pg.players_id_seq q) es (Pg.players t))
               (map e_points es)))
         (Pg.player_stats t).
Proof.
  revert t q. induction es as [|e es IH]; intros t q; cbn zeta.
  - cbn. auto.
  - cbn [fold_left].
    destruct (store_entry now gid (t, q) e) as [t1 q1] eqn:Hs.
    specialize (IH t1 q1). cbn zeta in IH. destruct IH as (IHp & IHg & IHs).
    set (R := fst (fold_left (store_entry now gid) es (t1, q1))) in *.
    unfold store_entry in Hs. cbn [returned_ids player_ops].
    destruct (apply player_key (player_op now (Pg.players_id_seq q + 1) e) (Pg.players t))
      as [rows r] eqn:Hap.
    destruct (apply stat_key
                (stat_op now (Pg.player_stats_id_seq q + 1) (Pg.player_id r) gid (e_points e))
                (Pg.player_stats t)) as [srows x] eqn:Has.
    injection Hs as <- <-.
    cbn [Pg.players Pg.games Pg.player_stats Pg.players_id_seq Pg.player_stats_id_seq
         fst snd] in *.
    split; [|split; [exact IHg|]].
    + rewrite IHp. cbn [apply_all fold_left]. rewrite Hap. reflexivity.
    + rewrite IHs. cbn [map zip zip_with stat_ops apply_all fold_left].
      rewrite Has. reflexivity.
Qed.





End Batch.

(** ** The handler *)

Section Handler.

Import HandlerSpec.

(** Without the reference to the database secret the very first statement
    raises, outside the [try]. *)
Lemma lambda_handler_missing_secret_reference (w : world) (event : api_lambda.event)
    (st : state) :
  environ w !! "DB_SECRET_ARN" = None ->
  api_lambda.lambda_handler w event st = (Raise (KeyError "DB_SECRET_ARN"), st).
Proof.
  intros H. unfold api_lambda.lambda_handler, bindM, lift, getitem.
  rewrite H. reflexivity.
Qed.

(** Without the provider's key (and with the secret reference) the handler
    answers 400 and does nothing else. *)
Lemma lambda_handler_missing_api_key (w : world) (event : api_lambda.event)
    (st : state) (secret_arn : string) :
  environ w !! "DB_SECRET_ARN" = Some secret_arn ->
  api_lambda.no_key (environ w !! "SPORTSDATA_API_KEY") = true ->
  api_lambda.lambda_handler w event st
  = (Ok {| api_lambda.statusCode := 400;
           api_lambda.response_body :=
             api_lambda.BodyText "SPORTSDATA_API_KEY environment variable required" |},
     st).
Proof.
  intros H1 H2. unfold api_lambda.lambda_handler, bindM, lift, getitem.
  rewrite H1, H2. reflexivity.
Qed.

(** The first part of the [try] block: the week is resolved and the
    statistics are requested. *)
Lemma resolve_and_fetch (w : world) (event : api_lambda.event) (wk : Z) (st : state)
    (B : Type) (k : Z -> list provider_record -> M B) :
  resolves_week w event wk ->
  (let! current_week :=
     if api_lambda.no_week (api_lambda.week event) then
       let! week_response := requests_get_current_week w in
       ret (default 1 (week_response !! "Week"))
     else ret (default 1 (api_lambda.week event)) in
   let! stats_data :=
     requests_get_stats w (default (Some 2024) (api_lambda.year event)) current_week in
   k current_week stats_data) st
  = (let! stats_data := lift (stats_reply w (default (Some 2024) (api_lambda.year event)) wk) in
     k wk stats_data)
      {| effects := effects st
                    ++ fetch_calls event (default (Some 2024) (api_lambda.year event)) wk;
         db := db st; conn := conn st |}.
Proof.
  intros [v Hv Hne | wr Hno Hwr]; unfold fetch_calls.
  - rewrite Hv. simpl. destruct (Z.eqb_spec v 0) as [?|_]; [contradiction|].
    unfold PyNum.falsy. destruct (Z.eqb_spec v 0) as [?|_]; [contradiction|].
    unfold bindM, ret, requests_get_stats, bindM, perform, lift; simpl.
    reflexivity.
  - rewrite Hno.
    unfold bindM, ret, requests_get_current_week, requests_get_stats, bindM,
      perform, lift; simpl.
    rewrite Hwr. simpl. rewrite <- app_assoc. reflexivity.
Qed.

(** C6. When the provider's answer to the statistics request is the empty
    list, the handler answers 200 with "No players found from API"; it has
    made the provider requests only: no secret is read, no connection is
    opened, no statement is sent, and the database is as before. *)
Theorem lambda_handler_no_players (w : world) (event : api_lambda.event) (st : state)
    (secret_arn : string) (wk : Z) :
  environ w !! "DB_SECRET_ARN" = Some secret_arn ->
  api_lambda.no_key (environ w !! "SPORTSDATA_API_KEY") = false ->
  resolves_week w event wk ->
  stats_reply w (default (Some 2024) (api_lambda.year event)) wk = Ok [] ->
  exists calls,
    api_lambda.lambda_handler w event st
    = (Ok {| api_lambda.statusCode := 200;
             api_lambda.response_body := api_lambda.BodyText "No players found from API" |},
       {| effects := effects st ++ calls; db := db st; conn := conn st |})
    /\ Forall (fun e => database_effect e = false) calls.
Proof.
  intros Harn Hkey Hwk Hstats.
  exists (fetch_calls event (default (Some 2024) (api_lambda.year event)) wk).
  split.
  - unfold api_lambda.lambda_handler.
    unfold bindM at 1. unfold lift at 1, getitem. rewrite Harn. cbv zeta.
    rewrite Hkey. unfold try_except. erewrite resolve_and_fetch by eassumption.
    rewrite Hstats. reflexivity.
  - unfold fetch_calls.
    destruct (api_lambda.no_week (api_lambda.week event)); simpl; repeat constructor.
Qed.

Lemma lambda_handler_no_players_witness :
  exists calls,
    api_lambda.lambda_handler (sample_world [])
      {| api_lambda.week := None; api_lambda.year := None |} initial_state
    = (Ok {| api_lambda.statusCode := 200;
             api_lambda.response_body := api_lambda.BodyText "No players found from API" |},
       {| effects := effects initial_state ++ calls; db := db initial_state;
          conn := conn initial_state |})
    /\ Forall (fun e => database_effect e = false) calls.
Proof.
  apply (lambda_handler_no_players (sample_world []) _ initial_state "arn:secret" 7).
  - reflexivity.
  - reflexivity.
  - exact (week_current (sample_world [])
             {| api_lambda.week := None; api_lambda.year := None |}
             {[ "Week" := 7 ]} eq_refl eq_refl).
  - reflexivity.
Defined.

(** The normalizing loop returns a non-empty list for a non-empty list of
    records that can all be scored. *)
Lemma format_loop_returns (stats_data : list provider_record) :
  stats_data <> [] ->
  Forall (fun stat => exists v, api_lambda.calculate_fantasy_points stat = Ok v)
    stats_data ->
  exists all_players,
    api_lambda.format_loop stats_data [] = Ok all_players
    /\ bool_decide (all_players = []) = false
    /\ length all_players = length stats_data.
Proof.
  intros Hne Hall. pose proof (api_format_loop_spec stats_data []) as H.
  destruct (api_lambda.format_loop stats_data []) as [ps|e].
  - destruct H as (new & -> & Hnew). exists new. cbn [app].
    apply Forall2_length in Hnew. repeat split; [|auto].
    apply bool_decide_eq_false_2. intros ->. destruct stats_data; [congruence|discriminate].
  - destruct H as (stat & Hin & He). rewrite Forall_forall in Hall.
    destruct (Hall stat Hin) as [v Hv]. congruence.
Qed.

(** C8, as stated, fails for the week 0: the handler reads a week 0 of the
    event as no week, asks the provider for the current week (7 here) and
    works on that week. *)
Lemma lambda_handler_week_zero :
  exists message st',
    api_lambda.lambda_handler (sample_world [sample_line])
      {| api_lambda.week := Some 0; api_lambda.year := None |} initial_state
    = (Ok {| api_lambda.statusCode := 200;
             api_lambda.response_body :=
               api_lambda.BodySummary message 7 (Some 2024) 1 "sportsdata.io" |}, st')
    /\ effects st' !! 0%nat = Some (HttpGet CurrentWeek)
    /\ effects st' !! 1%nat = Some (HttpGet (PlayerGameStatsByWeek (Some 2024) 7)).
Proof.
  eexists _, _. split; [vm_compute; reflexivity|]. split; reflexivity.
Qed.



(** C4. Without the provider's access key the handler answers 400 before
    any call; without the reference to the database secret it raises
    KeyError out of the handler instead of answering. *)
Theorem lambda_handler_missing_credential :
  api_lambda.lambda_handler world_without_api_key
    {| api_lambda.week := Some 1; api_lambda.year := Some (Some 2024) |} initial_state
  = (Ok {| api_lambda.statusCode := 400;
           api_lambda.response_body :=
             api_lambda.BodyText "SPORTSDATA_API_KEY environment variable required" |},
     initial_state)
  /\ api_lambda.lambda_handler world_without_secret_reference
       {| api_lambda.week := Some 1; api_lambda.year := Some (Some 2024) |} initial_state
     = (Raise (KeyError "DB_SECRET_ARN"), initial_state).
Proof.
  split.
  - apply (lambda_handler_missing_api_key _ _ _ "arn:secret"); reflexivity.
  - apply lambda_handler_missing_secret_reference. reflexivity.
Qed.

End Handler.

(** ** The tables after a run of the persistence step *)

Section Runs.

Import Upsert PersistenceSpec PersistenceCount.

Lemma entries_functional (batch : list api_lambda.player) (es es' : list entry) :
  Forall2 (fun p e => coerce p = Ok e) batch es ->
  Forall2 (fun p e => coerce p = Ok e) batch es' ->
  es = es'.
Proof.
  intros H. revert es'. induction H as [|p e batch es Hpe _ IH]; intros es' H'.
  - inversion H'. reflexivity.
  - inversion H' as [|p' e' batch' es'' Hpe' Hrest]; subst.
    rewrite Hpe in Hpe'. injection Hpe' as ->. f_equal. apply IH, Hrest.
Qed.

Lemma entries_accepted (batch : list api_lambda.player) (es : list entry) :
  Forall2 (fun p e => coerce p = Ok e) batch es -> forallb accepted batch = true.
Proof.
  induction 1 as [|p e batch es Hpe _ IH]; [reflexivity|].
  cbn [forallb]. unfold accepted at 1. rewrite Hpe. exact IH.
Qed.


(** A run that rolls back leaves the tables as they were. *)
Lemma tables_after_rejected (d : Pg.database) (now : Pg.clock) (week year : Z)
    (batch : list api_lambda.player) :
  game_accepted week year && forallb accepted (sent batch) = false ->
  tables_after d now week year batch = Pg.tables_of d.
Proof.
  intros H. destruct (tables_after_spec d now week year batch) as [[_ Ht]|(es & Hg & Hes & _)].
  - exact Ht.
  - rewrite Hg, (entries_accepted _ _ Hes) in H. discriminate.
Qed.

(** A run that commits: the three tables under the operations of the run. *)
Lemma tables_after_accepted (d : Pg.database) (now : Pg.clock) (week year : Z)
    (batch : list api_lambda.player) (es : list entry) :
  game_accepted week year = true ->
  Forall2 (fun p e => coerce p = Ok e) (sent batch) es ->
  let T := tables_after d now week year batch in
  let o := game_op now (Pg.games_id_seq (Pg.sequences_of d) + 1) week year in
  Pg.players T
  = apply_all player_key (player_ops now (Pg.players_id_seq (Pg.sequences_of d)) es)
      (Pg.players (Pg.tables_of d))
  /\ Pg.games T = fst (apply game_key o (Pg.games (Pg.tables_of d)))
  /\ Pg.player_stats T
     = apply_all stat_key
         (stat_ops now (Pg.player_stats_id_seq (Pg.sequences_of d))
            (Pg.game_id (snd (apply game_key o (Pg.games (Pg.tables_of d)))))
            (zip (returned_ids now (Pg.players_id_seq (Pg.sequences_of d)) es
                    (Pg.players (Pg.tables_of d)))
               (map e_points es)))
         (Pg.player_stats (Pg.tables_of d)).
Proof.
  intros Hg Hes. cbn zeta.
  destruct (tables_after_spec d now week year batch) as [[Hrej _]|(es' & _ & Hes' & ->)].
  - rewrite Hg, (entries_accepted _ _ Hes) in Hrej. discriminate.
  - rewrite (entries_functional (sent batch) es' es Hes' Hes).
    unfold store_game.
    destruct (apply game_key
                (game_op now (Pg.games_id_seq (Pg.sequences_of d) + 1) week year)
                (Pg.games (Pg.tables_of d))) as [rows r].
    cbn [fst snd].
    match goal with
    | |- context [fold_left (store_entry now ?g) es (?t, ?q)] =>
        pose proof (store_entries_spec now g es t q) as H
    end.
    cbn zeta in H. exact H.
Qed.








(** *** Records that fit their columns *)

Lemma varchar_fits (n : nat) (s : string) :
  (Pg.char_length s <=? n)%nat = true -> Pg.varchar n s = Ok s.
Proof. intros H. unfold Pg.varchar. rewrite H. reflexivity. Qed.

Lemma nullable_varchar_fits (n : nat) (s : option string) :
  from_option (fun s => (Pg.char_length s <=? n)%nat) true s = true ->
  Pg.nullable (Pg.varchar n) s = Ok s.
Proof.
  destruct s as [s|]; cbn; [|reflexivity]. intros H. rewrite (varchar_fits _ _ H). reflexivity.
Qed.









(** *** The ids of the players *)


Lemma NoDup_map_elem_inj {A B : Type} (f : A -> B) (l : list A) (x y : A) :
  NoDup (map f l) -> x ∈ l -> y ∈ l -> f x = f y -> x = y.
Proof.
  induction l as [|a l IH]; cbn [map]; intros Hnd Hx Hy Hf; [inversion Hx|].
  apply NoDup_cons in Hnd as [Ha Hnd].
  apply elem_of_cons in Hx as [->|Hx]; apply elem_of_cons in Hy as [->|Hy].
  - reflexivity.
  - exfalso. apply Ha. rewrite Hf. apply list_elem_of_fmap. eauto.
  - exfalso. apply Ha. rewrite <- Hf. apply list_elem_of_fmap. eauto.
  - apply IH; assumption.
Qed.







(** What a run returns or raises. *)
Lemma persist_result (d : Pg.database) (now : Pg.clock) (week year : Z)
    (batch : list api_lambda.player) :
  fst (persist d now week year batch)
  = if game_accepted week year
    then Ok (if forallb accepted (sent batch) then length (sent batch)
             else leading_accepted (sent batch))
    else Raise DataError.
Proof.
  destruct (game_accepted week year) eqn:Hg.
  - destruct (forallb accepted (sent batch)) eqn:Hb.
    + destruct (accepted_entries_exist (sent batch) Hb) as [es Hes].
      rewrite (persist_accepted d now week year batch es Hg Hes).
      destruct (store_game now week year (Pg.tables_of d, Pg.sequences_of d)) as [gid tq].
      destruct (fold_left (store_entry now gid) es tq) as [t q]. reflexivity.
    + destruct (persist_rejected d now week year batch Hg Hb) as [q ->]. reflexivity.
  - rewrite (persist_game_rejected d now week year batch Hg). reflexivity.
Qed.

End Runs.

(** ** The statements keep the constraints of the schema *)

Section ApplyFacts.

Import Upsert.

Context {R K : Type} `{EqDecision K} (key : R -> option K).

(** A property of rows that the update keeps and the new row has. *)
Lemma apply_Forall (P : R -> Prop) (o : Upsert.op R K) (rows : list R) :
  (forall x, P x -> P (op_update o x)) -> P (op_new o) ->
  Forall P rows -> Forall P (fst (apply key o rows)).
Proof.
  intros Hupd Hnew. unfold apply.
  induction rows as [|r rows IH]; cbn [Pg.upsert fst]; intros Hrows.
  - constructor; [exact Hnew | constructor].
  - apply Forall_cons_1 in Hrows as [Hr Hrows].
    destruct (hits key o r); cbn [fst].
    + constructor; [apply Hupd, Hr | exact Hrows].
    + specialize (IH Hrows).
      destruct (Pg.upsert (hits key o) (op_update o) (op_new o) rows) as [rows' x].
      constructor; [exact Hr | exact IH].
Qed.

(** The ids of a table under an operation whose new row takes the next value
    of the sequence. *)
Lemma apply_ids (id : R -> Z) (o : Upsert.op R K) (rows : list R) (q : Z) :
  (forall x, id (op_update o x) = id x) -> id (op_new o) = q + 1 ->
  NoDup (map id rows) -> Forall (fun r => id r <= q) rows ->
  NoDup (map id (fst (apply key o rows)))
  /\ Forall (fun r => id r <= q + 1) (fst (apply key o rows))
  /\ (forall i, i ∈ map id rows -> i ∈ map id (fst (apply key o rows))).
Proof.
  intros Hupd Hnew Hnd Hle.
  assert (Forall (fun i => i <= q) (map id rows)) as Hle'.
  { apply Forall_forall. intros i (r & -> & Hr)%list_elem_of_fmap.
    rewrite Forall_forall in Hle. auto. }
  assert (Forall (fun i => i <= q + 1) (map id (fst (apply key o rows)))
          -> Forall (fun r => id r <= q + 1) (fst (apply key o rows))) as Hback.
  { intros H0. apply Forall_forall. intros r Hr. rewrite Forall_forall in H0.
    apply H0. apply list_elem_of_fmap. eauto. }
  split; [|split; [apply Hback|]]; rewrite (apply_column key id o rows Hupd);
    destruct (present key o rows).
  - exact Hnd.
  - rewrite Hnew. apply NoDup_app. repeat split; [exact Hnd | | apply NoDup_singleton].
    intros i Hi ->%list_elem_of_singleton.
    rewrite Forall_forall in Hle'. specialize (Hle' _ Hi). lia.
  - eapply Forall_impl; [exact Hle'|]. cbn. intros; lia.
  - rewrite Hnew. apply Forall_app. split; [|constructor; [lia | constructor]].
    eapply Forall_impl; [exact Hle'|]. cbn. intros; lia.
  - auto.
  - intros i Hi. apply elem_of_app. left. exact Hi.
Qed.

(** Rows with a key that no operation writes are found as before. *)
Lemma apply_all_find_other (ops : list (Upsert.op R K)) (rows : list R) (k : K) :
  Forall (op_ok key) ops -> (forall o, o ∈ ops -> op_key o <> Some k) ->
  find_key key k (apply_all key ops rows) = find_key key k rows.
Proof.
  intros Hok. revert rows. induction Hok as [|o ops Ho Hops IH]; intros rows Hk;
    [reflexivity|].
  cbn [apply_all fold_left]. fold (apply_all key ops (fst (apply key o rows))).
  rewrite IH by (intros o' Ho'; apply Hk; right; exact Ho').
  apply apply_find_other; [exact Ho|]. apply Hk. left.
Qed.

End ApplyFacts.

Section SchemaFacts.

Import Upsert PersistenceSpec PersistenceCount Schema.

Lemma seq_le_refl (q : Pg.sequences) : seq_le q q.
Proof. unfold seq_le. lia. Qed.

Lemma seq_le_trans (q1 q2 q3 : Pg.sequences) : seq_le q1 q2 -> seq_le q2 q3 -> seq_le q1 q3.
Proof. unfold seq_le. lia. Qed.

(** The constraints hold with sequences that have moved forward. *)
Lemma well_formed_seq_le (t : Pg.tables) (q q' : Pg.sequences) :
  well_formed {| Pg.tables_of := t; Pg.sequences_of := q |} -> seq_le q q' ->
  well_formed {| Pg.tables_of := t; Pg.sequences_of := q' |}.
Proof.
  intros (Hu & Hpk & Href & Hty & Hp & Hg & Hs) (Hq1 & Hq2 & Hq3).
  cbn [Pg.tables_of Pg.sequences_of] in *.
  split; [exact Hu|]. split; [exact Hpk|]. split; [exact Href|]. split; [exact Hty|].
  cbn [Pg.tables_of Pg.sequences_of]. split; [|split].
  - eapply Forall_impl; [exact Hp|]. cbn. intros; lia.
  - eapply Forall_impl; [exact Hg|]. cbn. intros; lia.
  - eapply Forall_impl; [exact Hs|]. cbn. intros; lia.
Qed.

Lemma take_chars_length (n : nat) (s : string) :
  (Pg.char_length (Pg.take_chars n s) <= n)%nat.
Proof.
  revert n. induction s as [|c s IH]; intros n; cbn [Pg.take_chars Pg.char_length]; [lia|].
  destruct (Pg.continuation c) eqn:Hc.
  - cbn [Pg.char_length]. rewrite Hc. apply IH.
  - destruct n as [|n]; cbn [Pg.char_length]; [lia|]. rewrite Hc.
    specialize (IH n). lia.
Qed.

(** What VARCHAR(n) stores has at most [n] characters. *)
Lemma varchar_length (n : nat) (s s' : string) :
  Pg.varchar n s = Ok s' -> (Pg.char_length s' <= n)%nat.
Proof.
  unfold Pg.varchar. destruct (Nat.leb_spec (Pg.char_length s) n) as [Hle|_].
  - intros [= <-]. exact Hle.
  - destruct (Pg.all_spaces _); [|discriminate]. intros [= <-]. apply take_chars_length.
Qed.

Lemma nullable_varchar_length (n : nat) (s s' : option string) :
  Pg.nullable (Pg.varchar n) s = Ok s' ->
  forall x, s' = Some x -> (Pg.char_length x <= n)%nat.
Proof.
  destruct s as [s|]; cbn; [|intros [= <-] x; discriminate].
  destruct (Pg.varchar n s) as [y|] eqn:Hy; [|discriminate].
  intros [= <-] x [= <-]. apply (varchar_length _ _ _ Hy).
Qed.

Lemma integer_Ok (v v' : Z) : Pg.integer v = Ok v' -> v' = v /\ Pg.integer v' = Ok v'.
Proof.
  unfold Pg.integer. destruct ((- 2 ^ 31 <=? v) && (v <? 2 ^ 31)) eqn:H; [|discriminate].
  intros [= <-]. rewrite H. auto.
Qed.

Lemma existsb_id_elem {A : Type} (f : A -> Z) (rows : list A) (i : Z) :
  existsb (fun r => f r =? i) rows = true -> i ∈ map f rows.
Proof.
  intros (r & Hr & Heq)%existsb_exists. apply Z.eqb_eq in Heq as <-.
  apply list_elem_of_fmap. exists r. split; [reflexivity | apply list_elem_of_In, Hr].
Qed.

(** No statement moves a sequence back. *)
Lemma run_statement_seq_le (now : Pg.clock) (s : Pg.statement) (t : Pg.tables)
    (q : Pg.sequences) :
  seq_le q (snd (Pg.run_statement now s t q)).
Proof.
  destruct s as [|week year|name team position|pid gid v]; unfold Pg.run_statement.
  - apply seq_le_refl.
  - destruct (Pg.integer week); cbn [bind]; [|apply seq_le_refl].
    destruct (Pg.nullable Pg.integer year) as [[yr|]|]; cbn [bind snd];
      [|unfold seq_le; cbn; lia | apply seq_le_refl].
    destruct (Pg.upsert _ _ _ (Pg.games t)). unfold seq_le; cbn; lia.
  - destruct (Pg.nullable (Pg.varchar 100) name) as [nm|]; cbn [bind];
      [|apply seq_le_refl].
    destruct (Pg.nullable (Pg.varchar 3) team) as [tm|]; cbn [bind]; [|apply seq_le_refl].
    destruct (Pg.nullable (Pg.varchar 5) position) as [ps|]; cbn [bind snd];
      [|apply seq_le_refl].
    destruct nm as [nm|]; [|unfold seq_le; cbn; lia].
    destruct (Pg.upsert _ _ _ (Pg.players t)). unfold seq_le; cbn; lia.
  - destruct (Pg.decimal_5_2 v); [|apply seq_le_refl].
    destruct (Pg.upsert _ _ _ (Pg.player_stats t)).
    destruct (_ && _); unfold seq_le; cbn; lia.
Qed.

(** Every statement that succeeds keeps the constraints of the schema. *)
Lemma run_statement_well_formed (now : Pg.clock) (s : Pg.statement) (t : Pg.tables)
    (q : Pg.sequences) (r : option Z) (t' : Pg.tables) (q' : Pg.sequences) :
  well_formed {| Pg.tables_of := t; Pg.sequences_of := q |} ->
  Pg.run_statement now s t q = (Ok (r, t'), q') ->
  well_formed {| Pg.tables_of := t'; Pg.sequences_of := q' |}.
Proof.
  intros ((HuP & HuG & HuS) & (HkP & HkG & HkS) & Href & (HtP & HtG & HtS)
          & (HiP & HiG & HiS)) Hrun.
  cbn [Pg.tables_of Pg.sequences_of] in *.
  destruct s as [|week year|name team position|pid gid v].
  - (* CREATE TABLE IF NOT EXISTS *)
    injection Hrun as _ <- <-. repeat split; assumption.
  - (* games *)
    unfold Pg.run_statement in Hrun.
    destruct (Pg.integer week) as [wk|] eqn:Hw; [|discriminate].
    destruct year as [year|]; cbn [Pg.nullable bind] in Hrun; [|discriminate].
    destruct (Pg.integer year) as [yr|] eqn:Hy; [|discriminate].
    cbn [bind] in Hrun.
    apply integer_Ok in Hw as [-> Hw], Hy as [-> Hy].
    rewrite (upsert_ext _ _ _ _ _ (same_game_hits now (Pg.games_id_seq q + 1) week year))
      in Hrun.
    set (o := game_op now (Pg.games_id_seq q + 1) week year) in *.
    change (Pg.upsert (hits game_key o) _ _ (Pg.games t))
      with (apply game_key o (Pg.games t)) in Hrun.
    pose proof (apply_NoDup game_key o (Pg.games t) (game_op_ok _ _ _ _) HuG) as Hu'.
    destruct (apply_ids game_key Pg.game_id o (Pg.games t) (Pg.games_id_seq q)
                (fun x => eq_refl) eq_refl HkG HiG) as (Hk' & Hi' & Hsub).
    pose proof (apply_Forall game_key _ o (Pg.games t)
                  (fun x (H : Pg.integer (Pg.game_week x) = Ok (Pg.game_week x)
                              /\ Pg.integer (Pg.game_year x) = Ok (Pg.game_year x)) => H)
                  (conj Hw Hy) HtG) as Ht'.
    destruct (apply game_key o (Pg.games t)) as [rows x]. cbn [fst] in *.
    injection Hrun as _ <- <-.
    repeat split; cbn [Pg.tables_of Pg.sequences_of Pg.players Pg.games Pg.player_stats
                       Pg.players_id_seq Pg.games_id_seq Pg.player_stats_id_seq];
      try assumption.
    eapply Forall_impl; [exact Href|]. cbn. intros s [H1 H2]. split; [exact H1 | auto].
  - (* players *)
    unfold Pg.run_statement in Hrun.
    destruct (Pg.nullable (Pg.varchar 100) name) as [nm|] eqn:Hn; [|discriminate].
    destruct (Pg.nullable (Pg.varchar 3) team) as [tm|] eqn:Ht; [|discriminate].
    destruct (Pg.nullable (Pg.varchar 5) position) as [ps|] eqn:Hp; [|discriminate].
    cbn [bind] in Hrun. destruct nm as [nm|]; [|discriminate].
    pose proof (nullable_varchar_length _ _ _ Hn nm eq_refl) as Hn'.
    pose proof (nullable_varchar_length _ _ _ Ht) as Ht'.
    pose proof (nullable_varchar_length _ _ _ Hp) as Hp'.
    set (e := {| e_name := nm; e_team := tm; e_position := ps; e_points := PyInt 0 |}).
    rewrite (upsert_ext _ _ _ _ _ (same_player_hits now (Pg.players_id_seq q + 1) e))
      in Hrun.
    set (o := player_op now (Pg.players_id_seq q + 1) e) in *.
    change (Pg.upsert (hits player_key o) _ _ (Pg.players t))
      with (apply player_key o (Pg.players t)) in Hrun.
    pose proof (apply_NoDup player_key o (Pg.players t) (player_op_ok _ _ _) HuP) as Hu'.
    destruct (apply_ids player_key Pg.player_id o (Pg.players t) (Pg.players_id_seq q)
                (fun x => eq_refl) eq_refl HkP HiP) as (Hk' & Hi' & Hsub).
    pose proof (apply_Forall player_key
                  (fun r => (Pg.char_length (Pg.player_name r) <= 100)%nat
                            /\ (forall s, Pg.player_team r = Some s ->
                                  (Pg.char_length s <= 3)%nat)
                            /\ (forall s, Pg.player_position r = Some s ->
                                  (Pg.char_length s <= 5)%nat))
                  o (Pg.players t)
                  (fun x '(conj H1 (conj H2 _)) => conj H1 (conj H2 Hp'))
                  (conj Hn' (conj Ht' Hp')) HtP) as Hty'.
    destruct (apply player_key o (Pg.players t)) as [rows x]. cbn [fst] in *.
    injection Hrun as _ <- <-.
    repeat split; cbn [Pg.tables_of Pg.sequences_of Pg.players Pg.games Pg.player_stats
                       Pg.players_id_seq Pg.games_id_seq Pg.player_stats_id_seq];
      try assumption.
    eapply Forall_impl; [exact Href|]. cbn. intros s [H1 H2]. split; [auto | exact H2].
  - (* player_stats *)
    unfold Pg.run_statement in Hrun.
    destruct (Pg.decimal_5_2 v) as [v'|] eqn:Hv; [|discriminate].
    pose proof (decimal_5_2_Ok v v' Hv) as ->.
    rewrite (upsert_ext _ _ _ _ _
               (same_stat_hits now (Pg.player_stats_id_seq q + 1) pid gid v)) in Hrun.
    set (o := stat_op now (Pg.player_stats_id_seq q + 1) pid gid v) in *.
    change (Pg.upsert (hits stat_key o) _ _ (Pg.player_stats t))
      with (apply stat_key o (Pg.player_stats t)) in Hrun.
    pose proof (apply_NoDup stat_key o (Pg.player_stats t) (stat_op_ok _ _ _ _ _) HuS)
      as Hu'.
    destruct (apply_ids stat_key Pg.stat_id o (Pg.player_stats t)
                (Pg.player_stats_id_seq q) (fun x => eq_refl) eq_refl HkS HiS)
      as (Hk' & Hi' & Hsub).
    pose proof (apply_Forall stat_key
                  (fun r => Pg.decimal_5_2 (Pg.stat_fantasy_points r)
                            = Ok (Pg.stat_fantasy_points r))
                  o (Pg.player_stats t) (fun x _ => Hv) Hv HtS) as Ht'.
    destruct (existsb (fun r => Pg.player_id r =? pid) (Pg.players t)) eqn:Hfk1;
      [|destruct (apply stat_key o _); discriminate].
    destruct (existsb (fun r => Pg.game_id r =? gid) (Pg.games t)) eqn:Hfk2;
      [|destruct (apply stat_key o _); discriminate].
    apply existsb_id_elem in Hfk1, Hfk2.
    pose proof (apply_Forall stat_key
                  (fun s => Pg.stat_player_id s ∈ map Pg.player_id (Pg.players t)
                            /\ Pg.stat_game_id s ∈ map Pg.game_id (Pg.games t))
                  o (Pg.player_stats t) (fun x H => H) (conj Hfk1 Hfk2) Href) as Href'.
    destruct (apply stat_key o (Pg.player_stats t)) as [rows x]. cbn [fst andb] in *.
    injection Hrun as _ <- <-.
    repeat split; cbn [Pg.tables_of Pg.sequences_of Pg.players Pg.games Pg.player_stats
                       Pg.players_id_seq Pg.games_id_seq Pg.player_stats_id_seq];
      assumption.
Qed.

(** *** Computations that keep the state sound *)

Lemma preserves_ret {A : Type} (I : state -> Prop) (a : A) : preserves I (ret a).
Proof. intros st r st' HI [= _ <-]. exact HI. Qed.

Lemma preserves_lift {A : Type} (I : state -> Prop) (x : result A) :
  preserves I (lift x).
Proof. intros st r st' HI [= _ <-]. exact HI. Qed.

Lemma preserves_bind {A B : Type} (I : state -> Prop) (m : M A) (k : A -> M B) :
  preserves I m -> (forall a, preserves I (k a)) -> preserves I (bindM m k).
Proof.
  intros Hm Hk st r st' HI. unfold bindM.
  destruct (m st) as [[a|e] st1] eqn:Hmst.
  - apply (Hk a), (Hm _ _ _ HI Hmst).
  - intros [= _ <-]. apply (Hm _ _ _ HI Hmst).
Qed.

Lemma preserves_try {A : Type} (I : state -> Prop) (m : M A) (h : exn -> M A) :
  preserves I m -> (forall e, preserves I (h e)) -> preserves I (try_except m h).
Proof.
  intros Hm Hh st r st' HI. unfold try_except.
  destruct (m st) as [[a|e] st1] eqn:Hmst.
  - intros [= _ <-]. apply (Hm _ _ _ HI Hmst).
  - apply (Hh e), (Hm _ _ _ HI Hmst).
Qed.

Lemma preserves_perform (e : effect) : preserves sound (perform e).
Proof. intros st r st' HI [= _ <-]. exact HI. Qed.

Lemma sound_session (E : list effect) (T : Pg.tables) (q : Pg.sequences)
    (s : Pg.txn_status) (t : Pg.tables) :
  sound (session E T q s t)
  <-> well_formed {| Pg.tables_of := T; Pg.sequences_of := q |}
      /\ well_formed {| Pg.tables_of := t; Pg.sequences_of := q |}.
Proof. reflexivity. Qed.

Lemma preserves_execute (now : Pg.clock) (s : Pg.statement) :
  preserves sound (execute now s).
Proof.
  apply preserves_bind; [apply preserves_perform|]. intros _ [E [T q] c] r st'.
  destruct c as [[status t]|]; cbn [conn db Pg.status Pg.working Pg.tables_of
                                      Pg.sequences_of effects];
    [|intros HI [= _ <-]; exact HI].
  intros [HT Ht]. cbn [conn db Pg.working Pg.sequences_of] in *.
  destruct (Pg.nul_parameter s); [intros [= _ <-]; split; assumption|].
  destruct status.
  - pose proof (run_statement_seq_le now s T q) as Hle.
    destruct (Pg.run_statement now s T q) as [[[x t1]|e] q1] eqn:Hrun;
      cbn [snd] in Hle; intros [= _ <-].
    + pose proof (run_statement_well_formed now s T q x t1 q1 HT Hrun) as H1.
      split; [apply (well_formed_seq_le T q q1 HT Hle) | exact H1].
    + split; apply (well_formed_seq_le T q q1 HT Hle).
  - pose proof (run_statement_seq_le now s t q) as Hle.
    destruct (Pg.run_statement now s t q) as [[[x t1]|e] q1] eqn:Hrun;
      cbn [snd] in Hle; intros [= _ <-].
    + pose proof (run_statement_well_formed now s t q x t1 q1 Ht Hrun) as H1.
      split; [apply (well_formed_seq_le T q q1 HT Hle) | exact H1].
    + split; [apply (well_formed_seq_le T q q1 HT Hle)
             | apply (well_formed_seq_le t q q1 Ht Hle)].
  - intros [= _ <-]. split; assumption.
Qed.

Lemma preserves_commit : preserves sound commit.
Proof.
  apply preserves_bind; [apply preserves_perform|]. intros _ [E [T q] c] r st'.
  destruct c as [[status t]|]; cbn [conn db Pg.status Pg.working Pg.tables_of
                                      Pg.sequences_of effects];
    [|intros HI [= _ <-]; exact HI].
  intros [HT Ht]. cbn [conn db Pg.working Pg.sequences_of] in *.
  destruct status; intros [= _ <-]; split; assumption.
Qed.

Lemma preserves_close : preserves sound close.
Proof.
  apply preserves_bind; [apply preserves_perform|]. intros _ st r st' [HI _] [= _ <-].
  split; [exact HI | exact I].
Qed.

Lemma preserves_fetchone_0 (r : option Z) : preserves sound (fetchone_0 r).
Proof. destruct r; [apply preserves_ret|]. intros st r st' HI [= _ <-]. exact HI. Qed.

Lemma preserves_get_secret_value (w : world) (secret_id : string) :
  preserves sound (get_secret_value w secret_id).
Proof.
  apply preserves_bind; [apply preserves_perform|]. intros _.
  destruct (secrets w !! secret_id); [apply preserves_ret|].
  intros st r st' HI [= _ <-]. exact HI.
Qed.

Lemma preserves_connect (w : world) (host database user password port : string) :
  preserves sound (connect w host database user password port).
Proof.
  apply preserves_bind; [apply preserves_perform|]. intros _ st r st' [HI Hc].
  destruct (login_ok w host database user password port); intros [= _ <-].
  - split; [exact HI|]. cbn. destruct (db st). exact HI.
  - split; assumption.
Qed.

Lemma preserves_process_players (now : Pg.clock) (gid : Z)
    (todo : list api_lambda.player) (n : nat) :
  preserves sound (api_lambda.process_players now gid todo n).
Proof.
  revert n. induction todo as [|p todo IH]; intros n; cbn [api_lambda.process_players].
  - apply preserves_ret.
  - apply preserves_bind; [|intros n'; apply IH].
    apply preserves_try; [|intros e; apply preserves_ret].
    apply preserves_bind; [apply preserves_execute|]. intros r.
    apply preserves_bind; [apply preserves_fetchone_0|]. intros pid.
    apply preserves_bind; [apply preserves_execute|]. intros _. apply preserves_ret.
Qed.

Lemma preserves_persistence_step (now : Pg.clock) (week : Z) (year : option Z)
    (batch : list api_lambda.player) :
  preserves sound (api_lambda.persistence_step now week year batch).
Proof.
  unfold api_lambda.persistence_step.
  apply preserves_bind; [apply preserves_execute|]. intros r.
  apply preserves_bind; [apply preserves_fetchone_0|]. intros gid.
  apply preserves_bind; [apply preserves_process_players|]. intros n.
  apply preserves_bind; [apply preserves_commit|]. intros _. apply preserves_ret.
Qed.

Lemma preserves_lambda_handler (w : world) (event : api_lambda.event) :
  preserves sound (api_lambda.lambda_handler w event).
Proof.
  unfold api_lambda.lambda_handler.
  apply preserves_bind; [apply preserves_lift|]. intros secret_arn. cbv zeta.
  destruct (api_lambda.no_key _); [apply preserves_ret|].
  apply preserves_try; [|intros e; apply preserves_ret].
  apply preserves_bind.
  { destruct (api_lambda.no_week _); [|apply preserves_ret].
    apply preserves_bind; [|intros wr; apply preserves_ret].
    apply preserves_bind; [apply preserves_perform | intros _; apply preserves_lift]. }
  intros wk. apply preserves_bind.
  { apply preserves_bind; [apply preserves_perform | intros _; apply preserves_lift]. }
  intros stats_data. apply preserves_bind; [apply preserves_lift|]. intros ps.
  destruct (bool_decide (ps = [])); [apply preserves_ret|].
  apply preserves_bind; [apply preserves_get_secret_value|]. intros creds.
  do 5 (apply preserves_bind; [apply preserves_lift|]; intros ?).
  apply preserves_bind; [apply preserves_connect|]. intros _.
  apply preserves_bind; [apply preserves_execute|]. intros _.
  apply preserves_bind; [apply preserves_commit|]. intros _.
  apply preserves_bind; [apply preserves_persistence_step|]. intros n.
  apply preserves_bind; [apply preserves_close|]. intros _. apply preserves_ret.
Qed.

(** A run of the persistence step keeps the constraints of the schema. *)
Lemma persist_well_formed (d : Pg.database) (now : Pg.clock) (week year : Z)
    (batch : list api_lambda.player) :
  well_formed d -> well_formed (snd (persist d now week year batch)).
Proof.
  intros Hd. unfold persist.
  destruct (api_lambda.persistence_step now week (Some year) batch
              (session [] (Pg.tables_of d) (Pg.sequences_of d) Pg.Idle (Pg.tables_of d)))
    as [r st'] eqn:Hrun.
  cbn [snd]. eapply (preserves_persistence_step now week (Some year) batch _ r st'); [|exact Hrun].
  apply sound_session. destruct d. split; exact Hd.
Qed.

Lemma well_formed_empty : well_formed Pg.empty_database.
Proof. repeat split; constructor. Qed.


End SchemaFacts.

(** ** Claims about the persistence step *)

Section PersistenceClaims.

Import Upsert PersistenceSpec PersistenceCount Schema.

(** C2. A batch of three records whose second record does not fit its
    columns, written to an empty database: the step reports one player, not
    two, and no row is stored, neither of the two valid records nor of the
    game.  With the malformed record first, it reports none. *)
Theorem persistence_step_one_bad_record :
  fst (persist Pg.empty_database sample_clock 1 2024 [valid_a; malformed; valid_b])
  = Ok 1%nat
  /\ tables_after Pg.empty_database sample_clock 1 2024 [valid_a; malformed; valid_b]
     = Pg.empty_tables
  /\ fst (persist Pg.empty_database sample_clock 1 2024 [malformed; valid_a; valid_b])
     = Ok 0%nat
  /\ tables_after Pg.empty_database sample_clock 1 2024 [malformed; valid_a; valid_b]
     = Pg.empty_tables.
Proof. repeat split; vm_compute; reflexivity. Qed.

(** C3. Two batches on which the persistence step does not do what the claim
    says.  Over a database in which 18.0 is stored for a player and the game
    of week 1 of 2024, the batch of a record with 7.5 points for that player
    and a record that does not fit its columns is run twice: the value
    stored for the player and the game is still 18.0, not the latest value
    7.5.  The batch of one record of a player without a team is run twice on
    the empty database: the second run adds a second players row and a
    second player_stats row. *)
Theorem persistence_step_rerun_not_latest :
  let d1 := snd (persist Pg.empty_database sample_clock 1 2024 [valid_a]) in
  let d2 := snd (persist d1 later_clock 1 2024 [valid_a_moved; malformed]) in
  let T3 := tables_after d2 later_clock 1 2024 [valid_a_moved; malformed] in
  let e1 := snd (persist Pg.empty_database sample_clock 1 2024 [free_agent]) in
  let U2 := tables_after e1 later_clock 1 2024 [free_agent] in
  (stored_points (Pg.tables_of d1) "Patrick Mahomes" "KC" 1 2024 = Some (PyFloat 18)
   /\ latest "Patrick Mahomes" "KC" [valid_a_moved; malformed] = Some valid_a_moved
   /\ points_of valid_a_moved = PyFloat 7.5
   /\ stored_points (Pg.tables_of d2) "Patrick Mahomes" "KC" 1 2024 = Some (PyFloat 18)
   /\ stored_points T3 "Patrick Mahomes" "KC" 1 2024 = Some (PyFloat 18))
  /\ (length (Pg.players (Pg.tables_of e1)) = 1%nat
      /\ length (Pg.player_stats (Pg.tables_of e1)) = 1%nat
      /\ length (Pg.players U2) = 2%nat
      /\ length (Pg.player_stats U2) = 2%nat).
Proof. cbv zeta. repeat split; vm_compute; reflexivity. Qed.






End PersistenceClaims.

(** ** Computations only append to the trace *)

Section Trace.

Import PersistenceSpec PersistenceCount.

Lemma with_effects_nil (st : state) : with_effects [] st = st.
Proof. destruct st; reflexivity. Qed.

Lemma with_effects_session (E E0 : list effect) (T : Pg.tables) (q : Pg.sequences)
    (s : Pg.txn_status) (t : Pg.tables) :
  with_effects E (session E0 T q s t) = session (E ++ E0) T q s t.
Proof. reflexivity. Qed.

Lemma appends_ret {A : Type} (a : A) : appends (ret a).
Proof. intros E st. reflexivity. Qed.

Lemma appends_lift {A : Type} (r : result A) : appends (lift r).
Proof. intros E st. reflexivity. Qed.

Lemma appends_bind {A B : Type} (m : M A) (k : A -> M B) :
  appends m -> (forall a, appends (k a)) -> appends (bindM m k).
Proof.
  intros Hm Hk E st. unfold bindM. rewrite Hm.
  destruct (m st) as [[a|e] st']; [apply Hk | reflexivity].
Qed.

Lemma appends_try {A : Type} (m : M A) (h : exn -> M A) :
  appends m -> (forall e, appends (h e)) -> appends (try_except m h).
Proof.
  intros Hm Hh E st. unfold try_except. rewrite Hm.
  destruct (m st) as [[a|e] st']; [reflexivity | apply Hh].
Qed.

Lemma appends_perform (e : effect) : appends (perform e).
Proof.
  intros E st. unfold perform, with_effects. cbn [effects db conn].
  rewrite app_assoc. reflexivity.
Qed.

Lemma appends_execute (now : Pg.clock) (s : Pg.statement) : appends (execute now s).
Proof.
  apply appends_bind; [apply appends_perform|]. intros _ E [E0 d c].
  unfold with_effects. cbn [effects db conn].
  destruct c as [c|]; [|reflexivity].
  destruct (Pg.nul_parameter s); [reflexivity|].
  destruct (Pg.status c); try reflexivity;
    destruct (Pg.run_statement now s _ (Pg.sequences_of d)) as [[[r t']|e] q'];
    reflexivity.
Qed.

Lemma appends_commit : appends commit.
Proof.
  apply appends_bind; [apply appends_perform|]. intros _ E [E0 d c].
  unfold with_effects. cbn [effects db conn].
  destruct c as [c|]; [|reflexivity].
  destruct (Pg.status c); reflexivity.
Qed.

Lemma appends_close : appends close.
Proof.
  apply appends_bind; [apply appends_perform|]. intros _ E st. reflexivity.
Qed.

Lemma appends_fetchone_0 (r : option Z) : appends (fetchone_0 r).
Proof. destruct r; intros E st; reflexivity. Qed.

Lemma appends_process_players (now : Pg.clock) (gid : Z) (todo : list api_lambda.player)
    (n : nat) :
  appends (api_lambda.process_players now gid todo n).
Proof.
  revert n. induction todo as [|p todo IH]; intros n; cbn [api_lambda.process_players].
  - apply appends_ret.
  - apply appends_bind; [|intros n'; apply IH].
    apply appends_try; [|intros e; apply appends_ret].
    apply appends_bind; [apply appends_execute|]. intros r.
    apply appends_bind; [apply appends_fetchone_0|]. intros pid.
    apply appends_bind; [apply appends_execute|]. intros _. apply appends_ret.
Qed.

Lemma appends_persistence_step (now : Pg.clock) (week : Z) (year : option Z)
    (batch : list api_lambda.player) :
  appends (api_lambda.persistence_step now week year batch).
Proof.
  unfold api_lambda.persistence_step.
  apply appends_bind; [apply appends_execute|]. intros r.
  apply appends_bind; [apply appends_fetchone_0|]. intros gid.
  apply appends_bind; [apply appends_process_players|]. intros n.
  apply appends_bind; [apply appends_commit|]. intros _. apply appends_ret.
Qed.

(** The persistence step in the middle of an invocation does to the
    database what [persist] does, and returns what it returns. *)
Lemma persistence_step_persist (now : Pg.clock) (week year : Z)
    (batch : list api_lambda.player) (E : list effect) (T : Pg.tables)
    (q : Pg.sequences) :
  exists E' c,
    api_lambda.persistence_step now week (Some year) batch (session E T q Pg.Idle T)
    = (fst (persist {| Pg.tables_of := T; Pg.sequences_of := q |} now week year batch),
       {| effects := E ++ Execute (Pg.UpsertGame week (Some year)) :: E';
          db := snd (persist {| Pg.tables_of := T; Pg.sequences_of := q |}
                       now week year batch);
          conn := Some c |}).
Proof.
  pose proof (appends_persistence_step now week (Some year) batch E (session [] T q Pg.Idle T))
    as Happ.
  rewrite with_effects_session, app_nil_r in Happ. rewrite Happ.
  unfold persist. cbn [Pg.tables_of Pg.sequences_of].
  destruct (game_accepted week year) eqn:Hg.
  - destruct (persistence_step_returns now week year batch [] T q T Hg)
      as (n & E' & T' & q' & t' & ->).
    exists E', {| Pg.status := Pg.Idle; Pg.working := t' |}. reflexivity.
  - unfold api_lambda.persistence_step, bindM.
    rewrite execute_idle by reflexivity. rewrite (run_upsert_game_rejected now week year _ _ Hg).
    exists [], {| Pg.status := Pg.Aborted; Pg.working := T |}. reflexivity.
Qed.

(** Without a year the game statement fails, after the sequence has handed
    out an id when the week is an INTEGER; nothing else is sent. *)
Lemma persistence_step_null_year (now : Pg.clock) (week : Z)
    (batch : list api_lambda.player) (E : list effect) (T : Pg.tables)
    (q : Pg.sequences) :
  api_lambda.persistence_step now week None batch (session E T q Pg.Idle T)
  = (Raise (match Pg.integer week with Ok _ => IntegrityError | Raise e => e end),
     session (E ++ [Execute (Pg.UpsertGame week None)]) T
       (match Pg.integer week with
        | Ok _ => {| Pg.players_id_seq := Pg.players_id_seq q;
                     Pg.games_id_seq := Pg.games_id_seq q + 1;
                     Pg.player_stats_id_seq := Pg.player_stats_id_seq q |}
        | Raise _ => q
        end)
       Pg.Aborted T).
Proof.
  unfold api_lambda.persistence_step, bindM.
  rewrite execute_idle by reflexivity. rewrite run_upsert_game_null.
  destruct (Pg.integer week); reflexivity.
Qed.

End Trace.

(** ** What the scoring function returns and raises *)

Section ScoringOutcome.

Import ScoringSpec.











End ScoringOutcome.

(** ** The paths through the handler *)

Section HandlerPaths.

Import HandlerSpec HandlerStages PersistenceSpec PersistenceCount.

(** With both credentials and the week resolved, the handler is the rest of
    its [try] block, run after the provider requests. *)
Lemma lambda_handler_fetch (w : world) (event : api_lambda.event) (st : state)
    (secret_arn : string) (wk : Z) :
  environ w !! "DB_SECRET_ARN" = Some secret_arn ->
  api_lambda.no_key (environ w !! "SPORTSDATA_API_KEY") = false ->
  resolves_week w event wk ->
  api_lambda.lambda_handler w event st
  = try_except
      (fetch_and_save w secret_arn wk (default (Some 2024) (api_lambda.year event)))
      internal_error
      {| effects := effects st
                    ++ fetch_calls event (default (Some 2024) (api_lambda.year event)) wk;
         db := db st; conn := conn st |}.
Proof.
  intros Harn Hkey Hwk. unfold api_lambda.lambda_handler.
  unfold bindM at 1. unfold lift at 1, getitem. rewrite Harn. cbv zeta.
  rewrite Hkey. unfold try_except. erewrite resolve_and_fetch by eassumption.
  reflexivity.
Qed.

(** The current-week query fails: nothing else is requested. *)
Lemma lambda_handler_week_query_failed (w : world) (event : api_lambda.event)
    (st : state) (secret_arn : string) (e : exn) :
  environ w !! "DB_SECRET_ARN" = Some secret_arn ->
  api_lambda.no_key (environ w !! "SPORTSDATA_API_KEY") = false ->
  api_lambda.no_week (api_lambda.week event) = true ->
  current_week_reply w = Raise e ->
  api_lambda.lambda_handler w event st
  = (Ok {| api_lambda.statusCode := 500;
           api_lambda.response_body := api_lambda.BodyError e |},
     {| effects := effects st ++ [HttpGet CurrentWeek]; db := db st; conn := conn st |}).
Proof.
  intros Harn Hkey Hno Hreply. unfold api_lambda.lambda_handler.
  unfold bindM at 1. unfold lift at 1, getitem. rewrite Harn. cbv zeta.
  rewrite Hkey, Hno. unfold try_except, bindM, requests_get_current_week, bindM,
    perform, lift. cbn [effects db conn]. rewrite Hreply. reflexivity.
Qed.

(** The week of an event is resolved, or the current-week query fails. *)
Lemma week_resolved_or_failed (w : world) (event : api_lambda.event) :
  (exists wk, resolves_week w event wk)
  \/ (exists e, api_lambda.no_week (api_lambda.week event) = true
                /\ current_week_reply w = Raise e).
Proof.
  destruct (api_lambda.no_week (api_lambda.week event)) eqn:Hno.
  - destruct (current_week_reply w) as [wr|e] eqn:Hr.
    + left. eexists. apply (week_current w event wr Hno Hr).
    + right. eauto.
  - left. destruct (api_lambda.week event) as [v|] eqn:Hv; [|discriminate].
    exists v. apply week_supplied; [exact Hv|].
    intros ->. discriminate.
Qed.

(** *** Save to database *)

Lemma save_to_database_no_secret (w : world) (secret_arn : string) (wk : Z)
    (yr : option Z)
    (ps : list api_lambda.player) (st : state) :
  secrets w !! secret_arn = None ->
  save_to_database w secret_arn wk yr ps st
  = (Raise ClientError,
     {| effects := effects st ++ [GetSecretValue secret_arn]; db := db st;
        conn := conn st |}).
Proof.
  intros H. unfold save_to_database, bindM, get_secret_value, bindM, perform.
  cbn [effects db conn]. rewrite H. reflexivity.
Qed.

Lemma save_to_database_missing_member (w : world) (secret_arn : string) (wk : Z)
    (yr : option Z)
    (ps : list api_lambda.player) (st : state) (db_creds : gmap string string)
    (k : string) :
  secrets w !! secret_arn = Some db_creds ->
  first_missing db_creds = Some k ->
  save_to_database w secret_arn wk yr ps st
  = (Raise (KeyError k),
     {| effects := effects st ++ [GetSecretValue secret_arn]; db := db st;
        conn := conn st |}).
Proof.
  intros H Hk. unfold save_to_database.
  unfold bindM at 1. unfold get_secret_value, bindM at 1, perform.
  cbn [effects db conn]. rewrite H. unfold ret at 1.
  unfold first_missing, credential_members in Hk. cbn [find] in Hk.
  unfold bindM, lift, getitem.
  destruct (db_creds !! "host"); cbn in Hk; [|injection Hk as <-; reflexivity].
  destruct (db_creds !! "database"); cbn in Hk; [|injection Hk as <-; reflexivity].
  destruct (db_creds !! "username"); cbn in Hk; [|injection Hk as <-; reflexivity].
  destruct (db_creds !! "password"); cbn in Hk; [|injection Hk as <-; reflexivity].
  destruct (db_creds !! "port"); cbn in Hk; [discriminate|injection Hk as <-; reflexivity].
Qed.

(** A secret with its five members. *)
Lemma first_missing_none (db_creds : gmap string string) :
  first_missing db_creds = None ->
  exists host database user password port,
    db_creds !! "host" = Some host /\ db_creds !! "database" = Some database
    /\ db_creds !! "username" = Some user /\ db_creds !! "password" = Some password
    /\ db_creds !! "port" = Some port.
Proof.
  unfold first_missing, credential_members. cbn [find]. intros Hk.
  destruct (db_creds !! "host") as [host|]; cbn in Hk; [|discriminate].
  destruct (db_creds !! "database") as [database|]; cbn in Hk; [|discriminate].
  destruct (db_creds !! "username") as [user|]; cbn in Hk; [|discriminate].
  destruct (db_creds !! "password") as [password|]; cbn in Hk; [|discriminate].
  destruct (db_creds !! "port") as [port|]; cbn in Hk; [|discriminate].
  eauto 10.
Qed.

(** From the secret to the connection. *)
Lemma save_to_database_connect (w : world) (secret_arn : string) (wk : Z)
    (yr : option Z)
    (ps : list api_lambda.player) (st : state) (db_creds : gmap string string)
    (host database user password port : string) :
  secrets w !! secret_arn = Some db_creds ->
  db_creds !! "host" = Some host ->
  db_creds !! "database" = Some database ->
  db_creds !! "username" = Some user ->
  db_creds !! "password" = Some password ->
  db_creds !! "port" = Some port ->
  save_to_database w secret_arn wk yr ps st
  = let st1 := {| effects := effects st
                             ++ [GetSecretValue secret_arn;
                                 Connect host database user password port];
                  db := db st; conn := conn st |} in
    if login_ok w host database user password port then
      (let! _ := execute (now w) Pg.CreateTables in
       let! _ := commit in
       let! success_count := api_lambda.persistence_step (now w) wk yr ps in
       let! _ := close in
       ret (summary success_count wk yr (length ps)))
        (session (effects st1) (Pg.tables_of (db st)) (Pg.sequences_of (db st)) Pg.Idle
           (Pg.tables_of (db st)))
    else (Raise OperationalError, st1).
Proof.
  intros Hsec Hh Hd Hu Hp Hpo. unfold save_to_database.
  unfold bindM at 1. unfold get_secret_value at 1, bindM at 1, perform at 1.
  cbn [effects db conn]. rewrite Hsec. unfold ret at 1.
  unfold bindM at 1, lift at 1, getitem at 1. rewrite Hh.
  unfold bindM at 1, lift at 1, getitem at 1. rewrite Hd.
  unfold bindM at 1, lift at 1, getitem at 1. rewrite Hu.
  unfold bindM at 1, lift at 1, getitem at 1. rewrite Hp.
  unfold bindM at 1, lift at 1, getitem at 1. rewrite Hpo.
  unfold bindM at 1. unfold connect at 1, bindM at 1, perform at 1.
  cbn [effects db conn]. cbv zeta. rewrite <- app_assoc. cbn [app].
  destruct (login_ok w host database user password port); [|reflexivity].
  destruct st as [E [T q] c]. reflexivity.
Qed.

(** On a new connection: the tables are created, the step runs, the
    connection is closed. *)
Lemma database_stage (w : world) (wk yr : Z) (ps : list api_lambda.player)
    (E : list effect) (T : Pg.tables) (q : Pg.sequences) :
  let d := {| Pg.tables_of := T; Pg.sequences_of := q |} in
  exists E' c,
    (let! _ := execute (now w) Pg.CreateTables in
     let! _ := commit in
     let! success_count := api_lambda.persistence_step (now w) wk (Some yr) ps in
     let! _ := close in
     ret (summary success_count wk (Some yr) (length ps)))
      (session E T q Pg.Idle T)
    = match fst (persist d (now w) wk yr ps) with
      | Ok n =>
          (Ok (summary n wk (Some yr) (length ps)),
           {| effects := E ++ [Execute Pg.CreateTables; Commit;
                               Execute (Pg.UpsertGame wk (Some yr))] ++ E' ++ [Close];
              db := snd (persist d (now w) wk yr ps); conn := None |})
      | Raise e =>
          (Raise e,
           {| effects := E ++ [Execute Pg.CreateTables; Commit;
                               Execute (Pg.UpsertGame wk (Some yr))] ++ E';
              db := snd (persist d (now w) wk yr ps); conn := Some c |})
      end.
Proof.
  cbv zeta. unfold bindM at 1. rewrite execute_idle by reflexivity.
  cbn [Pg.run_statement].
  unfold bindM at 1. rewrite commit_in_transaction.
  unfold bindM at 1.
  destruct (persistence_step_persist (now w) wk yr ps
              ((E ++ [Execute Pg.CreateTables]) ++ [Commit]) T q) as (E' & c & ->).
  exists E', c.
  destruct (fst (persist {| Pg.tables_of := T; Pg.sequences_of := q |} (now w) wk yr ps))
    as [n|e].
  - unfold bindM, close, bindM, perform, ret. cbn [effects db conn].
    repeat rewrite <- app_assoc. reflexivity.
  - repeat rewrite <- app_assoc. reflexivity.
Qed.

(** The same without a year: the game statement fails, and the connection
    is left open in its failed transaction. *)
Lemma database_stage_null_year (w : world) (wk : Z) (ps : list api_lambda.player)
    (E : list effect) (T : Pg.tables) (q : Pg.sequences) :
  (let! _ := execute (now w) Pg.CreateTables in
   let! _ := commit in
   let! success_count := api_lambda.persistence_step (now w) wk None ps in
   let! _ := close in
   ret (summary success_count wk None (length ps)))
    (session E T q Pg.Idle T)
  = (Raise (match Pg.integer wk with Ok _ => IntegrityError | Raise e => e end),
     session (E ++ [Execute Pg.CreateTables; Commit; Execute (Pg.UpsertGame wk None)]) T
       (match Pg.integer wk with
        | Ok _ => {| Pg.players_id_seq := Pg.players_id_seq q;
                     Pg.games_id_seq := Pg.games_id_seq q + 1;
                     Pg.player_stats_id_seq := Pg.player_stats_id_seq q |}
        | Raise _ => q
        end)
       Pg.Aborted T).
Proof.
  unfold bindM at 1. rewrite execute_idle by reflexivity. cbn [Pg.run_statement].
  unfold bindM at 1. rewrite commit_in_transaction.
  unfold bindM at 1. rewrite persistence_step_null_year.
  repeat rewrite <- app_assoc. reflexivity.
Qed.

(** What "Save to database" does to the database, in every case: an
    exception leaves the tables as they were, and the sequences too when
    there is a year. *)
Lemma save_to_database_db (w : world) (secret_arn : string) (wk : Z) (yr : option Z)
    (ps : list api_lambda.player) (st : state) :
  match save_to_database w secret_arn wk yr ps st with
  | (Ok r, st') =>
      exists n y, yr = Some y
                  /\ r = summary n wk (Some y) (length ps)
                  /\ persist (db st) (now w) wk y ps = (Ok n, db st')
                  /\ conn st' = None
  | (Raise e, st') =>
      Pg.tables_of (db st') = Pg.tables_of (db st)
      /\ (yr <> None -> db st' = db st)
  end.
Proof.
  destruct (secrets w !! secret_arn) as [db_creds|] eqn:Hsec;
    [|rewrite save_to_database_no_secret by exact Hsec; split; reflexivity].
  destruct (first_missing db_creds) as [k|] eqn:Hk;
    [rewrite (save_to_database_missing_member _ _ _ _ _ _ _ _ Hsec Hk);
     split; reflexivity|].
  destruct (first_missing_none db_creds Hk)
    as (host & database & user & password & port & Hh & Hd & Hu & Hp & Hpo).
  rewrite (save_to_database_connect _ _ _ _ _ _ _ _ _ _ _ _ Hsec Hh Hd Hu Hp Hpo).
  cbv zeta. cbn [effects].
  destruct (login_ok w host database user password port); [|split; reflexivity].
  destruct yr as [yr|].
  - destruct (database_stage w wk yr ps
                (effects st ++ [GetSecretValue secret_arn;
                                Connect host database user password port])
                (Pg.tables_of (db st)) (Pg.sequences_of (db st))) as (E' & c & ->).
    cbv zeta.
    assert ({| Pg.tables_of := Pg.tables_of (db st);
               Pg.sequences_of := Pg.sequences_of (db st) |} = db st) as ->
      by (destruct (db st); reflexivity).
    destruct (persist (db st) (now w) wk yr ps) as [[n|e] d'] eqn:Hper; cbn [fst snd].
    + exists n, yr. auto.
    + pose proof (persist_result (db st) (now w) wk yr ps) as Hres.
      rewrite Hper in Hres. cbn [fst] in Hres.
      destruct (game_accepted wk yr) eqn:Hg; [discriminate|].
      rewrite (persist_game_rejected (db st) (now w) wk yr ps Hg) in Hper.
      injection Hper as _ <-. split; reflexivity.
  - rewrite database_stage_null_year. split; [reflexivity | congruence].
Qed.

(** The same from the statistics request on: an answer that is not the
    summary of a run leaves the tables as they were, and the sequences too
    when there is a year. *)
Lemma fetch_and_save_db (w : world) (secret_arn : string) (wk : Z) (yr : option Z)
    (st : state) :
  match try_except (fetch_and_save w secret_arn wk yr) internal_error st with
  | (Ok r, st') =>
      (Pg.tables_of (db st') = Pg.tables_of (db st)
       /\ (yr <> None -> db st' = db st)
       /\ ((exists e, r = {| api_lambda.statusCode := 500;
                             api_lambda.response_body := api_lambda.BodyError e |})
           \/ r = no_players_found))
      \/ (exists y stats_data all_players n,
            yr = Some y
            /\ stats_reply w yr wk = Ok stats_data
            /\ api_lambda.format_loop stats_data [] = Ok all_players
            /\ all_players <> []
            /\ persist (db st) (now w) wk y all_players = (Ok n, db st')
            /\ r = summary n wk (Some y) (length all_players)
            /\ conn st' = None)
  | (Raise e, st') => False
  end.
Proof.
  unfold try_except, fetch_and_save. unfold bindM at 1, lift at 1.
  destruct (stats_reply w yr wk) as [stats_data|e] eqn:Hstats;
    [|left; split; [reflexivity | split; [reflexivity | left; eexists; reflexivity]]].
  unfold bindM at 1, lift at 1.
  destruct (api_lambda.format_loop stats_data []) as [all_players|e] eqn:Hfmt;
    [|left; split; [reflexivity | split; [reflexivity | left; eexists; reflexivity]]].
  case_bool_decide as Hnil;
    [left; split; [reflexivity | split; [reflexivity | right; reflexivity]]|].
  pose proof (save_to_database_db w secret_arn wk yr all_players st) as Hsave.
  destruct (save_to_database w secret_arn wk yr all_players st) as [[r|e] st'].
  - destruct Hsave as (n & y & -> & -> & Hper & Hconn). right.
    exists y, stats_data, all_players, n. auto 10.
  - left. destruct Hsave as [Ht Hd]. split; [exact Ht|]. split; [exact Hd|].
    left; eexists; reflexivity.
Qed.

(** The ways through the handler when the secret reference is set. *)
Lemma lambda_handler_cases (w : world) (event : api_lambda.event) (st : state)
    (secret_arn : string) :
  environ w !! "DB_SECRET_ARN" = Some secret_arn ->
  (api_lambda.no_key (environ w !! "SPORTSDATA_API_KEY") = true
   /\ api_lambda.lambda_handler w event st
      = (Ok {| api_lambda.statusCode := 400;
               api_lambda.response_body :=
                 api_lambda.BodyText "SPORTSDATA_API_KEY environment variable required" |},
         st))
  \/ (api_lambda.no_key (environ w !! "SPORTSDATA_API_KEY") = false
      /\ exists e,
           api_lambda.no_week (api_lambda.week event) = true
           /\ current_week_reply w = Raise e
           /\ api_lambda.lambda_handler w event st
              = (Ok {| api_lambda.statusCode := 500;
                       api_lambda.response_body := api_lambda.BodyError e |},
                 {| effects := effects st ++ [HttpGet CurrentWeek]; db := db st;
                    conn := conn st |}))
  \/ (api_lambda.no_key (environ w !! "SPORTSDATA_API_KEY") = false
      /\ exists wk,
           resolves_week w event wk
           /\ api_lambda.lambda_handler w event st
              = try_except
                  (fetch_and_save w secret_arn wk (default (Some 2024) (api_lambda.year event)))
                  internal_error
                  {| effects := effects st
                                ++ fetch_calls event (default (Some 2024) (api_lambda.year event)) wk;
                     db := db st; conn := conn st |}).
Proof.
  intros Harn.
  destruct (api_lambda.no_key (environ w !! "SPORTSDATA_API_KEY")) eqn:Hkey.
  - left. split; [reflexivity|].
    apply (lambda_handler_missing_api_key w event st secret_arn Harn Hkey).
  - right. destruct (week_resolved_or_failed w event) as [[wk Hwk]|(e & Hno & Hr)].
    + right. split; [reflexivity|]. exists wk. split; [exact Hwk|].
      apply lambda_handler_fetch; assumption.
    + left. split; [reflexivity|]. exists e. split; [exact Hno|]. split; [exact Hr|].
      apply (lambda_handler_week_query_failed w event st secret_arn e); assumption.
Qed.

End HandlerPaths.

(** ** The handler: answers, failures, and the database *)

Section HandlerAnswers.

Import HandlerSpec HandlerStages PersistenceSpec PersistenceCount.

(** X4. With the reference to the database secret in the environment, the
    handler never raises: it answers with status 400, 200 or 500.  It
    answers 400 exactly when the provider's access key is missing or empty,
    and then it has done nothing. *)
Theorem lambda_handler_always_answers (w : world) (event : api_lambda.event)
    (st : state) (secret_arn : string) :
  environ w !! "DB_SECRET_ARN" = Some secret_arn ->
  exists r st',
    api_lambda.lambda_handler w event st = (Ok r, st')
    /\ (api_lambda.statusCode r = 400 \/ api_lambda.statusCode r = 200
        \/ api_lambda.statusCode r = 500)
    /\ (api_lambda.statusCode r = 400
        <-> api_lambda.no_key (environ w !! "SPORTSDATA_API_KEY") = true)
    /\ (api_lambda.statusCode r = 400 -> st' = st).
Proof.
  intros Harn.
  destruct (lambda_handler_cases w event st secret_arn Harn)
    as [[Hkey ->]|[(Hkey & e & _ & _ & ->)|(Hkey & wk & _ & ->)]].
  - eexists _, _. split; [reflexivity|]. cbn. split; [auto|]. split; [tauto | auto].
  - eexists _, _. split; [reflexivity|]. cbn. rewrite Hkey.
    split; [auto|]. split; [split; discriminate | discriminate].
  - match goal with |- context [try_except ?m ?h ?s] =>
      pose proof (fetch_and_save_db w secret_arn wk
                    (default (Some 2024) (api_lambda.year event)) s) as H;
      destruct (try_except m h s) as [[r|e] st']
    end; [|contradiction].
    exists r, st'. split; [reflexivity|]. rewrite Hkey.
    destruct H as [(_ & _ & [[e ->] | ->])|(y & sd & ps & n & _ & _ & _ & _ & _ & -> & _)];
      cbn;
      (split; [auto|]); (split; [split; discriminate | discriminate]).
Qed.

Lemma lambda_handler_always_answers_witness :
  exists r st',
    api_lambda.lambda_handler world_provider_down
      {| api_lambda.week := Some 3; api_lambda.year := None |} initial_state = (Ok r, st')
    /\ api_lambda.statusCode r <> 400.
Proof.
  destruct (lambda_handler_always_answers world_provider_down
              {| api_lambda.week := Some 3; api_lambda.year := None |} initial_state
              "arn:secret" eq_refl) as (r & st' & H & _ & Hkey & _).
  exists r, st'. split; [exact H|].
  intros H400. apply Hkey in H400. discriminate.
Defined.

(** X5. A failure of the provider (of the current-week query, or of the
    statistics request) is answered with status 500 and the exception; the
    handler has made no other call than the provider requests up to the one
    that failed, and the stats request is not made when the current-week
    query fails. *)
Theorem lambda_handler_provider_failure (w : world) (event : api_lambda.event)
    (st : state) (secret_arn : string) (e : exn) :
  environ w !! "DB_SECRET_ARN" = Some secret_arn ->
  api_lambda.no_key (environ w !! "SPORTSDATA_API_KEY") = false ->
  (api_lambda.no_week (api_lambda.week event) = true ->
   current_week_reply w = Raise e ->
   api_lambda.lambda_handler w event st
   = (Ok {| api_lambda.statusCode := 500;
            api_lambda.response_body := api_lambda.BodyError e |},
      {| effects := effects st ++ [HttpGet CurrentWeek]; db := db st; conn := conn st |}))
  /\ (forall wk,
        resolves_week w event wk ->
        stats_reply w (default (Some 2024) (api_lambda.year event)) wk = Raise e ->
        api_lambda.lambda_handler w event st
        = (Ok {| api_lambda.statusCode := 500;
                 api_lambda.response_body := api_lambda.BodyError e |},
           {| effects := effects st
                         ++ fetch_calls event (default (Some 2024) (api_lambda.year event)) wk;
              db := db st; conn := conn st |})).
Proof.
  intros Harn Hkey. split.
  - intros Hno Hr. apply (lambda_handler_week_query_failed w event st secret_arn e);
      assumption.
  - intros wk Hwk Hstats.
    rewrite (lambda_handler_fetch w event st secret_arn wk Harn Hkey Hwk).
    unfold try_except, fetch_and_save, bindM, lift. rewrite Hstats. reflexivity.
Qed.

Lemma lambda_handler_provider_failure_witness :
  api_lambda.lambda_handler world_no_current_week
    {| api_lambda.week := None; api_lambda.year := None |} initial_state
  = (Ok {| api_lambda.statusCode := 500;
           api_lambda.response_body := api_lambda.BodyError RequestException |},
     {| effects := [HttpGet CurrentWeek]; db := Pg.empty_database; conn := None |})
  /\ api_lambda.lambda_handler world_provider_down
       {| api_lambda.week := Some 3; api_lambda.year := None |} initial_state
     = (Ok {| api_lambda.statusCode := 500;
              api_lambda.response_body := api_lambda.BodyError RequestException |},
        {| effects := [HttpGet (PlayerGameStatsByWeek (Some 2024) 3)]; db := Pg.empty_database;
           conn := None |}).
Proof.
  split.
  - apply (lambda_handler_provider_failure world_no_current_week
             {| api_lambda.week := None; api_lambda.year := None |} initial_state
             "arn:secret" RequestException eq_refl eq_refl); reflexivity.
  - apply (lambda_handler_provider_failure world_provider_down
             {| api_lambda.week := Some 3; api_lambda.year := None |} initial_state
             "arn:secret" RequestException eq_refl eq_refl).
    + apply week_supplied; [reflexivity | discriminate].
    + reflexivity.
Defined.




(** With the provider's records formatted, the handler is "Save to
    database". *)
Lemma lambda_handler_save (w : world) (event : api_lambda.event) (st : state)
    (secret_arn : string) (wk : Z) (stats_data : list provider_record) :
  environ w !! "DB_SECRET_ARN" = Some secret_arn ->
  api_lambda.no_key (environ w !! "SPORTSDATA_API_KEY") = false ->
  resolves_week w event wk ->
  stats_reply w (default (Some 2024) (api_lambda.year event)) wk = Ok stats_data ->
  stats_data <> [] ->
  Forall (fun stat => exists v, api_lambda.calculate_fantasy_points stat = Ok v)
    stats_data ->
  exists all_players,
    api_lambda.format_loop stats_data [] = Ok all_players
    /\ length all_players = length stats_data
    /\ api_lambda.lambda_handler w event st
       = try_except
           (save_to_database w secret_arn wk (default (Some 2024) (api_lambda.year event))
              all_players)
           internal_error
           {| effects := effects st
                         ++ fetch_calls event (default (Some 2024) (api_lambda.year event)) wk;
              db := db st; conn := conn st |}.
Proof.
  intros Harn Hkey Hwk Hstats Hne Hall.
  destruct (format_loop_returns stats_data Hne Hall) as (all_players & Hfmt & Hnil & Hlen).
  exists all_players. split; [exact Hfmt|]. split; [exact Hlen|].
  rewrite (lambda_handler_fetch w event st secret_arn wk Harn Hkey Hwk).
  unfold try_except, fetch_and_save. unfold bindM at 1, lift at 1. rewrite Hstats.
  unfold bindM at 1, lift at 1. rewrite Hfmt, Hnil. reflexivity.
Qed.

(** X7. When the database cannot be reached, the handler answers 500 and
    sends no statement: with no secret under the reference it answers with
    ClientError, with a secret that lacks one of host, database, username,
    password, port it answers with KeyError of the first one missing (in
    both cases no connection is attempted), and with a login that the
    server refuses it answers with OperationalError. *)
Theorem lambda_handler_credentials_failure (w : world) (event : api_lambda.event)
    (st : state) (secret_arn : string) (wk : Z) (stats_data : list provider_record) :
  environ w !! "DB_SECRET_ARN" = Some secret_arn ->
  api_lambda.no_key (environ w !! "SPORTSDATA_API_KEY") = false ->
  resolves_week w event wk ->
  stats_reply w (default (Some 2024) (api_lambda.year event)) wk = Ok stats_data ->
  stats_data <> [] ->
  Forall (fun stat => exists v, api_lambda.calculate_fantasy_points stat = Ok v)
    stats_data ->
  let fetched := effects st
                 ++ fetch_calls event (default (Some 2024) (api_lambda.year event)) wk in
  let answer (e : exn) (calls : list effect) :=
    (Ok {| api_lambda.statusCode := 500;
           api_lambda.response_body := api_lambda.BodyError e |},
     {| effects := fetched ++ calls; db := db st; conn := conn st |}) in
  (secrets w !! secret_arn = None ->
   api_lambda.lambda_handler w event st
   = answer ClientError [GetSecretValue secret_arn])
  /\ (forall db_creds k,
        secrets w !! secret_arn = Some db_creds ->
        first_missing db_creds = Some k ->
        api_lambda.lambda_handler w event st
        = answer (KeyError k) [GetSecretValue secret_arn])
  /\ (forall db_creds host database user password port,
        secrets w !! secret_arn = Some db_creds ->
        db_creds !! "host" = Some host ->
        db_creds !! "database" = Some database ->
        db_creds !! "username" = Some user ->
        db_creds !! "password" = Some password ->
        db_creds !! "port" = Some port ->
        login_ok w host database user password port = false ->
        api_lambda.lambda_handler w event st
        = answer OperationalError
            [GetSecretValue secret_arn; Connect host database user password port]).
Proof.
  intros Harn Hkey Hwk Hstats Hne Hall fetched answer.
  destruct (lambda_handler_save w event st secret_arn wk stats_data
              Harn Hkey Hwk Hstats Hne Hall) as (ps & _ & _ & ->).
  unfold try_except, answer, fetched. split; [|split].
  - intros Hsec. rewrite save_to_database_no_secret by exact Hsec. reflexivity.
  - intros db_creds k Hsec Hk.
    rewrite (save_to_database_missing_member _ _ _ _ _ _ _ _ Hsec Hk). reflexivity.
  - intros db_creds host database user password port Hsec Hh Hd Hu Hp Hpo Hlogin.
    rewrite (save_to_database_connect _ _ _ _ _ _ _ _ _ _ _ _ Hsec Hh Hd Hu Hp Hpo).
    cbv zeta. rewrite Hlogin. reflexivity.
Qed.

Lemma lambda_handler_credentials_failure_witness :
  let event := {| api_lambda.week := Some 3; api_lambda.year := None |} in
  let answer (e : exn) (calls : list effect) :=
    (Ok {| api_lambda.statusCode := 500;
           api_lambda.response_body := api_lambda.BodyError e |},
     {| effects := HttpGet (PlayerGameStatsByWeek (Some 2024) 3) :: calls;
        db := Pg.empty_database; conn := None |}) in
  api_lambda.lambda_handler (world_without_secret [sample_line]) event initial_state
  = answer ClientError [GetSecretValue "arn:secret"]
  /\ api_lambda.lambda_handler (world_incomplete_secret [sample_line]) event initial_state
     = answer (KeyError "password") [GetSecretValue "arn:secret"]
  /\ api_lambda.lambda_handler (world_login_refused [sample_line]) event initial_state
     = answer OperationalError
         [GetSecretValue "arn:secret"; Connect "db.internal" "fantasy" "app" "pw" "5432"].
Proof.
  cbv zeta.
  assert (Forall (fun stat => exists v, api_lambda.calculate_fantasy_points stat = Ok v)
            [sample_line]) as Hall.
  { repeat constructor. eexists. vm_compute. reflexivity. }
  assert (forall w, resolves_week w {| api_lambda.week := Some 3; api_lambda.year := None |} 3)
    as Hwk.
  { intros w. apply week_supplied; [reflexivity | discriminate]. }
  assert ([sample_line] <> []) as Hne by discriminate.
  split; [|split].
  - destruct (lambda_handler_credentials_failure (world_without_secret [sample_line])
                {| api_lambda.week := Some 3; api_lambda.year := None |} initial_state
                "arn:secret" 3 [sample_line] eq_refl eq_refl (Hwk _) eq_refl Hne Hall)
      as (H & _ & _).
    apply H. reflexivity.
  - destruct (lambda_handler_credentials_failure (world_incomplete_secret [sample_line])
                {| api_lambda.week := Some 3; api_lambda.year := None |} initial_state
                "arn:secret" 3 [sample_line] eq_refl eq_refl (Hwk _) eq_refl Hne Hall)
      as (_ & H & _).
    eapply H; reflexivity.
  - destruct (lambda_handler_credentials_failure (world_login_refused [sample_line])
                {| api_lambda.week := Some 3; api_lambda.year := None |} initial_state
                "arn:secret" 3 [sample_line] eq_refl eq_refl (Hwk _) eq_refl Hne Hall)
      as (_ & _ & H).
    eapply H; reflexivity.
Defined.

End HandlerAnswers.

(** ** The handler and the database *)

Section HandlerDatabase.

Import HandlerSpec HandlerStages PersistenceSpec PersistenceCount.

(** X8. A week or a year outside the INTEGER range makes the game statement
    fail after the connection is made: the handler answers 500 with
    DataError, the database is as before, and the connection is left open in
    its failed transaction: the [close] of the success path is not reached. *)
Theorem lambda_handler_game_rejected (w : world) (event : api_lambda.event)
    (st : state) (secret_arn : string) (wk yr : Z) (stats_data : list provider_record)
    (db_creds : gmap string string) (host database user password port : string) :
  environ w !! "DB_SECRET_ARN" = Some secret_arn ->
  api_lambda.no_key (environ w !! "SPORTSDATA_API_KEY") = false ->
  resolves_week w event wk ->
  default (Some 2024) (api_lambda.year event) = Some yr ->
  stats_reply w (Some yr) wk = Ok stats_data ->
  stats_data <> [] ->
  Forall (fun stat => exists v, api_lambda.calculate_fantasy_points stat = Ok v)
    stats_data ->
  secrets w !! secret_arn = Some db_creds ->
  db_creds !! "host" = Some host ->
  db_creds !! "database" = Some database ->
  db_creds !! "username" = Some user ->
  db_creds !! "password" = Some password ->
  db_creds !! "port" = Some port ->
  login_ok w host database user password port = true ->
  game_accepted wk yr = false ->
  api_lambda.lambda_handler w event st
  = (Ok {| api_lambda.statusCode := 500;
           api_lambda.response_body := api_lambda.BodyError DataError |},
     {| effects := effects st
                   ++ fetch_calls event (Some yr) wk
                   ++ [GetSecretValue secret_arn;
                       Connect host database user password port;
                       Execute Pg.CreateTables; Commit;
                       Execute (Pg.UpsertGame wk (Some yr))];
        db := db st;
        conn := Some {| Pg.status := Pg.Aborted;
                        Pg.working := Pg.tables_of (db st) |} |}).
Proof.
  intros Harn Hkey Hwk Hyr Hstats Hne Hall Hsec Hh Hd Hu Hp Hpo Hlogin Hgame.
  rewrite <- Hyr in Hstats.
  destruct (lambda_handler_save w event st secret_arn wk stats_data
              Harn Hkey Hwk Hstats Hne Hall) as (ps & _ & _ & ->).
  rewrite Hyr. unfold try_except.
  rewrite (save_to_database_connect _ _ _ _ _ _ _ _ _ _ _ _ Hsec Hh Hd Hu Hp Hpo).
  cbv zeta. cbn [effects db conn]. rewrite Hlogin.
  unfold bindM at 1. rewrite execute_idle by reflexivity. cbn [Pg.run_statement].
  unfold bindM at 1. rewrite commit_in_transaction.
  unfold bindM at 1. unfold api_lambda.persistence_step. unfold bindM at 1.
  rewrite execute_idle by reflexivity. rewrite (run_upsert_game_rejected _ _ _ _ _ Hgame).
  unfold internal_error, ret, session. repeat rewrite <- app_assoc.
  destruct st as [E [T q] c]. reflexivity.
Qed.

Lemma lambda_handler_game_rejected_witness :
  exists calls,
    api_lambda.lambda_handler (sample_world [sample_line])
      {| api_lambda.week := Some (2 ^ 31); api_lambda.year := None |} initial_state
    = (Ok {| api_lambda.statusCode := 500;
             api_lambda.response_body := api_lambda.BodyError DataError |},
       {| effects := calls; db := Pg.empty_database;
          conn := Some {| Pg.status := Pg.Aborted; Pg.working := Pg.empty_tables |} |})
    /\ Close ∉ calls.
Proof.
  eexists. split.
  - apply (lambda_handler_game_rejected (sample_world [sample_line])
             {| api_lambda.week := Some (2 ^ 31); api_lambda.year := None |} initial_state
             "arn:secret" (2 ^ 31) 2024 [sample_line]
             {[ "host" := "db.internal"; "database" := "fantasy"; "username" := "app";
                "password" := "pw"; "port" := "5432" ]}
             "db.internal" "fantasy" "app" "pw" "5432"); try reflexivity.
    + apply week_supplied; [reflexivity | discriminate].
    + discriminate.
    + repeat constructor. eexists. vm_compute. reflexivity.
  - cbn. intros H. repeat (apply elem_of_cons in H as [H|H]; [discriminate|]).
    inversion H.
Defined.



(** An event whose year is null: [event.get('year', 2024)] is [None], the
    statistics are requested for the year "None", and when the provider
    answers with records and the database is reached, the game statement
    violates NOT NULL: the handler answers 500 with IntegrityError (with
    DataError when the week is outside the INTEGER range), no row is
    written, the games sequence has handed out one id, and the connection
    is left open in its failed transaction. *)
Theorem lambda_handler_null_year (w : world) (event : api_lambda.event)
    (st : state) (secret_arn : string) (wk : Z) (stats_data : list provider_record)
    (db_creds : gmap string string) (host database user password port : string) :
  environ w !! "DB_SECRET_ARN" = Some secret_arn ->
  api_lambda.no_key (environ w !! "SPORTSDATA_API_KEY") = false ->
  resolves_week w event wk ->
  api_lambda.year event = Some None ->
  stats_reply w None wk = Ok stats_data ->
  stats_data <> [] ->
  Forall (fun stat => exists v, api_lambda.calculate_fantasy_points stat = Ok v)
    stats_data ->
  secrets w !! secret_arn = Some db_creds ->
  db_creds !! "host" = Some host ->
  db_creds !! "database" = Some database ->
  db_creds !! "username" = Some user ->
  db_creds !! "password" = Some password ->
  db_creds !! "port" = Some port ->
  login_ok w host database user password port = true ->
  api_lambda.lambda_handler w event st
  = (Ok {| api_lambda.statusCode := 500;
           api_lambda.response_body :=
             api_lambda.BodyError
               (match Pg.integer wk with Ok _ => IntegrityError | Raise e => e end) |},
     {| effects := effects st
                   ++ fetch_calls event None wk
                   ++ [GetSecretValue secret_arn;
                       Connect host database user password port;
                       Execute Pg.CreateTables; Commit;
                       Execute (Pg.UpsertGame wk None)];
        db := {| Pg.tables_of := Pg.tables_of (db st);
                 Pg.sequences_of :=
                   match Pg.integer wk with
                   | Ok _ =>
                       {| Pg.players_id_seq := Pg.players_id_seq (Pg.sequences_of (db st));
                          Pg.games_id_seq := Pg.games_id_seq (Pg.sequences_of (db st)) + 1;
                          Pg.player_stats_id_seq :=
                            Pg.player_stats_id_seq (Pg.sequences_of (db st)) |}
                   | Raise _ => Pg.sequences_of (db st)
                   end |};
        conn := Some {| Pg.status := Pg.Aborted;
                        Pg.working := Pg.tables_of (db st) |} |}).
Proof.
  intros Harn Hkey Hwk Hyr Hstats Hne Hall Hsec Hh Hd Hu Hp Hpo Hlogin.
  assert (default (Some 2024) (api_lambda.year event) = None) as Hnone
    by (rewrite Hyr; reflexivity).
  rewrite <- Hnone in Hstats.
  destruct (lambda_handler_save w event st secret_arn wk stats_data
              Harn Hkey Hwk Hstats Hne Hall) as (ps & _ & _ & ->).
  rewrite Hnone. unfold try_except.
  rewrite (save_to_database_connect _ _ _ _ _ _ _ _ _ _ _ _ Hsec Hh Hd Hu Hp Hpo).
  cbv zeta. cbn [effects db conn]. rewrite Hlogin.
  rewrite database_stage_null_year.
  unfold internal_error, ret, session. repeat rewrite <- app_assoc. reflexivity.
Qed.

Lemma lambda_handler_null_year_witness :
  exists calls,
    api_lambda.lambda_handler (sample_world [sample_line])
      {| api_lambda.week := Some 3; api_lambda.year := Some None |} initial_state
    = (Ok {| api_lambda.statusCode := 500;
             api_lambda.response_body := api_lambda.BodyError IntegrityError |},
       {| effects := HttpGet (PlayerGameStatsByWeek None 3) :: calls;
          db := {| Pg.tables_of := Pg.empty_tables;
                   Pg.sequences_of := {| Pg.players_id_seq := 0; Pg.games_id_seq := 1;
                                         Pg.player_stats_id_seq := 0 |} |};
          conn := Some {| Pg.status := Pg.Aborted; Pg.working := Pg.empty_tables |} |}).
Proof.
  eexists.
  rewrite (lambda_handler_null_year (sample_world [sample_line])
             {| api_lambda.week := Some 3; api_lambda.year := Some None |} initial_state
             "arn:secret" 3 [sample_line]
             {[ "host" := "db.internal"; "database" := "fantasy"; "username" := "app";
                "password" := "pw"; "port" := "5432" ]}
             "db.internal" "fantasy" "app" "pw" "5432"); try reflexivity.
  - apply week_supplied; [reflexivity | discriminate].
  - discriminate.
  - repeat constructor. eexists. vm_compute. reflexivity.
Defined.

End HandlerDatabase.

(** ** Runs of the persistence step: counts, constraints, and what is kept *)

Section PersistFacts.

Import Upsert PersistenceSpec PersistenceCount Schema.




Lemma player_key_inv (r : Pg.player_row) (name team : string) :
  player_key r = Some (name, team)
  <-> Pg.player_name r = name /\ Pg.player_team r = Some team.
Proof.
  unfold player_key. destruct (Pg.player_team r) as [t|]; cbn; split.
  - intros [= <- <-]. auto.
  - intros [-> [= ->]]. reflexivity.
  - discriminate.
  - intros [_ H]. discriminate.
Qed.

Lemma entry_key_inv (e : entry) (name team : string) :
  entry_key e = Some (name, team) <-> e_name e = name /\ e_team e = Some team.
Proof.
  unfold entry_key. destruct (e_team e) as [t|]; cbn; split.
  - intros [= <- <-]. auto.
  - intros [-> [= ->]]. reflexivity.
  - discriminate.
  - intros [_ H]. discriminate.
Qed.

(** The row that the player statement of an entry writes or finds has the
    name and the team of the entry. *)
Lemma player_op_hits (now : Pg.clock) (id : Z) (e : entry) (x : Pg.player_row) :
  hits player_key (player_op now id e) x = true ->
  Pg.player_name x = e_name e /\ Pg.player_team x = e_team e.
Proof.
  intros ([n t] & Hk & Hx)%hits_true. cbn [op_key player_op] in Hk.
  apply entry_key_inv in Hk as [<- Ht]. apply player_key_inv in Hx as [-> Hx].
  split; congruence.
Qed.


(** An id that a player statement of the batch returns is the id of a row
    with the name and the team of its entry. *)
Lemma returned_ids_rows (now : Pg.clock) (q : Z) (es : list entry)
    (rows : list Pg.player_row) (pid : Z) :
  pid ∈ returned_ids now q es rows ->
  exists e r, e ∈ es /\ r ∈ apply_all player_key (player_ops now q es) rows
              /\ Pg.player_id r = pid
              /\ Pg.player_name r = e_name e /\ Pg.player_team r = e_team e.
Proof.
  revert q rows. induction es as [|e es IH]; intros q rows;
    cbn [returned_ids player_ops apply_all fold_left].
  - intros H. inversion H.
  - fold (apply_all player_key (player_ops now (q + 1) es)
            (fst (apply player_key (player_op now (q + 1) e) rows))).
    pose proof (apply_returns_elem player_key (player_op now (q + 1) e) rows) as Hin.
    pose proof (apply_returns_cases player_key
                  (fun r => Pg.player_name r = e_name e /\ Pg.player_team r = e_team e)
                  (player_op now (q + 1) e) rows (conj eq_refl eq_refl)
                  (fun x Hx => player_op_hits now (q + 1) e x Hx)) as Hcase.
    destruct (apply player_key (player_op now (q + 1) e) rows) as [rows' r0].
    cbn [fst snd] in *.
    intros [->|H]%elem_of_cons.
    + destruct (apply_all_elem_kept player_key
                  (fun x => Pg.player_id x = Pg.player_id r0
                            /\ Pg.player_name x = e_name e /\ Pg.player_team x = e_team e)
                  (player_ops now (q + 1) es) rows' r0) as (r' & Hr' & Hid & Hn & Ht).
      * intros o x (id & e' & _ & ->)%player_ops_elem Hx. exact Hx.
      * exact Hin.
      * split; [reflexivity | exact Hcase].
      * exists e, r'. split; [left|]. auto.
    + destruct (IH (q + 1) rows' H) as (e' & r & He' & Hr & Hrest).
      exists e', r. split; [right; exact He' | auto].
Qed.



(** X11. The constraints of the schema (UNIQUE, PRIMARY KEY, REFERENCES, the
    column types, ids handed out by the sequences) are an invariant: they
    hold of the empty database, every run of the persistence step keeps
    them, whatever the records are, and so does every invocation of the
    handler, whatever the provider, the secret store and the server answer. *)
Theorem schema_invariant :
  well_formed Pg.empty_database
  /\ (forall d now week year batch,
        well_formed d -> well_formed (snd (persist d now week year batch)))
  /\ (forall w event st r st',
        sound st -> api_lambda.lambda_handler w event st = (r, st') -> sound st').
Proof.
  split; [apply well_formed_empty|]. split.
  - intros d now week year batch. apply persist_well_formed.
  - intros w event st r st'. apply preserves_lambda_handler.
Qed.

(** *** What a run keeps *)

Lemma find_key_none {R K : Type} `{EqDecision K} (key : R -> option K) (k : K)
    (rows : list R) :
  find_key key k rows = None -> k ∉ keys key rows.
Proof.
  intros Hf Hin. destruct (find_key_present key k rows Hin) as [r Hr]. congruence.
Qed.

(** A row with a key that is new has an id that is new. *)
Lemma apply_all_new_id {R K : Type} `{EqDecision K} (key : R -> option K) (id : R -> Z)
    (ops : list (Upsert.op R K)) (rows : list R) (r : R) (k : K) :
  Forall (op_ok key) ops ->
  (forall o x, o ∈ ops -> id (op_update o x) = id x) ->
  NoDup (map id (apply_all key ops rows)) ->
  r ∈ apply_all key ops rows -> key r = Some k -> k ∉ keys key rows ->
  id r ∉ map id rows.
Proof.
  intros Hok Hf Hids Hr Hk Hnew (r0 & Heq & Hr0)%list_elem_of_fmap.
  destruct (apply_all_elem_kept key (fun x => id x = id r0 /\ key x = key r0)
              ops rows r0) as (r' & Hr' & Hi & Hk'); [|exact Hr0|auto|].
  - intros o x Ho [H1 H2]. rewrite Forall_forall in Hok.
    split; [rewrite (Hf o x Ho); exact H1 | rewrite (update_key key o (Hok o Ho)); exact H2].
  - assert (r' = r) as ->.
    { apply (NoDup_map_elem_inj id (apply_all key ops rows)); [assumption..|congruence]. }
    apply Hnew. apply elem_of_keys. exists r0. split; [exact Hr0 | congruence].
Qed.

(** No statistics row refers to a player or a game that is not there. *)
Lemma referential_absent (t : Pg.tables) (pid gid : Z) :
  referential t ->
  pid ∉ map Pg.player_id (Pg.players t) \/ gid ∉ map Pg.game_id (Pg.games t) ->
  find_key stat_key (pid, gid) (Pg.player_stats t) = None.
Proof.
  intros Href Hout. apply find_key_absent.
  intros (s & Hs & Hk)%elem_of_keys.
  unfold referential in Href. rewrite Forall_forall in Href.
  destruct (Href s Hs) as [H1 H2]. injection Hk as Hp Hg.
  rewrite Hp in H1. rewrite Hg in H2. tauto.
Qed.

Lemma entries_of_batch (batch : list api_lambda.player) (es : list entry) (e : entry) :
  Forall2 (fun p e => coerce p = Ok e) batch es -> e ∈ es ->
  exists p, p ∈ batch /\ coerce p = Ok e.
Proof.
  intros Hes Hin. apply list_elem_of_lookup in Hin as [i Hi].
  destruct (Forall2_lookup_r _ _ _ _ _ Hes Hi) as (p & Hp & Hpe).
  exists p. split; [eapply list_elem_of_lookup_2; exact Hp | exact Hpe].
Qed.

(** The points stored for a player and a game are those stored before,
    unless the run is for that game and sends a record of that player. *)
Lemma stored_points_frame (d : Pg.database) (now : Pg.clock) (week year : Z)
    (batch : list api_lambda.player) (name team : string) (week' year' : Z) :
  well_formed d ->
  (week', year') <> (week, year)
  \/ (forall p e, p ∈ sent batch -> coerce p = Ok e ->
        (e_name e, e_team e) <> (name, Some team)) ->
  stored_points (tables_after d now week year batch) name team week' year'
  = stored_points (Pg.tables_of d) name team week' year'.
Proof.
  intros Hwf Hother.
  destruct (game_accepted week year && forallb accepted (sent batch)) eqn:Hacc;
    [|rewrite tables_after_rejected by exact Hacc; reflexivity].
  apply andb_prop in Hacc as [Hg Hb].
  destruct (accepted_entries_exist (sent batch) Hb) as [es Hes].
  pose proof (persist_well_formed d now week year batch Hwf) as HwfT.
  destruct (tables_after_accepted d now week year batch es Hg Hes) as (HP & HG & HS).
  change (Pg.tables_of (snd (persist d now week year batch)))
    with (tables_after d now week year batch) in HwfT.
  destruct Hwf as ((HuP & HuG & HuS) & _ & Href & _).
  set (T := tables_after d now week year batch) in *.
  assert (NoDup (map Pg.player_id (Pg.players T))
          /\ NoDup (map Pg.game_id (Pg.games T))) as [HkP HkG].
  { destruct HwfT as (_ & (H1 & H2 & _) & _). split; assumption. }
  set (pops := player_ops now (Pg.players_id_seq (Pg.sequences_of d)) es) in *.
  set (o := game_op now (Pg.games_id_seq (Pg.sequences_of d) + 1) week year) in *.
  set (grun := snd (apply game_key o (Pg.games (Pg.tables_of d)))) in *.
  set (sops := stat_ops now (Pg.player_stats_id_seq (Pg.sequences_of d))
                 (Pg.game_id grun)
                 (zip (returned_ids now (Pg.players_id_seq (Pg.sequences_of d)) es
                         (Pg.players (Pg.tables_of d)))
                    (map e_points es))) in *.
  assert (Forall (op_ok stat_key) sops) as Hsok by apply stat_ops_ok.
  assert (Forall (op_ok player_key) pops) as Hpok by apply player_ops_ok.
  assert (apply_all game_key [o] (Pg.games (Pg.tables_of d)) = Pg.games T) as HG1
    by (symmetry; exact HG).
  assert (Forall (op_ok game_key) [o]) as Hgok
    by (constructor; [apply game_op_ok | constructor]).
  (* the game row of the run *)
  assert (grun ∈ Pg.games T /\ game_key grun = Some (week, year)) as [Hgrun Hgrunk].
  { pose proof (apply_returns game_key o (Pg.games (Pg.tables_of d)) (week, year)
                  (game_op_ok _ _ _ _) eq_refl) as Hret.
    rewrite <- HG in Hret. apply find_key_elem in Hret. exact Hret. }
  (* the keys of the statistics operations *)
  assert (forall so, so ∈ sops ->
            exists e r, e ∈ es /\ r ∈ Pg.players T
                        /\ Pg.player_name r = e_name e /\ Pg.player_team r = e_team e
                        /\ op_key so = Some (Pg.player_id r, Pg.game_id grun)) as Hsops.
  { intros so (id & pid & v & Hpv & ->)%stat_ops_elem.
    apply elem_of_zip_l in Hpv.
    destruct (returned_ids_rows _ _ _ _ _ Hpv) as (e & r & He & Hr & <- & Hn & Ht).
    exists e, r. rewrite HP. auto. }
  (* a record of the player that the batch does not have *)
  assert ((forall p e, p ∈ sent batch -> coerce p = Ok e ->
             (e_name e, e_team e) <> (name, Some team)) ->
          forall e, e ∈ es -> (e_name e, e_team e) <> (name, Some team)) as Hentries.
  { intros Hplayer e He. destruct (entries_of_batch (sent batch) es e Hes He)
      as (p & Hp & Hpe). apply (Hplayer p e Hp Hpe). }
  unfold stored_points.
  destruct (decide ((week', year') = (week, year))) as [Heq|Hne].
  - (* the game of the run, a player that the run does not have *)
    destruct Hother as [Hne|Hplayer]; [contradiction|].
    specialize (Hentries Hplayer).
    assert (find_key player_key (name, team) (Pg.players T)
            = find_key player_key (name, team) (Pg.players (Pg.tables_of d))) as Hfp.
    { rewrite HP. apply apply_all_find_other; [exact Hpok|].
      intros po (id & e & He & ->)%player_ops_elem. cbn [op_key player_op].
      intros [Hn Ht]%entry_key_inv. apply (Hentries e He). congruence. }
    rewrite Hfp.
    destruct (find_key player_key (name, team) (Pg.players (Pg.tables_of d)))
      as [p|] eqn:Hp; [|reflexivity].
    assert (p ∈ Pg.players T /\ player_key p = Some (name, team)) as [HpT Hpk].
    { assert (find_key player_key (name, team) (Pg.players T) = Some p) as HpT
        by congruence.
      apply find_key_elem in HpT. exact HpT. }
    assert (forall gid', find_key stat_key (Pg.player_id p, gid') (Pg.player_stats T)
                         = find_key stat_key (Pg.player_id p, gid')
                             (Pg.player_stats (Pg.tables_of d))) as Hfs.
    { intros gid'. rewrite HS. apply apply_all_find_other; [exact Hsok|].
      intros so Hso Hkey.
      destruct (Hsops so Hso) as (e & r & He & Hr & Hrn & Hrt & Hkey').
      rewrite Hkey' in Hkey. injection Hkey as Hid _.
      assert (r = p) as ->.
      { apply (NoDup_map_elem_inj Pg.player_id (Pg.players T)); assumption. }
      apply player_key_inv in Hpk as [Hpn Hpt].
      apply (Hentries e He). congruence. }
    destruct (find_key game_key (week', year') (Pg.games (Pg.tables_of d)))
      as [g|] eqn:Hfg.
    + destruct (apply_all_find_kept game_key Pg.game_id [o] _ _ g Hgok
                  (fun b x Hb => ltac:(apply list_elem_of_singleton in Hb as ->; reflexivity))
                  Hfg) as (g' & Hg' & Hid).
      rewrite HG1 in Hg'. rewrite Hg', Hid. rewrite Hfs. reflexivity.
    + assert (find_key game_key (week', year') (Pg.games T) = Some grun) as ->.
      { rewrite Heq, HG.
        apply (apply_returns game_key o _ (week, year) (game_op_ok _ _ _ _) eq_refl). }
      rewrite Hfs. rewrite referential_absent; [reflexivity | exact Href|].
      right. rewrite <- HG1 in Hgrun, HkG.
      apply (apply_all_new_id game_key Pg.game_id [o] _ grun (week, year) Hgok);
        try assumption.
      * intros b x ->%list_elem_of_singleton. reflexivity.
      * rewrite <- Heq. apply find_key_none, Hfg.
  - (* another game *)
    assert (find_key game_key (week', year') (Pg.games T)
            = find_key game_key (week', year') (Pg.games (Pg.tables_of d))) as Hfg.
    { rewrite HG. apply apply_find_other; [apply game_op_ok|].
      cbn [op_key o game_op]. congruence. }
    rewrite Hfg.
    destruct (find_key game_key (week', year') (Pg.games (Pg.tables_of d)))
      as [g|] eqn:Hg0.
    2:{ destruct (find_key player_key (name, team) (Pg.players T));
        destruct (find_key player_key (name, team) (Pg.players (Pg.tables_of d)));
        reflexivity. }
    assert (g ∈ Pg.games T /\ game_key g = Some (week', year')) as [HgT Hgk].
    { assert (find_key game_key (week', year') (Pg.games T) = Some g) as HgT
        by congruence.
      apply find_key_elem in HgT. exact HgT. }
    assert (Pg.game_id grun <> Pg.game_id g) as Hgid.
    { intros Hid. apply Hne.
      assert (grun = g) as Hsame
        by (apply (NoDup_map_elem_inj Pg.game_id (Pg.games T)); assumption).
      rewrite Hsame in Hgrunk. congruence. }
    assert (forall pid, find_key stat_key (pid, Pg.game_id g) (Pg.player_stats T)
                        = find_key stat_key (pid, Pg.game_id g)
                            (Pg.player_stats (Pg.tables_of d))) as Hfs.
    { intros pid. rewrite HS. apply apply_all_find_other; [exact Hsok|].
      intros so Hso Hkey.
      destruct (Hsops so Hso) as (e & r & _ & _ & _ & _ & Hkey').
      rewrite Hkey' in Hkey. injection Hkey as _ Hid. contradiction. }
    destruct (find_key player_key (name, team) (Pg.players (Pg.tables_of d)))
      as [p|] eqn:Hp.
    + destruct (apply_all_find_kept player_key Pg.player_id pops _ _ p Hpok
                  (fun b x Hb => player_ops_update_id _ _ _ b x Hb) Hp)
        as (p' & Hp' & Hid).
      rewrite <- HP in Hp'. rewrite Hp', Hid, Hfs. reflexivity.
    + destruct (find_key player_key (name, team) (Pg.players T)) as [pn|] eqn:Hpn;
        [|reflexivity].
      rewrite Hfs. rewrite referential_absent; [reflexivity | exact Href|].
      left. apply find_key_elem in Hpn as [HpnT Hpnk].
      rewrite HP in HpnT, HkP.
      apply (apply_all_new_id player_key Pg.player_id pops _ pn (name, team) Hpok);
        try assumption.
      * intros b x Hbin. apply (player_ops_update_id _ _ _ b x Hbin).
      * apply find_key_none, Hp.
Qed.

(** The row of a player (name, team) keeps its id, its name, its team and
    the time of its creation. *)
Lemma player_row_kept (d : Pg.database) (now : Pg.clock) (week year : Z)
    (batch : list api_lambda.player) (k : string * string) (r : Pg.player_row) :
  find_key player_key k (Pg.players (Pg.tables_of d)) = Some r ->
  exists r',
    find_key player_key k (Pg.players (tables_after d now week year batch)) = Some r'
    /\ (Pg.player_id r', Pg.player_name r', Pg.player_team r', Pg.player_created_at r')
       = (Pg.player_id r, Pg.player_name r, Pg.player_team r, Pg.player_created_at r).
Proof.
  intros Hr.
  destruct (game_accepted week year && forallb accepted (sent batch)) eqn:Hacc;
    [|rewrite tables_after_rejected by exact Hacc; eauto].
  apply andb_prop in Hacc as [Hg Hb].
  destruct (accepted_entries_exist (sent batch) Hb) as [es Hes].
  destruct (tables_after_accepted d now week year batch es Hg Hes) as (-> & _ & _).
  apply (apply_all_find_kept player_key
           (fun r => (Pg.player_id r, Pg.player_name r, Pg.player_team r,
                      Pg.player_created_at r))
           _ _ k r (player_ops_ok _ _ _)); [|exact Hr].
  intros o x (id & e & _ & ->)%player_ops_elem. reflexivity.
Qed.

(** The same for every row of the players table, with a team or without:
    a row with its id, name, team and creation time is there after the
    run. *)
Lemma player_row_there (d : Pg.database) (now : Pg.clock) (week year : Z)
    (batch : list api_lambda.player) (r : Pg.player_row) :
  r ∈ Pg.players (Pg.tables_of d) ->
  exists r',
    r' ∈ Pg.players (tables_after d now week year batch)
    /\ (Pg.player_id r', Pg.player_name r', Pg.player_team r', Pg.player_created_at r')
       = (Pg.player_id r, Pg.player_name r, Pg.player_team r, Pg.player_created_at r).
Proof.
  intros Hr.
  destruct (game_accepted week year && forallb accepted (sent batch)) eqn:Hacc;
    [|rewrite tables_after_rejected by exact Hacc; eauto].
  apply andb_prop in Hacc as [Hg Hb].
  destruct (accepted_entries_exist (sent batch) Hb) as [es Hes].
  destruct (tables_after_accepted d now week year batch es Hg Hes) as (-> & _ & _).
  apply (apply_all_elem_kept player_key
           (fun x => (Pg.player_id x, Pg.player_name x, Pg.player_team x,
                      Pg.player_created_at x)
                     = (Pg.player_id r, Pg.player_name r, Pg.player_team r,
                        Pg.player_created_at r))
           _ _ r); [|exact Hr|reflexivity].
  intros o x (id & e & _ & ->)%player_ops_elem Hx. exact Hx.
Qed.

(** The same for the row of a game; its date is kept by the runs for other
    games. *)
Lemma game_row_kept (d : Pg.database) (now : Pg.clock) (week year : Z)
    (batch : list api_lambda.player) (k : Z * Z) (g : Pg.game_row) :
  find_key game_key k (Pg.games (Pg.tables_of d)) = Some g ->
  exists g',
    find_key game_key k (Pg.games (tables_after d now week year batch)) = Some g'
    /\ (Pg.game_id g', Pg.game_week g', Pg.game_year g', Pg.game_created_at g')
       = (Pg.game_id g, Pg.game_week g, Pg.game_year g, Pg.game_created_at g)
    /\ (k <> (week, year) -> g' = g).
Proof.
  intros Hg0.
  destruct (game_accepted week year && forallb accepted (sent batch)) eqn:Hacc;
    [|rewrite tables_after_rejected by exact Hacc; eauto].
  apply andb_prop in Hacc as [Hg Hb].
  destruct (accepted_entries_exist (sent batch) Hb) as [es Hes].
  destruct (tables_after_accepted d now week year batch es Hg Hes) as (_ & -> & _).
  set (o := game_op now (Pg.games_id_seq (Pg.sequences_of d) + 1) week year).
  destruct (apply_all_find_kept game_key
              (fun g => (Pg.game_id g, Pg.game_week g, Pg.game_year g,
                         Pg.game_created_at g))
              [o] (Pg.games (Pg.tables_of d)) k g) as (g' & Hg' & Hkept); [| |exact Hg0|].
  - constructor; [apply game_op_ok | constructor].
  - intros b x ->%list_elem_of_singleton. reflexivity.
  - exists g'. split; [exact Hg'|]. split; [exact Hkept|].
    intros Hne. cbn [apply_all fold_left] in Hg'.
    rewrite (apply_find_other game_key o _ k (game_op_ok _ _ _ _)) in Hg'
      by (cbn [op_key o game_op]; congruence).
    congruence.
Qed.

(** After a run that commits, the game of the run has its row, dated with
    the date of the run. *)
Lemma game_row_dated (d : Pg.database) (now : Pg.clock) (week year : Z)
    (batch : list api_lambda.player) :
  game_accepted week year = true -> forallb accepted (sent batch) = true ->
  exists g,
    find_key game_key (week, year) (Pg.games (tables_after d now week year batch)) = Some g
    /\ Pg.game_date g = Pg.current_date now.
Proof.
  intros Hg Hb. destruct (accepted_entries_exist (sent batch) Hb) as [es Hes].
  destruct (tables_after_accepted d now week year batch es Hg Hes) as (_ & -> & _).
  set (o := game_op now (Pg.games_id_seq (Pg.sequences_of d) + 1) week year).
  exists (snd (apply game_key o (Pg.games (Pg.tables_of d)))). split.
  - apply (apply_returns game_key o _ (week, year) (game_op_ok _ _ _ _) eq_refl).
  - rewrite apply_find_same. cbn [op_key o game_op].
    destruct (find_key game_key (week, year) (Pg.games (Pg.tables_of d))); reflexivity.
Qed.

End PersistFacts.

(** ** What a run leaves as it was *)

Section PersistKept.

Import Upsert PersistenceSpec PersistenceCount Schema.

(** X12. On a database that satisfies the constraints of the schema, a run of
    the persistence step changes the points stored for a player and a game
    only if it is a run for that game and sends a record of that player:
    the points of every other game, and of every player that no record sent
    names, are what they were (stored or not). *)
Theorem stored_points_kept (d : Pg.database) (now : Pg.clock) (week year : Z)
    (batch : list api_lambda.player) (name team : string) (week' year' : Z) :
  well_formed d ->
  (week', year') <> (week, year)
  \/ (forall p e, p ∈ sent batch -> coerce p = Ok e ->
        (e_name e, e_team e) <> (name, Some team)) ->
  stored_points (tables_after d now week year batch) name team week' year'
  = stored_points (Pg.tables_of d) name team week' year'.
Proof. apply stored_points_frame. Qed.

Lemma stored_points_kept_witness :
  let d1 := snd (persist Pg.empty_database sample_clock 1 2024 [valid_a; valid_b]) in
  let T2 := tables_after d1 later_clock 2 2024 [valid_a_moved] in
  stored_points T2 "Patrick Mahomes" "KC" 1 2024 = Some (PyFloat 18)
  /\ stored_points T2 "Patrick Mahomes" "KC" 2 2024 = Some (PyFloat 7.5)
  /\ stored_points T2 "Josh Allen" "BUF" 2 2024 = None.
Proof.
  cbv zeta.
  assert (well_formed (snd (persist Pg.empty_database sample_clock 1 2024
                              [valid_a; valid_b]))) as Hwf
    by apply persist_well_formed, well_formed_empty.
  split; [|split].
  - rewrite (stored_points_kept _ later_clock 2 2024 [valid_a_moved]
               "Patrick Mahomes" "KC" 1 2024 Hwf); [vm_compute; reflexivity|].
    left. discriminate.
  - vm_compute. reflexivity.
  - rewrite (stored_points_kept _ later_clock 2 2024 [valid_a_moved]
               "Josh Allen" "BUF" 2 2024 Hwf); [vm_compute; reflexivity|].
    right. intros p e Hp. vm_compute in Hp. apply list_elem_of_singleton in Hp as ->.
    intros [= <-]. discriminate.
Defined.

Lemma stat_row_kept (d : Pg.database) (now : Pg.clock) (week year : Z)
    (batch : list api_lambda.player) (k : Z * Z) (s : Pg.stat_row) :
  find_key stat_key k (Pg.player_stats (Pg.tables_of d)) = Some s ->
  exists s',
    find_key stat_key k (Pg.player_stats (tables_after d now week year batch)) = Some s'
    /\ (Pg.stat_id s', Pg.stat_player_id s', Pg.stat_game_id s')
       = (Pg.stat_id s, Pg.stat_player_id s, Pg.stat_game_id s).
Proof.
  intros Hs.
  destruct (game_accepted week year && forallb accepted (sent batch)) eqn:Hacc;
    [|rewrite tables_after_rejected by exact Hacc; eauto].
  apply andb_prop in Hacc as [Hg Hb].
  destruct (accepted_entries_exist (sent batch) Hb) as [es Hes].
  destruct (tables_after_accepted d now week year batch es Hg Hes) as (_ & _ & ->).
  apply (apply_all_find_kept stat_key
           (fun s => (Pg.stat_id s, Pg.stat_player_id s, Pg.stat_game_id s))
           _ _ k s (stat_ops_ok _ _ _ _)); [|exact Hs].
  intros o x (id & pid & v & _ & ->)%stat_ops_elem. reflexivity.
Qed.

(** X13. No run of the persistence step deletes a row or gives it another
    id: the row of a player keeps its id, name, team and creation time (a
    run changes its position at most), the row of a game keeps its id, week,
    year and creation time, and is not touched at all by the runs for other
    games, and a statistics row keeps its id, player and game.  This holds
    of the rows of players without a team too. *)
Theorem rows_kept (d : Pg.database) (now : Pg.clock) (week year : Z)
    (batch : list api_lambda.player) :
  let T := tables_after d now week year batch in
  (forall k r,
     find_key player_key k (Pg.players (Pg.tables_of d)) = Some r ->
     exists r',
       find_key player_key k (Pg.players T) = Some r'
       /\ (Pg.player_id r', Pg.player_name r', Pg.player_team r', Pg.player_created_at r')
          = (Pg.player_id r, Pg.player_name r, Pg.player_team r, Pg.player_created_at r))
  /\ (forall k g,
        find_key game_key k (Pg.games (Pg.tables_of d)) = Some g ->
        exists g',
          find_key game_key k (Pg.games T) = Some g'
          /\ (Pg.game_id g', Pg.game_week g', Pg.game_year g', Pg.game_created_at g')
             = (Pg.game_id g, Pg.game_week g, Pg.game_year g, Pg.game_created_at g)
          /\ (k <> (week, year) -> g' = g))
  /\ (forall k s,
        find_key stat_key k (Pg.player_stats (Pg.tables_of d)) = Some s ->
        exists s',
          find_key stat_key k (Pg.player_stats T) = Some s'
          /\ (Pg.stat_id s', Pg.stat_player_id s', Pg.stat_game_id s')
             = (Pg.stat_id s, Pg.stat_player_id s, Pg.stat_game_id s))
  /\ (forall r,
        r ∈ Pg.players (Pg.tables_of d) ->
        exists r',
          r' ∈ Pg.players T
          /\ (Pg.player_id r', Pg.player_name r', Pg.player_team r',
              Pg.player_created_at r')
             = (Pg.player_id r, Pg.player_name r, Pg.player_team r,
                Pg.player_created_at r)).
Proof.
  cbv zeta. split; [|split; [|split]].
  - intros k r. apply player_row_kept.
  - intros k g. apply game_row_kept.
  - intros k s. apply stat_row_kept.
  - intros r. apply player_row_there.
Qed.

(** X14. After a run that commits (the week and the year are INTEGER values
    and every record that is sent is accepted), the game of the run has its
    row, and the
    [game_date] of the row is the date of the run: the column holds the date
    of the last run for the game, not a date of the game. *)
Theorem game_date_is_run_date (d : Pg.database) (now : Pg.clock) (week year : Z)
    (batch : list api_lambda.player) :
  game_accepted week year = true -> forallb accepted (sent batch) = true ->
  exists g,
    find_key game_key (week, year) (Pg.games (tables_after d now week year batch)) = Some g
    /\ Pg.game_date g = Pg.current_date now.
Proof. apply game_row_dated. Qed.

Lemma game_date_is_run_date_witness :
  let d1 := snd (persist Pg.empty_database sample_clock 1 2024 [valid_a]) in
  exists g,
    find_key game_key (1, 2024) (Pg.games (tables_after d1 later_clock 1 2024 [valid_b]))
    = Some g
    /\ Pg.game_date g = Pg.current_date later_clock
    /\ Pg.game_created_at g = Pg.current_timestamp sample_clock.
Proof.
  cbv zeta.
  destruct (game_date_is_run_date
              (snd (persist Pg.empty_database sample_clock 1 2024 [valid_a]))
              later_clock 1 2024 [valid_b] eq_refl eq_refl) as (g & Hg & Hdate).
  exists g. split; [exact Hg|]. split; [exact Hdate|].
  vm_compute in Hg. injection Hg as <-. reflexivity.
Defined.

End PersistKept.

(** ** The normalizers: lists in pieces, and the fields of the records *)

Section NormalizerFacts.

Import scraper_client.

(** The loop only appends to the list that it is given. *)
Lemma api_format_loop_acc (todo : list provider_record) (acc : list api_lambda.player) :
  api_lambda.format_loop todo acc
  = let* new := api_lambda.format_loop todo [] in Ok (acc ++ new).
Proof.
  revert acc. induction todo as [|stat todo IH]; intros acc; cbn [api_lambda.format_loop].
  - cbn [bind]. rewrite app_nil_r. reflexivity.
  - destruct (api_lambda.calculate_fantasy_points stat) as [fp|e]; cbn [bind];
      [|reflexivity].
    match goal with |- api_lambda.format_loop todo (acc ++ [?p]) = _ => set (pl := p) end.
    rewrite (IH (acc ++ [pl])), (IH ([] ++ [pl])).
    destruct (api_lambda.format_loop todo []) as [new|e]; cbn [bind app]; [|reflexivity].
    rewrite <- app_assoc. reflexivity.
Qed.

Lemma api_format_loop_app (xs ys : list provider_record) :
  api_lambda.format_loop (xs ++ ys) []
  = let* a := api_lambda.format_loop xs [] in
    let* b := api_lambda.format_loop ys [] in
    Ok (a ++ b).
Proof.
  induction xs as [|stat xs IH]; cbn [app api_lambda.format_loop].
  - cbn [bind]. destruct (api_lambda.format_loop ys []); reflexivity.
  - destruct (api_lambda.calculate_fantasy_points stat) as [fp|e]; cbn [bind];
      [|reflexivity].
    rewrite (api_format_loop_acc (xs ++ ys)), (api_format_loop_acc xs), IH.
    destruct (api_lambda.format_loop xs []) as [a|e]; cbn [bind]; [|reflexivity].
    destruct (api_lambda.format_loop ys []) as [b|e]; cbn [bind]; [|reflexivity].
    rewrite app_assoc. reflexivity.
Qed.

Lemma scraper_format_loop_acc (self : sportsdata_scraper.SportsDataScraper)
    (week : option Z) (year : Z) (todo : list provider_record)
    (acc : list sportsdata_scraper.player) :
  sportsdata_scraper.format_loop self week year todo acc
  = let* new := sportsdata_scraper.format_loop self week year todo [] in Ok (acc ++ new).
Proof.
  revert acc. induction todo as [|stat todo IH]; intros acc;
    cbn [sportsdata_scraper.format_loop].
  - cbn [bind]. rewrite app_nil_r. reflexivity.
  - destruct (sportsdata_scraper.calculate_fantasy_points self stat) as [fp|e];
      cbn [bind]; [|reflexivity].
    match goal with
    | |- sportsdata_scraper.format_loop _ _ _ todo (acc ++ [?p]) = _ => set (pl := p)
    end.
    rewrite (IH (acc ++ [pl])), (IH ([] ++ [pl])).
    destruct (sportsdata_scraper.format_loop self week year todo []) as [new|e];
      cbn [bind app]; [|reflexivity].
    rewrite <- app_assoc. reflexivity.
Qed.

Lemma scraper_format_loop_app (self : sportsdata_scraper.SportsDataScraper)
    (week : option Z) (year : Z) (xs ys : list provider_record) :
  sportsdata_scraper.format_loop self week year (xs ++ ys) []
  = let* a := sportsdata_scraper.format_loop self week year xs [] in
    let* b := sportsdata_scraper.format_loop self week year ys [] in
    Ok (a ++ b).
Proof.
  induction xs as [|stat xs IH]; cbn [app sportsdata_scraper.format_loop].
  - cbn [bind]. destruct (sportsdata_scraper.format_loop self week year ys []); reflexivity.
  - destruct (sportsdata_scraper.calculate_fantasy_points self stat) as [fp|e];
      cbn [bind]; [|reflexivity].
    rewrite (scraper_format_loop_acc self week year (xs ++ ys)),
      (scraper_format_loop_acc self week year xs), IH.
    destruct (sportsdata_scraper.format_loop self week year xs []) as [a|e];
      cbn [bind]; [|reflexivity].
    destruct (sportsdata_scraper.format_loop self week year ys []) as [b|e];
      cbn [bind]; [|reflexivity].
    rewrite app_assoc. reflexivity.
Qed.

(** X2. Both normalizers work record by record: the records of a list in two
    pieces are the records of the first piece followed by those of the
    second, and the exception is that of the first piece when it raises,
    otherwise that of the second. *)
Theorem format_player_data_concatenation (self : sportsdata_scraper.SportsDataScraper)
    (week : option Z) (year : Z) (xs ys : list provider_record) :
  api_lambda.format_loop (xs ++ ys) []
  = (let* a := api_lambda.format_loop xs [] in
     let* b := api_lambda.format_loop ys [] in
     Ok (a ++ b))
  /\ sportsdata_scraper.format_player_data self (xs ++ ys) week year
     = (let* a := sportsdata_scraper.format_player_data self xs week year in
        let* b := sportsdata_scraper.format_player_data self ys week year in
        Ok (a ++ b)).
Proof.
  split; [apply api_format_loop_app | apply scraper_format_loop_app].
Qed.

Lemma Forall2_right {A B : Type} (R : A -> B -> Prop) (P : B -> Prop) (l : list A)
    (k : list B) :
  Forall2 R l k -> (forall x y, R x y -> P y) -> Forall P k.
Proof. induction 1; intros HP; constructor; eauto. Qed.

(** The fields that [format_player_data] gives to each record. *)
Lemma scraper_format_loop_fields (self : sportsdata_scraper.SportsDataScraper)
    (week : option Z) (year : Z) (todo : list provider_record)
    (acc players : list sportsdata_scraper.player) :
  sportsdata_scraper.format_loop self week year todo acc = Ok players ->
  exists new,
    players = acc ++ new
    /\ Forall2
         (fun stat p =>
            sportsdata_scraper.week p = sportsdata_scraper.week_or week stat
            /\ sportsdata_scraper.year p = year
            /\ sportsdata_scraper.source_url p = "sportsdata.io"
            /\ Forall (fun kK : string * string =>
                         sportsdata_scraper.stats p !! fst kK
                         = Some (get_num stat (snd kK) (PyInt 0)))
                 raw_statistics)
         todo new.
Proof.
  revert acc. induction todo as [|stat todo IH]; intros acc;
    cbn [sportsdata_scraper.format_loop].
  - intros [= <-]. exists []. rewrite app_nil_r. split; [reflexivity | constructor].
  - destruct (sportsdata_scraper.calculate_fantasy_points self stat) as [fp|e];
      cbn [bind]; [|discriminate].
    match goal with
    | |- sportsdata_scraper.format_loop _ _ _ todo (acc ++ [?p]) = _ -> _ => set (pl := p)
    end.
    intros H. destruct (IH _ H) as (new & -> & Hnew). exists (pl :: new).
    split; [rewrite <- app_assoc; reflexivity|].
    constructor; [|exact Hnew].
    split; [reflexivity|]. split; [reflexivity|]. split; [reflexivity|].
    unfold raw_statistics, pl. cbn [sportsdata_scraper.stats].
    repeat constructor; cbn [fst snd];
      repeat (rewrite lookup_insert_ne by discriminate); apply lookup_insert_eq.
Qed.

Lemma scraper_format_loop_week_0 (self : sportsdata_scraper.SportsDataScraper)
    (year : Z) (todo : list provider_record) (acc : list sportsdata_scraper.player) :
  sportsdata_scraper.format_loop self (Some 0) year todo acc
  = sportsdata_scraper.format_loop self None year todo acc.
Proof.
  revert acc. induction todo as [|stat todo IH]; intros acc;
    cbn [sportsdata_scraper.format_loop]; [reflexivity|].
  destruct (sportsdata_scraper.calculate_fantasy_points self stat) as [fp|e];
    cbn [bind]; [apply IH | reflexivity].
Qed.

(** X3. The records of [format_player_data]: each carries the year given and
    the source 'sportsdata.io', and the nine statistics of its input record
    under their own names, 0 for a statistic that is missing.  A week that
    is given and is not 0 is the week of every record; with no week, or with
    week 0, every record has the Week of its input record, 1 when that is
    missing, so that [week=0] is the same as no week. *)
Theorem format_player_data_fields (self : sportsdata_scraper.SportsDataScraper)
    (stats_data : list provider_record) (week : option Z) (year : Z)
    (players : list sportsdata_scraper.player) :
  sportsdata_scraper.format_player_data self stats_data week year = Ok players ->
  Forall2
    (fun stat p =>
       sportsdata_scraper.year p = year
       /\ sportsdata_scraper.source_url p = "sportsdata.io"
       /\ Forall (fun kK : string * string =>
                    sportsdata_scraper.stats p !! fst kK
                    = Some (default (PyInt 0) (num_members stat !! snd kK)))
            raw_statistics)
    stats_data players
  /\ (forall v, week = Some v -> v <> 0 ->
        Forall (fun p => sportsdata_scraper.week p = PyInt v) players)
  /\ (week = None \/ week = Some 0 ->
      Forall2 (fun stat p =>
                 sportsdata_scraper.week p = default (PyInt 1) (num_members stat !! "Week"))
        stats_data players)
  /\ sportsdata_scraper.format_player_data self stats_data (Some 0) year
     = sportsdata_scraper.format_player_data self stats_data None year.
Proof.
  intros H. unfold sportsdata_scraper.format_player_data in H.
  destruct (scraper_format_loop_fields self week year stats_data [] players H)
    as (new & -> & Hnew). cbn [app].
  split; [|split; [|split]].
  - eapply Forall2_impl; [exact Hnew|]. cbn beta.
    intros stat p (_ & Hy & Hs & Hraw). auto.
  - intros v -> Hv. apply (Forall2_right _ _ _ _ Hnew).
    intros stat p (Hw & _). rewrite Hw. cbn. unfold PyNum.falsy.
    destruct (Z.eqb_spec v 0); [contradiction | reflexivity].
  - intros Hweek. eapply Forall2_impl; [exact Hnew|]. cbn beta.
    intros stat p (Hw & _). rewrite Hw. destruct Hweek as [-> | ->]; reflexivity.
  - apply scraper_format_loop_week_0.
Qed.

Lemma format_player_data_fields_witness :
  exists players,
    sportsdata_scraper.format_player_data sample_scraper [sample_line; sample_line']
      (Some 0) 2023 = Ok players
    /\ map sportsdata_scraper.week players = [PyInt 3; PyInt 1]
    /\ Forall (fun p => sportsdata_scraper.year p = 2023) players.
Proof.
  destruct (sportsdata_scraper.format_player_data sample_scraper
              [sample_line; sample_line'] (Some 0) 2023) as [players|e] eqn:H;
    [|vm_compute in H; discriminate].
  exists players. split; [reflexivity|].
  destruct (format_player_data_fields sample_scraper [sample_line; sample_line']
              (Some 0) 2023 players H) as (Hf & _ & Hw & _).
  specialize (Hw (or_intror eq_refl)). split.
  - apply Forall2_cons_inv_l in Hw as (p1 & l1 & H1 & Hw & ->).
    apply Forall2_cons_inv_l in Hw as (p2 & l2 & H2 & Hw & ->).
    apply Forall2_nil_inv_l in Hw as ->. cbn [map]. rewrite H1, H2. reflexivity.
  - apply (Forall2_right _ _ _ _ Hf). intros stat p (Hy & _). exact Hy.
Defined.

End NormalizerFacts.

(** ** The scraper: its constructor and its requests *)

Section Scraper.

Import HandlerSpec HandlerStages scraper_client.

(** X15. The constructor of the scraper takes the key that it is given when
    that is a non-empty string, and otherwise the key of the environment; it
    raises ValueError exactly when both are missing or empty.  Without an
    argument it raises in the environments in which the handler answers 400.
    The object that it returns has a non-empty key and the provider's base
    URL. *)
Theorem scraper_init (environ : gmap string string) (api_key : option string) :
  match __init__ environ api_key with
  | inl self =>
      sportsdata_scraper.api_key self <> ""
      /\ sportsdata_scraper.base_url self = "https://api.sportsdata.io/v3/nfl"
      /\ ((api_lambda.no_key api_key = false
           /\ api_key = Some (sportsdata_scraper.api_key self))
          \/ (api_lambda.no_key api_key = true
              /\ environ !! "SPORTSDATA_API_KEY" = Some (sportsdata_scraper.api_key self)))
  | inr _ =>
      api_lambda.no_key api_key = true
      /\ api_lambda.no_key (environ !! "SPORTSDATA_API_KEY") = true
  end.
Proof.
  unfold __init__, or_else, api_lambda.no_key. cbv zeta.
  destruct api_key as [k|].
  - case_bool_decide as Hk.
    + destruct (environ !! "SPORTSDATA_API_KEY") as [k'|]; [|auto].
      case_bool_decide as Hk'; [auto|].
      cbn. split; [exact Hk'|]. split; [reflexivity|]. right. auto.
    + rewrite bool_decide_eq_false_2 by exact Hk.
      cbn. split; [exact Hk|]. split; [reflexivity|]. left. auto.
  - destruct (environ !! "SPORTSDATA_API_KEY") as [k'|]; [|auto].
    case_bool_decide as Hk'; [auto|].
    cbn. split; [exact Hk'|]. split; [reflexivity|]. right. auto.
Qed.

(** The statistics URL of a season and a week. *)
Lemma get_fantasy_stats_request (P : provider) (self : sportsdata_scraper.SportsDataScraper)
    (season week : Z) (log : list string) :
  get_fantasy_stats P self season (Some week) log
  = let url := if week =? 0 then season_stats_url self season
               else week_stats_url self season week in
    (get_records P url, log ++ [url]).
Proof. reflexivity. Qed.

Lemma get_fantasy_data_week (P : provider) (self : sportsdata_scraper.SportsDataScraper)
    (season w : Z) (k : Z -> R (list sportsdata_scraper.player)) (log : list string) :
  bindR (get_fantasy_stats P self season (Some w))
    (fun stats_data l =>
       (sportsdata_scraper.format_player_data self stats_data (Some w) season, l)) log
  = let url := if w =? 0 then season_stats_url self season
               else week_stats_url self season w in
    (let* stats_data := get_records P url in
     sportsdata_scraper.format_player_data self stats_data (Some w) season,
     log ++ [url]).
Proof.
  unfold bindR. rewrite get_fantasy_stats_request. cbv zeta.
  destruct (get_records P _); reflexivity.
Qed.

(** With no week given, and an answer to the current-week query. *)
Lemma get_fantasy_data_current (P : provider)
    (self : sportsdata_scraper.SportsDataScraper) (season : Z) (week : option Z)
    (log : list string) (current_week_data : gmap string Z) :
  api_lambda.no_week week = true ->
  get_object P (current_week_url self) = Ok current_week_data ->
  get_fantasy_data P self season week log
  = ((let* stats_data :=
        get_records P
          (if default 1 (current_week_data !! "Week") =? 0
           then season_stats_url self season
           else week_stats_url self season (default 1 (current_week_data !! "Week"))) in
      sportsdata_scraper.format_player_data self stats_data
        (Some (default 1 (current_week_data !! "Week"))) season),
     log ++ [current_week_url self;
             if default 1 (current_week_data !! "Week") =? 0
             then season_stats_url self season
             else week_stats_url self season (default 1 (current_week_data !! "Week"))]).
Proof.
  intros Hno Hcwd. unfold get_fantasy_data. cbv zeta.
  assert (forall k : Z -> R (list sportsdata_scraper.player),
            bindR (bindR (get_current_week P self season)
                     (fun cwd => retR (default 1 (cwd !! "Week")))) k log
            = k (default 1 (current_week_data !! "Week"))
                (log ++ [current_week_url self])) as Hcur.
  { intros k. unfold bindR, get_current_week, requests_get.
    fold (current_week_url self). rewrite Hcwd. reflexivity. }
  destruct week as [w|].
  - cbn in Hno. rewrite Hno, Hcur.
    rewrite (get_fantasy_data_week P self season _ (fun _ => retR [])).
    cbv zeta. rewrite <- app_assoc. reflexivity.
  - rewrite Hcur.
    rewrite (get_fantasy_data_week P self season _ (fun _ => retR [])).
    cbv zeta. rewrite <- app_assoc. reflexivity.
Qed.

(** X16. The requests of [get_fantasy_data].  With a week that is not 0 it
    makes one request, for the statistics of the season and the week.  With
    no week, or week 0, it first asks for the current week: when that
    request fails, its exception is raised and no other request is made;
    otherwise the week is the Week of the answer, 1 when the answer has
    none, and the statistics are requested for it, those of the whole season
    when that week is 0.  An exception of the statistics request is raised
    as it is; otherwise the result is [format_player_data] of the answer. *)
Theorem get_fantasy_data_requests (P : provider)
    (self : sportsdata_scraper.SportsDataScraper) (season : Z) (week : option Z)
    (log : list string) :
  let stats (w : Z) :=
    if w =? 0 then season_stats_url self season else week_stats_url self season w in
  let formatted (w : Z) :=
    let* stats_data := get_records P (stats w) in
    sportsdata_scraper.format_player_data self stats_data (Some w) season in
  (forall w, week = Some w -> w <> 0 ->
     get_fantasy_data P self season week log = (formatted w, log ++ [stats w]))
  /\ (api_lambda.no_week week = true ->
      forall e, get_object P (current_week_url self) = Raise e ->
        get_fantasy_data P self season week log
        = (Raise e, log ++ [current_week_url self]))
  /\ (api_lambda.no_week week = true ->
      forall current_week_data,
        get_object P (current_week_url self) = Ok current_week_data ->
        let w := default 1 (current_week_data !! "Week") in
        get_fantasy_data P self season week log
        = (formatted w, log ++ [current_week_url self; stats w])).
Proof.
  cbv zeta. split; [|split].
  - intros w -> Hw. unfold get_fantasy_data. cbv zeta.
    unfold PyNum.falsy.
    destruct (w =? 0) eqn:Hw0; [apply Z.eqb_eq in Hw0; contradiction|].
    unfold bindR at 1. unfold retR at 1.
    rewrite (get_fantasy_data_week P self season w (fun _ => retR [])).
    cbv zeta. rewrite Hw0. reflexivity.
  - intros Hno e He. unfold get_fantasy_data. cbv zeta.
    assert (forall k : Z -> R (list sportsdata_scraper.player),
              bindR (bindR (get_current_week P self season)
                       (fun cwd => retR (default 1 (cwd !! "Week")))) k log
              = (Raise e, log ++ [current_week_url self])) as Hcur.
    { intros k. unfold bindR, get_current_week, requests_get.
      fold (current_week_url self). rewrite He. reflexivity. }
    destruct week as [w|]; [|apply Hcur].
    cbn in Hno. rewrite Hno. apply Hcur.
  - intros Hno cwd Hcwd. apply get_fantasy_data_current; assumption.
Qed.

Lemma get_fantasy_data_requests_witness :
  exists players,
    get_fantasy_data sample_provider sample_scraper 2023 (Some 3) []
    = (Ok players,
       ["https://api.sportsdata.io/v3/nfl/stats/json/PlayerGameStatsByWeek/2023/3"%string])
    /\ length players = 2%nat.
Proof.
  destruct (get_fantasy_data_requests sample_provider sample_scraper 2023 (Some 3) [])
    as (H & _ & _).
  specialize (H 3 eq_refl ltac:(discriminate)).
  eexists. split.
  - rewrite H. vm_compute. reflexivity.
  - reflexivity.
Defined.

(** *** Between two seasons *)

Lemma appends_get_secret_value (w : world) (secret_id : string) :
  appends (get_secret_value w secret_id).
Proof.
  apply appends_bind; [apply appends_perform|]. intros _ E st.
  destruct (secrets w !! secret_id); reflexivity.
Qed.

Lemma appends_connect (w : world) (host database user password port : string) :
  appends (connect w host database user password port).
Proof.
  apply appends_bind; [apply appends_perform|]. intros _ E st.
  destruct (login_ok w host database user password port); reflexivity.
Qed.

Lemma appends_fetch_and_save (w : world) (secret_arn : string) (wk : Z)
    (yr : option Z) :
  appends (try_except (fetch_and_save w secret_arn wk yr) internal_error).
Proof.
  apply appends_try; [|intros e; apply appends_ret].
  unfold fetch_and_save.
  apply appends_bind; [apply appends_lift|]. intros stats_data.
  apply appends_bind; [apply appends_lift|]. intros ps.
  destruct (bool_decide (ps = [])); [apply appends_ret|].
  unfold save_to_database.
  apply appends_bind; [apply appends_get_secret_value|]. intros creds.
  do 5 (apply appends_bind; [apply appends_lift|]; intros ?).
  apply appends_bind; [apply appends_connect|]. intros _.
  apply appends_bind; [apply appends_execute|]. intros _.
  apply appends_bind; [apply appends_commit|]. intros _.
  apply appends_bind; [apply appends_persistence_step|]. intros n.
  apply appends_bind; [apply appends_close|]. intros _. apply appends_ret.
Qed.

(** The calls of an invocation that resolves its week begin with the
    provider requests. *)
Lemma lambda_handler_requests_first (w : world) (event : api_lambda.event) (st : state)
    (secret_arn : string) (wk : Z) :
  environ w !! "DB_SECRET_ARN" = Some secret_arn ->
  api_lambda.no_key (environ w !! "SPORTSDATA_API_KEY") = false ->
  resolves_week w event wk ->
  exists r st' calls,
    api_lambda.lambda_handler w event st = (r, st')
    /\ effects st'
       = effects st ++ fetch_calls event (default (Some 2024) (api_lambda.year event)) wk
           ++ calls.
Proof.
  intros Harn Hkey Hwk.
  rewrite (lambda_handler_fetch w event st secret_arn wk Harn Hkey Hwk).
  set (E := effects st ++ fetch_calls event (default (Some 2024) (api_lambda.year event)) wk).
  set (st0 := {| effects := []; db := db st; conn := conn st |}).
  assert ({| effects := E; db := db st; conn := conn st |} = with_effects E st0) as ->.
  { unfold with_effects, st0. cbn [effects db conn]. rewrite app_nil_r. reflexivity. }
  rewrite (appends_fetch_and_save w secret_arn wk (default (Some 2024) (api_lambda.year event))
             E st0).
  destruct (try_except
              (fetch_and_save w secret_arn wk (default (Some 2024) (api_lambda.year event)))
              internal_error st0) as [r st'].
  exists r, (with_effects E st'), (effects st'). split; [reflexivity|].
  unfold with_effects, E. cbn [effects]. rewrite <- app_assoc. reflexivity.
Qed.

(** X17. Between two seasons, when the provider reports 0 as the current
    week and no week is asked for, the scraper and the handler ask the
    provider for different statistics: [get_fantasy_data] requests the
    statistics of the whole season, and gives every record the Week of its
    input record, while the handler requests the statistics of week 0 of the
    year. *)
Theorem current_week_zero (P : provider) (self : sportsdata_scraper.SportsDataScraper)
    (season : Z) (log : list string) (w : world) (event : api_lambda.event)
    (st : state) (secret_arn : string)
    (current_week_data week_response : gmap string Z) :
  get_object P (current_week_url self) = Ok current_week_data ->
  current_week_data !! "Week" = Some 0 ->
  environ w !! "DB_SECRET_ARN" = Some secret_arn ->
  api_lambda.no_key (environ w !! "SPORTSDATA_API_KEY") = false ->
  api_lambda.week event = None ->
  current_week_reply w = Ok week_response ->
  week_response !! "Week" = Some 0 ->
  get_fantasy_data P self season None log
  = (let* stats_data := get_records P (season_stats_url self season) in
     sportsdata_scraper.format_player_data self stats_data None season,
     log ++ [current_week_url self; season_stats_url self season])
  /\ exists r st' calls,
       api_lambda.lambda_handler w event st = (r, st')
       /\ effects st'
          = effects st
            ++ [HttpGet CurrentWeek;
                HttpGet (PlayerGameStatsByWeek (default (Some 2024) (api_lambda.year event)) 0)]
            ++ calls.
Proof.
  intros Hcwd Hzero Harn Hkey Hweek Hreply Hzero'. split.
  - rewrite (get_fantasy_data_current P self season None log current_week_data
               eq_refl Hcwd).
    rewrite Hzero. change (default 1 (Some 0)) with 0. cbn [Z.eqb].
    destruct (get_records P (season_stats_url self season)) as [sd|e]; [|reflexivity].
    cbn [bind]. unfold sportsdata_scraper.format_player_data.
    rewrite scraper_format_loop_week_0. reflexivity.
  - assert (resolves_week w event 0) as Hwk.
    { pose proof (week_current w event week_response) as H.
      rewrite Hzero' in H. apply H; [rewrite Hweek; reflexivity | exact Hreply]. }
    destruct (lambda_handler_requests_first w event st secret_arn 0 Harn Hkey Hwk)
      as (r & st' & calls & Hrun & Heff).
    exists r, st', calls. split; [exact Hrun|].
    rewrite Heff. unfold fetch_calls. rewrite Hweek. reflexivity.
Qed.

Lemma current_week_zero_witness :
  (exists players,
     get_fantasy_data provider_off_season sample_scraper 2024 None []
     = (Ok players,
        ["https://api.sportsdata.io/v3/nfl/scores/json/CurrentWeek"%string;
         "https://api.sportsdata.io/v3/nfl/stats/json/PlayerSeasonStats/2024"%string])
     /\ map sportsdata_scraper.week players = [PyInt 3; PyInt 1])
  /\ exists r st' calls,
       api_lambda.lambda_handler (world_off_season [sample_line])
         {| api_lambda.week := None; api_lambda.year := None |} initial_state = (r, st')
       /\ effects st'
          = [HttpGet CurrentWeek; HttpGet (PlayerGameStatsByWeek (Some 2024) 0)] ++ calls.
Proof.
  destruct (current_week_zero provider_off_season sample_scraper 2024 []
              (world_off_season [sample_line])
              {| api_lambda.week := None; api_lambda.year := None |} initial_state
              "arn:secret" {[ "Week" := 0 ]} {[ "Week" := 0 ]}
              eq_refl eq_refl eq_refl eq_refl eq_refl eq_refl eq_refl) as [Hs Hh].
  split; [|exact Hh].
  eexists. split; [rewrite Hs; vm_compute; reflexivity | reflexivity].
Defined.

End Scraper.

(** ** The generator of test data *)

Section GeneratorFacts.

Import test_data_generator.

Context {S : Type} (random : random_source S).

Lemma map_constant {A B : Type} (f : A -> B) (c : B) (l : list A) :
  Forall (fun x => f x = c) l -> map f l = replicate (length l) c.
Proof. induction 1 as [|x l Hx _ IH]; cbn; [reflexivity|]. rewrite Hx, IH. reflexivity. Qed.

(** One loop of [generate_test_data]: the index of the team stays in range. *)
Lemma position_loop_spec (self : FantasyTestDataGenerator) (offset : nat)
    (position : string) (generate_stats : G (S := S) (gmap string num)) (week year : Z)
    (names : list string) :
  teams self <> [] ->
  forall i players s,
    exists new s',
      position_loop self offset position generate_stats week year i names players s
      = Some (players ++ new, s')
      /\ map sportsdata_scraper.name new = map Some names
      /\ Forall (fun p => sportsdata_scraper.position p = Some position
                          /\ sportsdata_scraper.week p = PyInt week
                          /\ sportsdata_scraper.year p = year
                          /\ sportsdata_scraper.source_url p = "test_data_generator"
                          /\ sportsdata_scraper.team p ∈ map Some (teams self)) new.
Proof.
  intros Hteams. induction names as [|name names IH]; intros i players s.
  - exists [], s. rewrite app_nil_r. repeat split; constructor.
  - cbn [position_loop].
    destruct (length (teams self)) as [|n] eqn:Hlen.
    { destruct (teams self); [contradiction | discriminate]. }
    destruct (lookup_lt_is_Some_2 (teams self) ((i + offset) mod Datatypes.S n)%nat)
      as [team Hteam].
    { rewrite Hlen. apply Nat.mod_upper_bound. discriminate. }
    rewrite Hteam. cbv zeta.
    match goal with
    | |- context [position_loop _ _ _ _ _ _ _ names (players ++ [?p]) ?s1] =>
        destruct (IH (Datatypes.S i) (players ++ [p]) s1) as (new & s' & -> & Hnames & Hall);
        exists (p :: new), s'
    end.
    split; [rewrite <- app_assoc; reflexivity|].
    split; [cbn [map sportsdata_scraper.name]; rewrite Hnames; reflexivity|].
    constructor; [|exact Hall].
    repeat split. cbn [sportsdata_scraper.team].
    apply list_elem_of_fmap. exists team. split; [reflexivity|].
    apply list_elem_of_lookup. eauto.
Qed.

(** The records of [generate_test_data], for any generator with teams. *)
Lemma generate_test_data_spec (self : FantasyTestDataGenerator) (week year : Z) (s : S) :
  teams self <> [] ->
  exists players s',
    generate_test_data random self week year s = Some (players, s')
    /\ map sportsdata_scraper.name players
       = map Some (qb_names self ++ rb_names self ++ wr_names self ++ te_names self)
    /\ map sportsdata_scraper.position players
       = replicate (length (qb_names self)) (Some "QB")
         ++ replicate (length (rb_names self)) (Some "RB")
         ++ replicate (length (wr_names self)) (Some "WR")
         ++ replicate (length (te_names self)) (Some "TE")
    /\ Forall (fun p => sportsdata_scraper.week p = PyInt week
                        /\ sportsdata_scraper.year p = year
                        /\ sportsdata_scraper.source_url p = "test_data_generator"
                        /\ sportsdata_scraper.team p ∈ map Some (teams self)) players.
Proof.
  intros Hteams. unfold generate_test_data.
  destruct (position_loop_spec self 0 "QB" (generate_qb_stats random) week year
              (qb_names self) Hteams 0%nat [] s) as (n1 & s1 & -> & Hn1 & H1).
  destruct (position_loop_spec self 12 "RB" (generate_rb_stats random) week year
              (rb_names self) Hteams 0%nat ([] ++ n1) s1) as (n2 & s2 & -> & Hn2 & H2).
  destruct (position_loop_spec self 24 "WR" (generate_wr_stats random) week year
              (wr_names self) Hteams 0%nat (([] ++ n1) ++ n2) s2)
    as (n3 & s3 & -> & Hn3 & H3).
  destruct (position_loop_spec self 0 "TE" (generate_te_stats random) week year
              (te_names self) Hteams 0%nat ((([] ++ n1) ++ n2) ++ n3) s3)
    as (n4 & s4 & -> & Hn4 & H4).
  exists (((([] ++ n1) ++ n2) ++ n3) ++ n4), s4. cbn [app].
  split; [reflexivity|]. split; [|split].
  - rewrite !map_app, Hn1, Hn2, Hn3, Hn4, <- !app_assoc. reflexivity.
  - rewrite !map_app, <- !app_assoc.
    rewrite <- (length_map Some (qb_names self)), <- (length_map Some (rb_names self)),
      <- (length_map Some (wr_names self)), <- (length_map Some (te_names self)).
    rewrite <- Hn1, <- Hn2, <- Hn3, <- Hn4, !length_map.
    f_equal; [|f_equal; [|f_equal]]; apply map_constant;
      (eapply Forall_impl; [eassumption|]); cbn; tauto.
  - repeat (apply Forall_app; split);
      (eapply Forall_impl; [eassumption|]); cbn; tauto.
Qed.

(** X18. [generate_test_data] never indexes the teams out of range, whatever
    the lists of names are, as long as there is a team: it returns one
    record per name, quarterbacks first, then running backs, wide receivers
    and tight ends, each with its position, the week and the year given,
    the source 'test_data_generator' and one of the teams. *)
Theorem generate_test_data_records (self : FantasyTestDataGenerator) (week year : Z)
    (s : S) :
  teams self <> [] ->
  exists players s',
    generate_test_data random self week year s = Some (players, s')
    /\ map sportsdata_scraper.name players
       = map Some (qb_names self ++ rb_names self ++ wr_names self ++ te_names self)
    /\ map sportsdata_scraper.position players
       = replicate (length (qb_names self)) (Some "QB")
         ++ replicate (length (rb_names self)) (Some "RB")
         ++ replicate (length (wr_names self)) (Some "WR")
         ++ replicate (length (te_names self)) (Some "TE")
    /\ Forall (fun p => sportsdata_scraper.week p = PyInt week
                        /\ sportsdata_scraper.year p = year
                        /\ sportsdata_scraper.source_url p = "test_data_generator"
                        /\ sportsdata_scraper.team p ∈ map Some (teams self)) players.
Proof. apply generate_test_data_spec. Qed.

Lemma NoDup_map_pair {A B C : Type} (f : A -> B) (g : A -> C) (l : list A) :
  NoDup (map f l) -> NoDup (map (fun x => (f x, g x)) l).
Proof.
  induction l as [|x l IH]; cbn [map]; intros Hnd; [constructor|].
  apply NoDup_cons in Hnd as [Hx Hnd]. apply NoDup_cons. split; [|apply IH, Hnd].
  intros (y & [= Hf _] & Hy)%list_elem_of_fmap. apply Hx.
  rewrite Hf. apply list_elem_of_fmap. eauto.
Qed.

(** X19. The batch of the generator as it is constructed: 44 records with
    pairwise distinct (name, team) keys, and every record has a name, a team
    and a position that the columns of the players table take as they are,
    so that its players statement is accepted on any tables. *)
Theorem generate_test_data_batch (week year : Z) (s : S) :
  exists players s',
    generate_test_data random __init__ week year s = Some (players, s')
    /\ length players = 44%nat
    /\ NoDup (map (fun p => (sportsdata_scraper.name p, sportsdata_scraper.team p))
                players)
    /\ Forall (fun p =>
                 forall now t q,
                   exists r t' q',
                     Pg.run_statement now
                       (Pg.UpsertPlayer (sportsdata_scraper.name p)
                          (sportsdata_scraper.team p) (sportsdata_scraper.position p))
                       t q
                     = (Ok (r, t'), q')) players.
Proof.
  destruct (generate_test_data_spec __init__ week year s)
    as (players & s' & Hrun & Hnames & Hpos & Hall); [discriminate|].
  exists players, s'. split; [exact Hrun|]. split; [|split].
  - rewrite <- (length_map sportsdata_scraper.name), Hnames. reflexivity.
  - apply NoDup_map_pair. rewrite Hnames.
    refine (bool_decide_unpack _ _). vm_compute. exact I.
  - apply Forall_forall. intros p Hp now t q.
    assert (exists name, sportsdata_scraper.name p = Some name
                         /\ (Pg.char_length name <=? 100)%nat = true) as (name & Hname & Hn).
    { assert (sportsdata_scraper.name p
              ∈ map Some (qb_names __init__ ++ rb_names __init__ ++ wr_names __init__
                            ++ te_names __init__)) as Hin
        by (rewrite <- Hnames; apply list_elem_of_fmap; eauto).
      apply list_elem_of_fmap in Hin as (name & -> & Hin). exists name.
      split; [reflexivity|]. revert name Hin. apply Forall_forall.
      refine (bool_decide_unpack _ _). vm_compute. exact I. }
    assert (from_option (fun s => (Pg.char_length s <=? 3)%nat) true
              (sportsdata_scraper.team p) = true) as Ht.
    { rewrite Forall_forall in Hall. destruct (Hall p Hp) as (_ & _ & _ & Hin).
      revert Hin. generalize (sportsdata_scraper.team p). apply Forall_forall.
      refine (bool_decide_unpack _ _). vm_compute. exact I. }
    assert (from_option (fun s => (Pg.char_length s <=? 5)%nat) true
              (sportsdata_scraper.position p) = true) as Hps.
    { assert (sportsdata_scraper.position p ∈ map sportsdata_scraper.position players)
        as Hin by (apply list_elem_of_fmap; eauto).
      rewrite Hpos in Hin. revert Hin. generalize (sportsdata_scraper.position p).
      apply Forall_forall. refine (bool_decide_unpack _ _). vm_compute. exact I. }
    unfold Pg.run_statement. rewrite Hname. cbn [Pg.nullable].
    rewrite (varchar_fits _ _ Hn). cbn [bind].
    rewrite (nullable_varchar_fits _ _ Ht), (nullable_varchar_fits _ _ Hps).
    cbn [bind]. destruct (Pg.upsert _ _ _ (Pg.players t)) as [rows r]. eauto.
Qed.

End GeneratorFacts.

Section GeneratorWitness.

Import test_data_generator.

Lemma generate_test_data_records_witness :
  exists players,
    generate_test_data lowest __init__ 3 2023 tt = Some (players, tt)
    /\ length players = 44%nat
    /\ Forall (fun p => sportsdata_scraper.week p = PyInt 3) players.
Proof.
  destruct (generate_test_data_records lowest __init__ 3 2023 tt)
    as (players & [] & Hrun & Hnames & _ & Hall); [discriminate|].
  exists players. split; [exact Hrun|]. split.
  - rewrite <- (length_map sportsdata_scraper.name), Hnames. reflexivity.
  - eapply Forall_impl; [exact Hall|]. cbn. tauto.
Defined.

End GeneratorWitness.
